(** * Bad pixel mask: a shallow embedding of [bad_pixel_mask.py]

    The module [jwst_reffiles/bad_pixel_mask/bad_pixel_mask.py] builds a
    bad pixel mask from a stack of exposures.  This development embeds the
    array-level functions of that module and states their properties.

    Modelling conventions.
    - A 2-D [numpy] array is a record holding its shape and its rows; the
      shape is kept apart from the rows so that arrays with a zero
      dimension keep the other one, as in [numpy].
    - Python integers are [Z]; array positions are [nat] once an index has
      been normalised the way Python does it (a negative index counts
      from the end, a slice bound is clamped to the length).
    - A floating point value is a rational ([Q]) or NaN: the functions
      embedded here compare such values, and a comparison of finite
      floats is exact; the one quotient that is taken, the fraction of
      zero samples, is kept exact.  Flag maps and the combined mask hold
      integral values and are arrays over [Z].
    - A raised exception is a value of [exn]; a function that may raise
      returns [result]. *)

From Stdlib Require Import ZArith QArith Lia Bool.
From stdpp Require Import gmap strings list fin_maps.

Local Open Scope Z_scope.

(** ** Exceptions *)

Inductive exn : Type :=
| KeyError (key : string)
| ValueError (msg : string)
| IndexError
| UnboundLocalError.

Definition result (A : Type) : Type := exn + A.

Definition Ok {A} (a : A) : result A := inr a.
Definition Raise {A} (e : exn) : result A := inl e.

Definition rbind {A B} (m : result A) (k : A -> result B) : result B :=
  match m with
  | inl e => inl e
  | inr a => k a
  end.

Notation "'let*' x ':=' m 'in' k" := (rbind m (fun x => k))
  (at level 10, x name, m at level 100, k at level 200, only parsing).
Notation "'let*' ' p ':=' m 'in' k" := (rbind m (fun p => k))
  (at level 10, p pattern, m at level 100, k at level 200, only parsing).

(** [for x in l: acc = body(acc, x)], stopping at the first exception. *)
Fixpoint for_each {A S} (l : list A) (body : S -> A -> result S) (s : S)
  : result S :=
  match l with
  | [] => Ok s
  | x :: l' => let* s' := body s x in for_each l' body s'
  end.

(** ** NumPy arrays *)

Module np.

Record ndarray (A : Type) : Type :=
  NDArray { ydim : nat; xdim : nat; rows : list (list A) }.
Arguments NDArray {A} _ _ _.
Arguments ydim {A} _.
Arguments xdim {A} _.
Arguments rows {A} _.

Definition shape {A} (a : ndarray A) : nat * nat := (ydim a, xdim a).

(** The rows agree with the shape. *)
Definition wf {A} (a : ndarray A) : Prop :=
  length (rows a) = ydim a /\ Forall (fun r => length r = xdim a) (rows a).

(** [a[r, c]] at a normalised position. *)
Definition at_ {A} (a : ndarray A) (r c : nat) : option A :=
  match rows a !! r with
  | Some row => row !! c
  | None => None
  end.

(** [np.zeros(shape)], [np.ones(shape)]. *)
Definition full {A} (sh : nat * nat) (v : A) : ndarray A :=
  NDArray (fst sh) (snd sh) (replicate (fst sh) (replicate (snd sh) v)).

(** An integer index: a negative one counts from the end; outside the
    axis it raises [IndexError]. *)
Definition index (len : nat) (i : Z) : result nat :=
  let j := if i <? 0 then i + Z.of_nat len else i in
  if (0 <=? j) && (j <? Z.of_nat len) then Ok (Z.to_nat j) else Raise IndexError.

(** A slice bound: a negative one counts from the end, and the result is
    clamped to the axis. *)
Definition bound (len : nat) (i : Z) : nat :=
  let j := if i <? 0 then i + Z.of_nat len else i in
  Z.to_nat (Z.min (Z.max j 0) (Z.of_nat len)).

(** The positions [lo, hi) selected by [start:stop]; a missing bound is
    the start or the end of the axis. *)
Definition slice (len : nat) (start stop : option Z) : nat * nat :=
  (match start with Some i => bound len i | None => 0%nat end,
   match stop with Some i => bound len i | None => len end).

Definition in_slice (s : nat * nat) (i : nat) : bool :=
  (fst s <=? i)%nat && (i <? snd s)%nat.

(** [l[start:stop]] on one axis. *)
Definition getslice {A} (l : list A) (start stop : option Z) : list A :=
  let s := slice (length l) start stop in
  take (snd s - fst s) (drop (fst s) l).

(** [a[y0:y1, x0:x1]]. *)
Definition getslice2 {A} (a : ndarray A) (y0 y1 x0 x1 : option Z) : ndarray A :=
  let sy := slice (ydim a) y0 y1 in
  let sx := slice (xdim a) x0 x1 in
  NDArray (snd sy - fst sy) (snd sx - fst sx)
          ((fun row => getslice row x0 x1) <$> getslice (rows a) y0 y1).

(** [a[y0:y1, x0:x1] = v] for a scalar [v]. *)
Definition setslice2_scalar {A} (a : ndarray A) (y0 y1 x0 x1 : option Z) (v : A)
  : ndarray A :=
  let sy := slice (ydim a) y0 y1 in
  let sx := slice (xdim a) x0 x1 in
  NDArray (ydim a) (xdim a)
    (imap (fun r row =>
             imap (fun c old => if in_slice sy r && in_slice sx c then v else old) row)
          (rows a)).

(** [a[y0:y1, x0:x1] = b] for an array [b] of the shape of the slice; any
    other shape raises [ValueError] (broadcasting is not used by the
    module). *)
Definition setslice2 {A} (a : ndarray A) (y0 y1 x0 x1 : option Z) (b : ndarray A)
  : result (ndarray A) :=
  let sy := slice (ydim a) y0 y1 in
  let sx := slice (xdim a) x0 x1 in
  if decide (shape b = ((snd sy - fst sy)%nat, (snd sx - fst sx)%nat)) then
    Ok (NDArray (ydim a) (xdim a)
          (take (fst sy) (rows a)
           ++ zip_with (fun old new => take (fst sx) old ++ new ++ drop (snd sx) old)
                       (take (snd sy - fst sy) (drop (fst sy) (rows a))) (rows b)
           ++ drop (snd sy) (rows a)))
  else Raise (ValueError "could not broadcast input array").

(** [a[y, x] = v] for integer indices. *)
Definition setitem {A} (a : ndarray A) (y x : Z) (v : A) : result (ndarray A) :=
  let* r := index (ydim a) y in
  let* c := index (xdim a) x in
  Ok (NDArray (ydim a) (xdim a) (alter (fun row => <[c := v]> row) r (rows a))).

(** [a[y, x]] for integer indices. *)
Definition getitem {A} (a : ndarray A) (y x : Z) : result A :=
  let* r := index (ydim a) y in
  let* c := index (xdim a) x in
  match at_ a r c with
  | Some v => Ok v
  | None => Raise IndexError
  end.

(** [a[ys, xs]] for two integer index lists of one length. *)
Fixpoint take_at {A} (a : ndarray A) (ys xs : list Z) : result (list A) :=
  match ys, xs with
  | y :: ys', x :: xs' =>
      let* v := getitem a y x in
      let* vs := take_at a ys' xs' in
      Ok (v :: vs)
  | [], [] => Ok []
  | _, _ => Raise IndexError
  end.

(** [np.where(cond(a))]: the positions where [cond] holds, in row-major
    order, as the pair (row indices, column indices). *)
Definition where_ {A} (cond : A -> bool) (a : ndarray A) : list Z * list Z :=
  let hits :=
    mjoin (imap (fun r row =>
                   omap (fun '(c, v) => if cond v then Some (Z.of_nat r, Z.of_nat c) else None)
                        (imap (fun c v => (c, v)) row))
                (rows a)) in
  (fst <$> hits, snd <$> hits).

(** [f(a)] elementwise. *)
Definition elementwise {A B} (f : A -> B) (a : ndarray A) : ndarray B :=
  NDArray (ydim a) (xdim a) (fmap (M := list) (fmap (M := list) f) (rows a)).

(** [a.astype(np.int)] of a boolean array. *)
Definition astype_int (a : ndarray bool) : ndarray Z :=
  elementwise (fun b : bool => if b then 1 else 0) a.

(** [a op b] elementwise on two arrays of one shape; two different shapes
    raise (no broadcasting is used by the module). *)
Definition elementwise2 {A B C} (f : A -> B -> C) (a : ndarray A) (b : ndarray B)
  : result (ndarray C) :=
  if decide (shape a = shape b) then
    Ok (NDArray (ydim a) (xdim a) (zip_with (zip_with f) (rows a) (rows b)))
  else Raise (ValueError "operands could not be broadcast together").

(** [m[flagged] += value] for a boolean mask [flagged]; a mask of another
    shape raises [IndexError]. *)
Definition iadd_where (m : ndarray Z) (flagged : ndarray bool) (value : Z)
  : result (ndarray Z) :=
  if decide (shape flagged = shape m) then
    Ok (NDArray (ydim m) (xdim m)
          (zip_with (zip_with (fun v (b : bool) => if b then v + value else v))
                    (rows m) (rows flagged)))
  else Raise IndexError.

(** A stack of 2-D planes: shape [(zdim3, ydim3, xdim3)]. *)
Record ndarray3 (A : Type) : Type :=
  NDArray3 { zdim3 : nat; ydim3 : nat; xdim3 : nat; planes : list (list (list A)) }.
Arguments NDArray3 {A} _ _ _ _.
Arguments zdim3 {A} _.
Arguments ydim3 {A} _.
Arguments xdim3 {A} _.
Arguments planes {A} _.

Definition wf3 {A} (g : ndarray3 A) : Prop :=
  length (planes g) = zdim3 g /\
  Forall (fun p => wf (NDArray (ydim3 g) (xdim3 g) p)) (planes g).

Definition elementwise3 {A B} (f : A -> B) (g : ndarray3 A) : ndarray3 B :=
  NDArray3 (zdim3 g) (ydim3 g) (xdim3 g)
           (fmap (M := list) (fmap (M := list) (fmap (M := list) f)) (planes g)).

(** [np.sum(g, axis=0)]. *)
Definition sum_axis0 (g : ndarray3 Z) : ndarray Z :=
  NDArray (ydim3 g) (xdim3 g)
          (foldr (zip_with (zip_with Z.add))
                 (replicate (ydim3 g) (replicate (xdim3 g) 0)) (planes g)).

End np.

(** ** Strings *)

(** [str.lower()] on ASCII letters. *)
Definition lower_ascii (c : Ascii.ascii) : Ascii.ascii :=
  let n := Ascii.nat_of_ascii c in
  if (65 <=? n)%nat && (n <=? 90)%nat then Ascii.ascii_of_nat (n + 32) else c.

Fixpoint lower (s : string) : string :=
  match s with
  | EmptyString => EmptyString
  | String c s' => String (lower_ascii c) (lower s')
  end.

(** ** [get_adjacent_pixels] *)

Definition get_adjacent_pixels (x_val y_val x_dim y_dim : Z)
  : result (list Z * list Z) :=
  if (0 <? x_val) && (x_val <? x_dim - 1) then
    if (0 <? y_val) && (y_val <? y_dim - 1) then
      Ok ([x_val; x_val + 1; x_val; x_val - 1],
          [y_val + 1; y_val; y_val - 1; y_val])
    else if y_val =? 0 then
      Ok ([x_val; x_val + 1; x_val - 1], [y_val + 1; y_val; y_val])
    else if y_val =? y_dim - 1 then
      Ok ([x_val + 1; x_val; x_val - 1], [y_val; y_val - 1; y_val])
    else Raise UnboundLocalError
  else if x_val =? 0 then
    if (0 <? y_val) && (y_val <? y_dim - 1) then
      Ok ([x_val; x_val + 1; x_val], [y_val + 1; y_val; y_val - 1])
    else if y_val =? 0 then
      Ok ([x_val; x_val + 1], [y_val + 1; y_val])
    else if y_val =? y_dim - 1 then
      Ok ([x_val + 1; x_val], [y_val; y_val - 1])
    else Raise UnboundLocalError
  else if x_val =? x_dim - 1 then
    if (0 <? y_val) && (y_val <? y_dim - 1) then
      Ok ([x_val; x_val; x_val - 1], [y_val + 1; y_val - 1; y_val])
    else if y_val =? 0 then
      Ok ([x_val; x_val - 1], [y_val + 1; y_val])
    else if y_val =? y_dim - 1 then
      Ok ([x_val; x_val - 1], [y_val - 1; y_val])
    else Raise UnboundLocalError
  else Raise UnboundLocalError.

(** ** Floating point values

    A finite value or NaN.  Every ordered comparison with NaN is false. *)

Inductive pyfloat : Type :=
| Fin (q : Q)
| NaN.

Definition flt (a b : pyfloat) : bool :=
  match a, b with
  | Fin x, Fin y => negb (Qle_bool y x)
  | _, _ => false
  end.

Definition fle (a b : pyfloat) : bool :=
  match a, b with
  | Fin x, Fin y => Qle_bool x y
  | _, _ => false
  end.

Definition fgt (a b : pyfloat) : bool := flt b a.
Definition fge (a b : pyfloat) : bool := fle b a.

Definition feq (a b : pyfloat) : bool :=
  match a, b with
  | Fin x, Fin y => Qeq_bool x y
  | _, _ => false
  end.

Definition fadd (a b : pyfloat) : pyfloat :=
  match a, b with
  | Fin x, Fin y => Fin (x + y)
  | _, _ => NaN
  end.

(** [k / n] for two integers, [n] being a count: [0 / 0] is NaN. *)
Definition int_truediv (k n : Z) : pyfloat :=
  if n =? 0 then NaN else Fin (inject_Z k / inject_Z n).

(** ** [get_max_dead_norm_signal_default] *)

(** The two kinds of Python object that meet in [detectors == detector]. *)
Inductive pyobj : Type :=
| PyStr (s : string)
| PyList (l : list string).

(** Python's [==]: a list and a string are never equal. *)
Definition py_eq (a b : pyobj) : bool :=
  match a, b with
  | PyStr s, PyStr t => String.eqb s t
  | PyList l, PyList k => bool_decide (l = k)
  | _, _ => false
  end.

(** [l[b]] for a boolean [b]: [False] is index 0 and [True] index 1. *)
Definition getitem_bool {A} (l : list A) (b : bool) : result A :=
  match l !! (if b then 1%nat else 0%nat) with
  | Some v => Ok v
  | None => Raise IndexError
  end.

Definition get_max_dead_norm_signal_default
    (instrument detector normalization_method : string) : result Q :=
  if String.eqb instrument "NIRCAM" && String.eqb normalization_method "none" then
    let detectors := ["NRCA1"; "NRCA2"; "NRCA3"; "NRCA4"; "NRCALONG";
                      "NRCB1"; "NRCB2"; "NRCB3"; "NRCB4"; "NRCBLONG"]%string in
    let defaults := [25; 25; 30; 30; 40; 25; 25; 25; 25; 50]%Q in
    getitem_bool defaults (py_eq (PyList detectors) (PyStr detector))
  else Ok (5 # 100)%Q.

(** ** [dead_pixels_zero_signal] *)

Definition dead_pixels_zero_signal
    (groups : np.ndarray3 pyfloat) (dead_zero_signal_fraction : pyfloat)
  : np.ndarray Z :=
  let num_groups := np.zdim3 groups in
  let zero_signal :=
    np.elementwise3 (fun v => if feq v (Fin 0) then 1 else 0) groups in
  let total_zeros := np.sum_axis0 zero_signal in
  let total_fraction :=
    np.elementwise (fun k => int_truediv k (Z.of_nat num_groups)) total_zeros in
  np.astype_int
    (np.elementwise (fun tf => fge tf dead_zero_signal_fraction) total_fraction).

(** ** [find_open_and_low_qe_pixels] *)

Definition find_open_and_low_qe_pixels
    (rate_image : np.ndarray pyfloat)
    (max_dead_signal max_low_qe max_adj_open : pyfloat)
  : result (np.ndarray Z * np.ndarray Z * np.ndarray Z) :=
  let ydim := np.ydim rate_image in
  let xdim := np.xdim rate_image in
  let low_qe_map := np.full (ydim, xdim) 0 in
  let open_pix_map := np.full (ydim, xdim) 0 in
  let adj_pix_map := np.full (ydim, xdim) 0 in
  let '(low_sig_y, low_sig_x) :=
    np.where_ (fun v => fge v max_dead_signal && flt v max_low_qe) rate_image in
  for_each (zip low_sig_x low_sig_y)
    (fun '(low_qe_map, open_pix_map, adj_pix_map) '(x, y) =>
       let* '(adj_pix_x, adj_pix_y) :=
         get_adjacent_pixels x y (Z.of_nat xdim) (Z.of_nat ydim) in
       let* adj_pix := np.take_at rate_image adj_pix_y adj_pix_x in
       let adj_check := (fun v => fgt v max_adj_open) <$> adj_pix in
       if forallb id adj_check then
         let adj_pix_map :=
           np.setslice2_scalar adj_pix_map (Some (y - 1)) (Some (y + 2))
                               (Some (x - 1)) (Some (x + 2)) 1 in
         let* adj_pix_map := np.setitem adj_pix_map y x 0 in
         let* open_pix_map := np.setitem open_pix_map y x 1 in
         Ok (low_qe_map, open_pix_map, adj_pix_map)
       else
         let* low_qe_map := np.setitem low_qe_map y x 1 in
         Ok (low_qe_map, open_pix_map, adj_pix_map))
    (low_qe_map, open_pix_map, adj_pix_map).

(** ** [reference_pixel_map], [pad_with_refpix], [science_pixels] *)

Definition reference_pixel_map (dimensions : nat * nat) (instrument_name : string)
  : np.ndarray Z :=
  let '(yd, xd) := dimensions in
  let ref_map := np.full dimensions 0 in
  let ref_map := np.setslice2_scalar ref_map None None (Some 0) (Some 4) 1 in
  let ref_map :=
    np.setslice2_scalar ref_map None None
                        (Some (Z.of_nat xd - 4)) (Some (Z.of_nat xd)) 1 in
  if negb (String.eqb (lower instrument_name) "miri") then
    let ref_map := np.setslice2_scalar ref_map (Some 0) (Some 4) None None 1 in
    np.setslice2_scalar ref_map (Some (Z.of_nat yd - 4)) (Some (Z.of_nat yd))
                        None None 1
  else ref_map.

Definition pad_with_refpix {A} (zero : A) (data : np.ndarray A)
    (instrument_name : string) : result (np.ndarray A) :=
  let '(ydim, xdim) := np.shape data in
  if negb (String.eqb (lower instrument_name) "miri") then
    let padded := np.full ((ydim + 8)%nat, (xdim + 8)%nat) zero in
    np.setslice2 padded (Some 4) (Some (-4)) (Some 4) (Some (-4)) data
  else
    let padded := np.full (ydim, (xdim + 8)%nat) zero in
    np.setslice2 padded None None (Some 4) (Some (-4)) data.

(** The branch [len(dims) == 2] of [science_pixels]. *)
Definition science_pixels {A} (data : np.ndarray A) (instrument_name : string)
  : np.ndarray A :=
  if negb (String.eqb (lower instrument_name) "miri") then
    np.getslice2 data (Some 4) (Some (-4)) (Some 4) (Some (-4))
  else
    np.getslice2 data None None (Some 4) (Some (-4)).

(** ** [combine_individual_maps] *)

(** A Python [dict] with string keys, in insertion order. *)
Fixpoint dict_get {V} (d : list (string * V)) (k : string) : option V :=
  match d with
  | [] => None
  | (k', v) :: d' => if String.eqb k' k then Some v else dict_get d' k
  end.

Definition dict_keys {V} (d : list (string * V)) : list string := fst <$> d.

(** [d[k]], raising [KeyError] on a missing key. *)
Definition dict_getitem {V} (d : list (string * V)) (k : string) : result V :=
  match dict_get d k with
  | Some v => Ok v
  | None => Raise (KeyError k)
  end.

(** The flag registry the function works with: [dqflags.pixel] of the
    [jwst] package, taken as the parameter [pixel], with the two entries
    the function overwrites. *)
Definition dq_defs (pixel : gmap string Z) : gmap string Z :=
  <["RESERVED_4" := 2147483648]> (<["REFERENCE_PIXEL" := 128]> pixel).

(** [ind_map != 0]. *)
Definition nonzero (ind_map : np.ndarray Z) : np.ndarray bool :=
  np.elementwise (fun v => negb (v =? 0)) ind_map.

Definition combine_individual_maps (pixel : gmap string Z)
    (bad_maps : list (string * np.ndarray Z)) (do_not_use_flags : list string)
  : result (np.ndarray Z) :=
  let dq_defs := dq_defs pixel in
  let* dead := dict_getitem bad_maps "DEAD" in
  let do_not_use_map := np.full (np.shape dead) 0 in
  let use_map := np.full (np.shape dead) 0 in
  let* do_not_use_map :=
    for_each do_not_use_flags
      (fun do_not_use_map pix_type =>
         match dq_defs !! pix_type with
         | Some value =>
             match dict_get bad_maps pix_type with
             | Some ind_map =>
                 let flagged := nonzero ind_map in
                 np.iadd_where do_not_use_map flagged value
             | None => Ok do_not_use_map
             end
         | None =>
             Raise (ValueError
                      ("Unrecognized bad pixel type in do_not_use_list: " +:+ pix_type))
         end)
      do_not_use_map in
  let* do_not_use_value :=
    match dq_defs !! "DO_NOT_USE" with
    | Some v => Ok v
    | None => Raise (KeyError "DO_NOT_USE")
    end in
  let* do_not_use_map :=
    np.iadd_where do_not_use_map (nonzero do_not_use_map) do_not_use_value in
  let* use_map :=
    for_each (dict_keys bad_maps)
      (fun use_map pix_type =>
         match dq_defs !! pix_type with
         | Some value =>
             if bool_decide (pix_type ∈ do_not_use_flags) then Ok use_map
             else
               let* ind_map := dict_getitem bad_maps pix_type in
               let flagged := nonzero ind_map in
               np.iadd_where use_map flagged value
         | None => Raise (ValueError ("Unrecognized bad pixel type: " +:+ pix_type))
         end)
      use_map in
  np.elementwise2 Z.add do_not_use_map use_map.

(** ** The start of [find_bad_pix], up to the normalization image *)

Definition crds_input_checks (author_name descrip pedigree use_after : string)
  : result unit :=
  if (65 <? String.length descrip)%nat then
    Raise (ValueError "Description cannot exceed 65 characters.")
  else if negb (bool_decide (pedigree ∈ ["GROUND"%string])) then
    Raise (ValueError "Pedigree must be one of: ['GROUND']")
  else Ok tt.

(** The functions of the module whose bodies are calls into [astropy]
    (file reading, sigma clipping, convolution) are parameters. *)
Record astropy_fns : Type := AstropyFns {
  read_files :
    list string -> string -> result (np.ndarray3 pyfloat * string * string);
  mean_stdev_images :
    np.ndarray3 pyfloat -> pyfloat -> np.ndarray pyfloat * np.ndarray pyfloat;
  image_stats : np.ndarray pyfloat -> pyfloat -> pyfloat * pyfloat;
  smooth : np.ndarray pyfloat -> Z -> np.ndarray pyfloat
}.

(** The calls that read pixel values of the exposures or of an image
    derived from them; a run logs them in the order in which it makes
    them. *)
Inductive pixel_op : Type :=
| OpReadFiles
| OpMeanStdevImages
| OpSciencePixels
| OpImageStats
| OpSmooth.

(** A computation that logs its pixel operations and may raise. *)
Definition logged (A : Type) : Type := list pixel_op * result A.

Definition lret {A} (a : A) : logged A := ([], Ok a).
Definition lraise {A} (e : exn) : logged A := ([], Raise e).
Definition lift {A} (r : result A) : logged A := ([], r).
Definition op {A} (o : pixel_op) (r : result A) : logged A := ([o], r).

Definition lbind {A B} (m : logged A) (k : A -> logged B) : logged B :=
  match m with
  | (t, inl e) => (t, inl e)
  | (t, inr a) => let '(t', r) := k a in (t ++ t', r)
  end.

Notation "'do*' x ':=' m 'in' k" := (lbind m (fun x => k))
  (at level 10, x name, m at level 100, k at level 200, only parsing).
Notation "'do*' ' p ':=' m 'in' k" := (lbind m (fun p => k))
  (at level 10, p pattern, m at level 100, k at level 200, only parsing).

(** The [if/elif/else] on [normalization_method.lower()]. *)
Definition normalization_image (ext : astropy_fns)
    (mean_img : np.ndarray pyfloat) (normalization_method : string)
    (smoothing_box_width : Z) : logged (np.ndarray pyfloat) :=
  if String.eqb (lower normalization_method) "smoothed" then
    op OpSmooth (Ok (smooth ext mean_img smoothing_box_width))
  else if String.eqb (lower normalization_method) "mean" then
    do* '(img_mean, img_dev) := op OpImageStats (Ok (image_stats ext mean_img (Fin 3))) in
    lret (np.elementwise (fun z => fadd z img_mean)
                         (np.full (np.shape mean_img) (Fin 0)))
  else if String.eqb (lower normalization_method) "none" then
    lret (np.full (np.shape mean_img) (Fin 1))
  else
    lraise (ValueError ("Unknown smoothing option: " +:+ normalization_method +:+ ".")).

(** [find_bad_pix] from its first line to the normalization image: the
    result is the science region of the mean image and the normalization
    image. *)
Definition find_bad_pix_normalization (ext : astropy_fns)
    (input_files : list string) (dead_search_type : string)
    (sigma_threshold : pyfloat) (normalization_method : string)
    (smoothing_box_width : Z) (author description pedigree useafter : string)
  : logged (np.ndarray pyfloat * np.ndarray pyfloat) :=
  do* _ := lift (crds_input_checks author description pedigree useafter) in
  do* '(input_exposures, instrument, detector) :=
    op OpReadFiles (read_files ext input_files dead_search_type) in
  do* '(mean_img, stdev_img) :=
    op OpMeanStdevImages (Ok (mean_stdev_images ext input_exposures sigma_threshold)) in
  do* mean_img := op OpSciencePixels (Ok (science_pixels mean_img instrument)) in
  do* stdev_img := op OpSciencePixels (Ok (science_pixels stdev_img instrument)) in
  do* smoothed_image :=
    normalization_image ext mean_img normalization_method smoothing_box_width in
  lret (mean_img, smoothed_image).

(** * Specifications and test data *)

(** ** [get_adjacent_pixels] *)

Definition in_grid (w h : Z) (c : Z * Z) : bool :=
  (0 <=? fst c) && (fst c <? w) && (0 <=? snd c) && (snd c <? h).

(** Up, right, down, left of [(x, y)], as (x, y) pairs. *)
Definition four_neighbours (x y : Z) : list (Z * Z) :=
  [(x, y + 1); (x + 1, y); (x, y - 1); (x - 1, y)].

Definition on_border (n i : Z) : bool := (i =? 0) || (i =? n - 1).

(** 4 for an interior pixel, 3 on an edge, 2 in a corner. *)
Definition neighbour_count (w h x y : Z) : nat :=
  match on_border w x, on_border h y with
  | false, false => 4
  | true, true => 2
  | _, _ => 3
  end.

(** What is asked of [get_adjacent_pixels] at [(x, y)] in a grid of
    [w] by [h] pixels. *)
Definition adjacent_pixels_spec (w h x y : Z) : Prop :=
  exists adj_x adj_y,
    get_adjacent_pixels x y w h = Ok (adj_x, adj_y) /\
    length adj_x = length adj_y /\
    (forall c, c ∈ zip adj_x adj_y -> in_grid w h c = true) /\
    zip adj_x adj_y = List.filter (in_grid w h) (four_neighbours x y) /\
    length (zip adj_x adj_y) = neighbour_count w h x y.

(** ** [find_open_and_low_qe_pixels] *)

Definition hi : pyfloat := Fin 2.
Definition lo : pyfloat := Fin 0.2.

(** A candidate in the first row and first column, every other pixel
    above the adjacent-to-open threshold. *)
Definition corner_candidate_image : np.ndarray pyfloat :=
  np.NDArray 3 3 [[lo; hi; hi];
                  [hi; hi; hi];
                  [hi; hi; hi]].

(** Two candidates that touch by a corner. *)
Definition diagonal_candidates_image : np.ndarray pyfloat :=
  np.NDArray 4 4 [[hi; hi; hi; hi];
                  [hi; lo; hi; hi];
                  [hi; hi; lo; hi];
                  [hi; hi; hi; hi]].

(** ** [reference_pixel_map], [pad_with_refpix] *)

Definition is_miri (instrument_name : string) : bool :=
  String.eqb (lower instrument_name) "miri".

(** Position [i] is one of the first 4 or of the last 4 of an axis of
    length [n]. *)
Definition outer4 (n i : nat) : bool := (i <? 4)%nat || (n - 4 <=? i)%nat.

(** The reference pixel flag asked for at row [r], column [c]: the outer
    4 columns, and the outer 4 rows unless the instrument is MIRI. *)
Definition reference_pixel_flag (yd xd : nat) (instrument_name : string)
    (r c : nat) : Z :=
  if outer4 xd c || (negb (is_miri instrument_name) && outer4 yd r) then 1 else 0.

(** The padded shape, and the positions that the padding adds. *)
Definition padded_shape (sh : nat * nat) (instrument_name : string) : nat * nat :=
  if is_miri instrument_name then (fst sh, (snd sh + 8)%nat)
  else ((fst sh + 8)%nat, (snd sh + 8)%nat).

Definition in_padding (sh : nat * nat) (instrument_name : string) (r c : nat) : bool :=
  (c <? 4)%nat || (snd sh + 4 <=? c)%nat
  || (negb (is_miri instrument_name) && ((r <? 4)%nat || (fst sh + 4 <=? r)%nat)).

(** A row between 4 padding entries on each side. *)
Definition pad_row {A} (zero : A) (row : list A) : list A :=
  replicate 4 zero ++ row ++ replicate 4 zero.

(** The rows of an array of [y] by [x] entries padded on its four sides. *)
Definition padded_rows {A} (zero : A) (y x : nat) (rws : list (list A))
  : list (list A) :=
  replicate 4 (replicate (x + 8) zero)
  ++ (pad_row zero <$> rws)
  ++ replicate 4 (replicate (x + 8) zero).

(** ** [dead_pixels_zero_signal] *)

(** The entry of a plane at row [r], column [c]. *)
Definition plane_at {A} (p : list (list A)) (r c : nat) : option A :=
  match p !! r with
  | Some row => row !! c
  | None => None
  end.

(** The number of planes of the stack whose entry at [(r, c)] is exactly
    zero. *)
Definition zero_count (groups : np.ndarray3 pyfloat) (r c : nat) : nat :=
  length (List.filter
            (fun p => match plane_at p r c with
                      | Some v => feq v (Fin 0)
                      | None => false
                      end)
            (np.planes groups)).

(** A stack of ten samples of one pixel, zero in nine of them. *)
Definition nine_zeros_of_ten : np.ndarray3 pyfloat :=
  np.NDArray3 10 1 1 (replicate 9 [[Fin 0]] ++ [[[Fin 7]]]).

(** ** Normalization *)

(** The names that the selection recognises, after lower-casing. *)
Definition known_normalization (normalization_method : string) : bool :=
  bool_decide (lower normalization_method ∈ ["smoothed"; "mean"; "none"]%string).

(** The error that a run with an unknown name ends with. *)
Definition unknown_smoothing_option (normalization_method : string) : exn :=
  ValueError ("Unknown smoothing option: " +:+ normalization_method +:+ ".").

(** "Raises before any pixel is processed": the run ends with the error
    and has logged no pixel operation. *)
Definition fails_before_any_pixel {A} (run : logged A) (e : exn) : Prop :=
  run = ([], Raise e).

(** Stand-ins for the astropy-backed functions, to run examples: one
    exposure of 9 by 9 pixels, whose mean image is the exposure itself. *)
Definition stub_fns : astropy_fns :=
  {| read_files := fun _ _ =>
       Ok (np.NDArray3 1 9 9 [replicate 9 (replicate 9 (Fin 1))],
           "NIRCAM"%string, "NRCA1"%string);
     mean_stdev_images := fun g _ =>
       (np.NDArray (np.ydim3 g) (np.xdim3 g) (default [] (head (np.planes g))),
        np.full (np.ydim3 g, np.xdim3 g) (Fin 0));
     image_stats := fun _ _ => (Fin 1, Fin 0);
     smooth := fun a _ => a |}.

(** ** [combine_individual_maps] *)

(** [sum(f(x) for x in l)]. *)
Definition zsum {T} (f : T -> Z) (l : list T) : Z :=
  foldr (fun x acc => f x + acc) 0 l.

(** The category [t] has a map that is nonzero at row [r], column [c]. *)
Definition fired_b (bad_maps : list (string * np.ndarray Z)) (t : string)
    (r c : nat) : bool :=
  match dict_get bad_maps t with
  | Some ind_map =>
      match np.at_ ind_map r c with
      | Some v => negb (v =? 0)
      | None => false
      end
  | None => false
  end.

Definition fired (bad_maps : list (string * np.ndarray Z)) (t : string)
    (r c : nat) : Prop :=
  exists ind_map v,
    dict_get bad_maps t = Some ind_map /\ np.at_ ind_map r c = Some v /\ v <> 0.

(** The registered value of a name, 0 for a name that is not registered. *)
Definition flag_value (defs : gmap string Z) (t : string) : Z :=
  default 0 (defs !! t).

(** What the category [t] adds to a pixel. *)
Definition contribution (defs : gmap string Z)
    (bad_maps : list (string * np.ndarray Z)) (r c : nat) (t : string) : Z :=
  if fired_b bad_maps t r c then flag_value defs t else 0.

(** The value of the combined mask at a pixel, as the three sums that the
    function accumulates. *)
Definition mask_value (defs : gmap string Z)
    (bad_maps : list (string * np.ndarray Z)) (do_not_use_flags : list string)
    (r c : nat) : Z :=
  let d := zsum (contribution defs bad_maps r c) do_not_use_flags in
  let u := zsum (fun k => if bool_decide (k ∈ do_not_use_flags) then 0
                          else contribution defs bad_maps r c k)
                (dict_keys bad_maps) in
  (if d =? 0 then d else d + flag_value defs "DO_NOT_USE") + u.

(** The registry gives no value to two names and gives DO_NOT_USE a power
    of two. *)
Definition registry_ok (defs : gmap string Z) : Prop :=
  (forall n m v, defs !! n = Some v -> defs !! m = Some v -> n = m) /\
  exists e, 0 <= e /\ defs !! "DO_NOT_USE" = Some (2 ^ e).

(** A defect category: a registered name other than DO_NOT_USE whose value
    is a power of two. *)
Definition is_category (defs : gmap string Z) (k : string) : Prop :=
  k <> "DO_NOT_USE"%string /\ exists e, 0 <= e /\ defs !! k = Some (2 ^ e).

(** A dictionary of category maps of shape [sh]: distinct keys, among them
    DEAD, each a category, each map of shape [sh]. *)
Definition category_maps (defs : gmap string Z)
    (bad_maps : list (string * np.ndarray Z)) (sh : nat * nat) : Prop :=
  NoDup (dict_keys bad_maps) /\
  is_Some (dict_get bad_maps "DEAD") /\
  Forall (fun kv => is_category defs (fst kv) /\
                    np.wf (snd kv) /\ np.shape (snd kv) = sh) bad_maps.

(** A valid do-not-use list: a set of registered names. *)
Definition valid_do_not_use (defs : gmap string Z) (l : list string) : Prop :=
  NoDup l /\ Forall (fun t => is_Some (defs !! t)) l.

(** The flag [flag] is set in the mask value [v]. *)
Definition flag_set (v flag : Z) : Prop := Z.land v flag <> 0.

(** [dqflags.pixel] as the [jwst] package had it when the module was
    written, to run examples. *)
Definition jwst_pixel : gmap string Z :=
  list_to_map
    [("GOOD", 0); ("DO_NOT_USE", 2 ^ 0); ("SATURATED", 2 ^ 1);
     ("JUMP_DET", 2 ^ 2); ("DROPOUT", 2 ^ 3); ("RESERVED_1", 2 ^ 4);
     ("RESERVED_2", 2 ^ 5); ("RESERVED_3", 2 ^ 6); ("RESERVED_4", 2 ^ 7);
     ("UNRELIABLE_ERROR", 2 ^ 8); ("NON_SCIENCE", 2 ^ 9); ("DEAD", 2 ^ 10);
     ("HOT", 2 ^ 11); ("WARM", 2 ^ 12); ("LOW_QE", 2 ^ 13); ("RC", 2 ^ 14);
     ("TELEGRAPH", 2 ^ 15); ("NONLINEAR", 2 ^ 16); ("BAD_REF_PIXEL", 2 ^ 17);
     ("NO_FLAT_FIELD", 2 ^ 18); ("NO_GAIN_VALUE", 2 ^ 19);
     ("NO_LIN_CORR", 2 ^ 20); ("NO_SAT_CHECK", 2 ^ 21);
     ("UNRELIABLE_BIAS", 2 ^ 22); ("UNRELIABLE_DARK", 2 ^ 23);
     ("UNRELIABLE_SLOPE", 2 ^ 24); ("UNRELIABLE_FLAT", 2 ^ 25);
     ("OPEN", 2 ^ 26); ("ADJ_OPEN", 2 ^ 27); ("UNRELIABLE_RESET", 2 ^ 28);
     ("MSA_FAILED_OPEN", 2 ^ 29); ("OTHER_BAD_PIXEL", 2 ^ 30);
     ("REFERENCE_PIXEL", 2 ^ 31)]%string.

(** Two category maps of one row: DEAD fires on the first pixel, LOW_QE on
    the second. *)
Definition two_maps : list (string * np.ndarray Z) :=
  [("DEAD"%string, np.NDArray 1 2 [[1; 0]]);
   ("LOW_QE"%string, np.NDArray 1 2 [[0; 1]])].

Definition is_pow2 (v : Z) : Prop := exists e, 0 <= e /\ v = 2 ^ e.

(** The names whose values the function adds up at a pixel: the listed
    categories that fired, DO_NOT_USE if there is one, and the categories
    outside the list that fired. *)
Definition listed_fired (bad_maps : list (string * np.ndarray Z))
    (do_not_use_flags : list string) (r c : nat) : list string :=
  List.filter (fun t => fired_b bad_maps t r c) do_not_use_flags.

Definition unlisted_fired (bad_maps : list (string * np.ndarray Z))
    (do_not_use_flags : list string) (r c : nat) : list string :=
  List.filter (fun k => negb (bool_decide (k ∈ do_not_use_flags))
                        && fired_b bad_maps k r c)
              (dict_keys bad_maps).

Definition fired_names (bad_maps : list (string * np.ndarray Z))
    (do_not_use_flags : list string) (r c : nat) : list string :=
  listed_fired bad_maps do_not_use_flags r c
  ++ (match listed_fired bad_maps do_not_use_flags r c with
      | [] => []
      | _ :: _ => ["DO_NOT_USE"%string]
      end)
  ++ unlisted_fired bad_maps do_not_use_flags r c.

(** * Further functions of the module *)

(** ** [miri_bad_columns] *)

Definition miri_bad_columns (dimensions : nat * nat) : np.ndarray Z :=
  let shorted_map := np.full dimensions 0 in
  np.setslice2_scalar shorted_map None None (Some 385) (Some 387) 1.

(** ** [dead_pixels_absolute_rate] *)

Definition dead_pixels_absolute_rate (rate_image : np.ndarray pyfloat)
    (max_dead_signal : pyfloat) : np.ndarray Z :=
  let dead_pix_map :=
    np.astype_int (np.elementwise (fun v => flt v max_dead_signal) rate_image) in
  np.elementwise (fun v : Z => v) dead_pix_map.

(** ** Neighbours as a list of coordinates *)

(** The (x, y) pairs that [get_adjacent_pixels] returns; none if it
    raises. *)
Definition adjacent_coords (x y x_dim y_dim : Z) : list (Z * Z) :=
  match get_adjacent_pixels x y x_dim y_dim with
  | inr (adj_x, adj_y) => zip adj_x adj_y
  | inl _ => []
  end.

(** ** [flag_type_check] *)

(** [str.upper()] on ASCII letters. *)
Definition upper_ascii (c : Ascii.ascii) : Ascii.ascii :=
  let n := Ascii.nat_of_ascii c in
  if (97 <=? n)%nat && (n <=? 122)%nat then Ascii.ascii_of_nat (n - 32) else c.

Fixpoint upper (s : string) : string :=
  match s with
  | EmptyString => EmptyString
  | String c s' => String (upper_ascii c) (upper s')
  end.

(** [possible_flags] is [dqflags.pixel], the parameter [pixel]. *)
Definition flag_type_check (pixel : gmap string Z) (flags : list string)
  : result (list string) :=
  let possible_flags := pixel in
  let flags := upper <$> flags in
  let* _ :=
    for_each flags
      (fun (_ : unit) flag =>
         match possible_flags !! flag with
         | None => Raise (ValueError ("Unrecognized flag type: " +:+ flag))
         | Some _ => Ok tt
         end)
      tt in
  Ok flags.

(** ** [find_open_and_low_qe_pixels]: candidates and the neighbour test *)

(** The pixel at row [r], column [c] is a candidate: its value is at
    least [max_dead_signal] and below [max_low_qe]. *)
Definition is_candidate (rate_image : np.ndarray pyfloat)
    (max_dead_signal max_low_qe : pyfloat) (r c : nat) : bool :=
  match np.at_ rate_image r c with
  | Some v => fge v max_dead_signal && flt v max_low_qe
  | None => false
  end.

(** The value at the (x, y) pair [p] is above [max_adj_open]. *)
Definition exceeds_at (rate_image : np.ndarray pyfloat) (max_adj_open : pyfloat)
    (p : Z * Z) : bool :=
  match np.at_ rate_image (Z.to_nat (snd p)) (Z.to_nat (fst p)) with
  | Some v => fgt v max_adj_open
  | None => false
  end.

(** Every one of the four neighbours of row [r], column [c] that is in
    the image is above [max_adj_open]. *)
Definition neighbours_exceed (rate_image : np.ndarray pyfloat)
    (max_adj_open : pyfloat) (r c : nat) : bool :=
  forallb (exceeds_at rate_image max_adj_open)
          (List.filter (in_grid (Z.of_nat (np.xdim rate_image))
                                (Z.of_nat (np.ydim rate_image)))
                       (four_neighbours (Z.of_nat c) (Z.of_nat r))).

(** The body of the loop of [find_open_and_low_qe_pixels], under a
    name. *)
Definition open_low_qe_step (rate_image : np.ndarray pyfloat)
    (max_adj_open : pyfloat)
    : np.ndarray Z * np.ndarray Z * np.ndarray Z -> Z * Z ->
      result (np.ndarray Z * np.ndarray Z * np.ndarray Z) :=
  fun '(low_qe_map, open_pix_map, adj_pix_map) '(x, y) =>
    let* '(adj_pix_x, adj_pix_y) :=
      get_adjacent_pixels x y (Z.of_nat (np.xdim rate_image))
                          (Z.of_nat (np.ydim rate_image)) in
    let* adj_pix := np.take_at rate_image adj_pix_y adj_pix_x in
    let adj_check := (fun v => fgt v max_adj_open) <$> adj_pix in
    if forallb id adj_check then
      let adj_pix_map :=
        np.setslice2_scalar adj_pix_map (Some (y - 1)) (Some (y + 2))
                            (Some (x - 1)) (Some (x + 2)) 1 in
      let* adj_pix_map := np.setitem adj_pix_map y x 0 in
      let* open_pix_map := np.setitem open_pix_map y x 1 in
      Ok (low_qe_map, open_pix_map, adj_pix_map)
    else
      let* low_qe_map := np.setitem low_qe_map y x 1 in
      Ok (low_qe_map, open_pix_map, adj_pix_map).

(** The (x, y) pairs of the candidates, in the order of the loop. *)
Definition candidate_coords (rate_image : np.ndarray pyfloat)
    (max_dead_signal max_low_qe : pyfloat) : list (Z * Z) :=
  let '(low_sig_y, low_sig_x) :=
    np.where_ (fun v => fge v max_dead_signal && flt v max_low_qe) rate_image in
  zip low_sig_x low_sig_y.

(** The candidate at the (x, y) pair [p] is OPEN: all its neighbours in
    the image are above [max_adj_open]. *)
Definition is_open (rate_image : np.ndarray pyfloat) (max_adj_open : pyfloat)
    (p : Z * Z) : bool :=
  neighbours_exceed rate_image max_adj_open (Z.to_nat (snd p)) (Z.to_nat (fst p)).

(** Row [r], column [c] is in the slice [y-1:y+2, x-1:x+2] around the
    (x, y) pair [p]. *)
Definition block_covers (rate_image : np.ndarray pyfloat) (p : Z * Z)
    (r c : nat) : bool :=
  np.in_slice (np.slice (np.ydim rate_image) (Some (snd p - 1)) (Some (snd p + 2))) r
  && np.in_slice (np.slice (np.xdim rate_image) (Some (fst p - 1)) (Some (fst p + 2))) c.

Definition at_pixel (p : Z * Z) (r c : nat) : bool :=
  bool_decide (r = Z.to_nat (snd p) /\ c = Z.to_nat (fst p)).

(** What one turn of the loop does to the entry at row [r], column [c]
    of each of the three maps. *)
Definition low_upd (rate_image : np.ndarray pyfloat) (max_adj_open : pyfloat)
    (r c : nat) (v : Z) (p : Z * Z) : Z :=
  if at_pixel p r c && negb (is_open rate_image max_adj_open p) then 1 else v.

Definition open_upd (rate_image : np.ndarray pyfloat) (max_adj_open : pyfloat)
    (r c : nat) (v : Z) (p : Z * Z) : Z :=
  if at_pixel p r c && is_open rate_image max_adj_open p then 1 else v.

Definition adj_upd (rate_image : np.ndarray pyfloat) (max_adj_open : pyfloat)
    (r c : nat) (v : Z) (p : Z * Z) : Z :=
  if is_open rate_image max_adj_open p then
    if at_pixel p r c then 0
    else if block_covers rate_image p r c then 1 else v
  else v.

(** ** [read_files], [extract_10th_group]

    A file is taken as [fits.open] gives it: the name it was opened
    under, the header of the primary HDU as a dictionary of strings, and
    the data of the SCI extension when the file has one.  The data is a
    2-D, 3-D or 4-D array. *)

Module fits.

(** A stack of integrations: shape [(idim4, gdim4, ydim4, xdim4)]. *)
Record ndarray4 (A : Type) : Type :=
  NDArray4 { idim4 : nat; gdim4 : nat; ydim4 : nat; xdim4 : nat;
             integrations : list (list (list (list A))) }.
Arguments NDArray4 {A} _ _ _ _ _.
Arguments idim4 {A} _.
Arguments gdim4 {A} _.
Arguments ydim4 {A} _.
Arguments xdim4 {A} _.
Arguments integrations {A} _.

Inductive data : Type :=
| Data2 (a : np.ndarray pyfloat)
| Data3 (a : np.ndarray3 pyfloat)
| Data4 (a : ndarray4 pyfloat).

(** [data.shape]. *)
Definition shape (d : data) : list nat :=
  match d with
  | Data2 a => [np.ydim a; np.xdim a]
  | Data3 a => [np.zdim3 a; np.ydim3 a; np.xdim3 a]
  | Data4 a => [idim4 a; gdim4 a; ydim4 a; xdim4 a]
  end.

Definition wf4 {A} (a : ndarray4 A) : Prop :=
  length (integrations a) = idim4 a /\
  Forall (fun g => np.wf3 (np.NDArray3 (gdim4 a) (ydim4 a) (xdim4 a) g))
         (integrations a).

Definition wf (d : data) : Prop :=
  match d with
  | Data2 a => np.wf a
  | Data3 a => np.wf3 a
  | Data4 a => wf4 a
  end.

Record hdu_list : Type :=
  HDUList { filename : string; header : list (string * string);
            sci : option data }.

(** [hdu_list['SCI'].data]. *)
Definition sci_data (h : hdu_list) : result data :=
  match sci h with
  | Some d => Ok d
  | None => Raise (KeyError "SCI")
  end.

(** [np.expand_dims(a, axis=0)] of a 2-D array. *)
Definition expand_dims (a : np.ndarray pyfloat) : np.ndarray3 pyfloat :=
  np.NDArray3 1 (np.ydim a) (np.xdim a) [np.rows a].

(** [np.concatenate((a, b), axis=0)]: the arrays must have one number
    of dimensions and agree on every axis but the first. *)
Definition concatenate (a b : data) : result data :=
  match a, b with
  | Data2 a, Data2 b =>
      if (np.xdim a =? np.xdim b)%nat then
        Ok (Data2 (np.NDArray (np.ydim a + np.ydim b) (np.xdim a)
                              (np.rows a ++ np.rows b)))
      else Raise (ValueError "all the input array dimensions except for the concatenation axis must match exactly")
  | Data3 a, Data3 b =>
      if (np.ydim3 a =? np.ydim3 b)%nat && (np.xdim3 a =? np.xdim3 b)%nat then
        Ok (Data3 (np.NDArray3 (np.zdim3 a + np.zdim3 b) (np.ydim3 a) (np.xdim3 a)
                               (np.planes a ++ np.planes b)))
      else Raise (ValueError "all the input array dimensions except for the concatenation axis must match exactly")
  | Data4 a, Data4 b =>
      if (gdim4 a =? gdim4 b)%nat && (ydim4 a =? ydim4 b)%nat
         && (xdim4 a =? xdim4 b)%nat then
        Ok (Data4 (NDArray4 (idim4 a + idim4 b) (gdim4 a) (ydim4 a) (xdim4 a)
                            (integrations a ++ integrations b)))
      else Raise (ValueError "all the input array dimensions except for the concatenation axis must match exactly")
  | _, _ => Raise (ValueError "all the input arrays must have same number of dimensions")
  end.

(** [l[9]] on the first axis, once the caller has checked its length. *)
Definition group_9 {A} (l : list A) : result A :=
  match l !! 9%nat with
  | Some g => Ok g
  | None => Raise IndexError
  end.

(** [mapM] over a list, stopping at the first exception. *)
Fixpoint traverse {A B} (f : A -> result B) (l : list A) : result (list B) :=
  match l with
  | [] => Ok []
  | x :: l' =>
      let* y := f x in
      let* ys := traverse f l' in
      Ok (y :: ys)
  end.

End fits.

(** [os.path.basename]: what follows the last slash. *)
Fixpoint basename_from (acc s : string) : string :=
  match s with
  | EmptyString => acc
  | String c s' =>
      if Ascii.eqb c (Ascii.ascii_of_nat 47) then basename_from EmptyString s'
      else basename_from (acc +:+ String c EmptyString) s'
  end.

Definition basename (s : string) : string := basename_from EmptyString s.

Definition extract_10th_group (hdu_list : fits.hdu_list)
  : result (np.ndarray3 pyfloat) :=
  let* filename := dict_getitem (fits.header hdu_list) "FILENAME" in
  let* data := fits.sci_data hdu_list in
  let dims := fits.shape data in
  match data with
  | fits.Data4 a =>
      if (fits.gdim4 a <? 10)%nat then
        Raise (ValueError ("Input file " +:+ filename +:+ " has fewer than 10 groups."))
      else
        let* group10 := fits.traverse fits.group_9 (fits.integrations a) in
        Ok (np.NDArray3 (fits.idim4 a) (fits.ydim4 a) (fits.xdim4 a) group10)
  | fits.Data3 a =>
      if (np.zdim3 a <? 10)%nat then
        Raise (ValueError ("Input file " +:+ filename +:+ " has fewer than 10 groups."))
      else
        let* plane := fits.group_9 (np.planes a) in
        Ok (fits.expand_dims (np.NDArray (np.ydim3 a) (np.xdim3 a) plane))
  | fits.Data2 _ => Raise UnboundLocalError
  end.

(** The double quote of the error messages. *)
Definition dquote : string := String (Ascii.ascii_of_nat 34) EmptyString.

Module io.

(** What the loop of [read_files] has bound after a file: the stack and
    the three comparison values. *)
Definition bound_names : Type := fits.data * string * string * string.

(** The exposure taken from one file, given its ramp-fitting status: the
    [if dead_search_type != 'zero_signal'] statement of the loop. *)
Definition exposure_of (dead_search_type : string) (hdu_list : fits.hdu_list)
    (rampfit : string) : result fits.data :=
  if negb (String.eqb dead_search_type "zero_signal") then
    if negb (String.eqb rampfit "COMPLETE") then
      Raise (ValueError
               ("File " +:+ basename (fits.filename hdu_list)
                +:+ " has not had the ramp-fitting pipeline step run. The inputs for the "
                +:+ dquote +:+ "sigma-rate" +:+ dquote +:+ " and "
                +:+ dquote +:+ "absolute_rate" +:+ dquote
                +:+ " dead pixel search must be slope images."))
    else
      let* exposure := fits.sci_data hdu_list in
      let dims := fits.shape exposure in
      let ndims := length dims in
      match exposure with
      | fits.Data2 a => Ok (fits.Data3 (fits.expand_dims a))
      | _ => Ok exposure
      end
  else
    if String.eqb rampfit "COMPLETE" then
      Raise (ValueError
               ("File " +:+ basename (fits.filename hdu_list)
                +:+ " has had the ramp-fitting pipeline step run. The inputs for the "
                +:+ dquote +:+ "zero_signal" +:+ dquote
                +:+ " dead pixel search cannot be slope images."))
    else
      let* group10 := extract_10th_group hdu_list in
      Ok (fits.Data3 group10).

(** [hdu_list[0].header['S_RAMP']], or 'NOT RUN' on a [KeyError]. *)
Definition rampfit_of (hdu_list : fits.hdu_list) : string :=
  match dict_get (fits.header hdu_list) "S_RAMP" with
  | Some v => v
  | None => "NOT RUN"%string
  end.

(** The body of the loop, for file number [i]. *)
Definition read_files_body (dead_search_type : string)
    (bound : option bound_names) (entry : nat * fits.hdu_list)
  : result (option bound_names) :=
  let '(i, hdu_list) := entry in
  let* instrument := dict_getitem (fits.header hdu_list) "INSTRUME" in
  let instrument := upper instrument in
  let* detector := dict_getitem (fits.header hdu_list) "DETECTOR" in
  let detector := upper detector in
  let* aperture := dict_getitem (fits.header hdu_list) "SUBARRAY" in
  let aperture := upper aperture in
  let rampfit := rampfit_of hdu_list in
  let* exposure := exposure_of dead_search_type hdu_list rampfit in
  let bound :=
    if (i =? 0)%nat then Some (exposure, instrument, detector, aperture)
    else bound in
  match bound with
  | None => Raise UnboundLocalError
  | Some (integrations, comparison_instrument, comparison_detector,
          comparison_aperture) =>
      if negb (String.eqb instrument comparison_instrument) then
        Raise (ValueError "Inconsistent instruments in input data!")
      else if negb (String.eqb detector comparison_detector) then
        Raise (ValueError "Inconsistent detectors in input data!")
      else if negb (String.eqb aperture comparison_aperture) then
        Raise (ValueError "Inconsistent apertures in input data!")
      else
        let* integrations := fits.concatenate integrations exposure in
        Ok (Some (integrations, comparison_instrument, comparison_detector,
                  comparison_aperture))
  end.

Definition read_files (filenames : list fits.hdu_list) (dead_search_type : string)
  : result (fits.data * string * string) :=
  let* bound :=
    for_each (zip (seq 0 (length filenames)) filenames)
             (read_files_body dead_search_type) None in
  match bound with
  | None => Raise UnboundLocalError
  | Some (integrations, comparison_instrument, comparison_detector, _) =>
      Ok (integrations, comparison_instrument, comparison_detector)
  end.

(** The header of [hdu_list] gives the instrument, detector and aperture
    [inst], [det] and [ap] once upper-cased, and its exposure is the
    stack [e]. *)
Definition file_reads (dead_search_type inst det ap : string)
    (hdu_list : fits.hdu_list) (e : np.ndarray3 pyfloat) : Prop :=
  (upper <$> dict_get (fits.header hdu_list) "INSTRUME" = Some inst) /\
  (upper <$> dict_get (fits.header hdu_list) "DETECTOR" = Some det) /\
  (upper <$> dict_get (fits.header hdu_list) "SUBARRAY" = Some ap) /\
  exposure_of dead_search_type hdu_list (rampfit_of hdu_list) = Ok (fits.Data3 e).

(** A slope image: ramp fitting is complete and the SCI data is the 2-D
    array [a]. *)
Definition slope_image (inst det ap : string) (hdu_list : fits.hdu_list)
    (a : np.ndarray pyfloat) : Prop :=
  (upper <$> dict_get (fits.header hdu_list) "INSTRUME" = Some inst) /\
  (upper <$> dict_get (fits.header hdu_list) "DETECTOR" = Some det) /\
  (upper <$> dict_get (fits.header hdu_list) "SUBARRAY" = Some ap) /\
  dict_get (fits.header hdu_list) "S_RAMP" = Some "COMPLETE"%string /\
  fits.sci hdu_list = Some (fits.Data2 a).

End io.

(** The tenth group (index 9) of every integration. *)
Definition tenth_groups {A} (a : fits.ndarray4 A) : list (list (list A)) :=
  omap (fun integ => integ !! 9%nat) (fits.integrations a).

(** A raw exposure: ramp fitting has not been run, the header names the
    file, and the SCI data is the 4-D array [a]. *)
Definition raw_exposure (inst det ap : string) (hdu_list : fits.hdu_list)
    (a : fits.ndarray4 pyfloat) : Prop :=
  (upper <$> dict_get (fits.header hdu_list) "INSTRUME" = Some inst) /\
  (upper <$> dict_get (fits.header hdu_list) "DETECTOR" = Some det) /\
  (upper <$> dict_get (fits.header hdu_list) "SUBARRAY" = Some ap) /\
  dict_get (fits.header hdu_list) "S_RAMP" <> Some "COMPLETE"%string /\
  is_Some (dict_get (fits.header hdu_list) "FILENAME") /\
  fits.sci hdu_list = Some (fits.Data4 a).

Definition sum_nat (l : list nat) : nat := foldr Nat.add 0%nat l.

(** An example slope image file, one row of two pixels of value [v]. *)
Definition slope_file_example (name inst : string) (v : Q) : fits.hdu_list :=
  fits.HDUList name
    [("INSTRUME", inst); ("DETECTOR", "nrca1"); ("SUBARRAY", "FULL");
     ("S_RAMP", "COMPLETE")]%string
    (Some (fits.Data2 (np.NDArray 1 2 [[Fin v; Fin v]]))).

(** An example raw exposure: [nint] integrations of [ngrp] groups of one
    pixel, the pixel of group [g] holding [g]. *)
Definition raw_file_example (name : string) (nint ngrp : nat) : fits.hdu_list :=
  fits.HDUList name
    [("INSTRUME", "NIRCAM"); ("DETECTOR", "NRCA1"); ("SUBARRAY", "FULL");
     ("FILENAME", name)]%string
    (Some (fits.Data4
             (fits.NDArray4 nint ngrp 1 1
                (replicate nint
                   ((fun g => [[Fin (inject_Z (Z.of_nat g))]]) <$> seq 0 ngrp))))).

(** The stack [extract_10th_group] makes of a 4-D exposure. *)
Definition tenth_group_stack (a : fits.ndarray4 pyfloat) : np.ndarray3 pyfloat :=
  np.NDArray3 (fits.idim4 a) (fits.ydim4 a) (fits.xdim4 a) (tenth_groups a).

(** * Properties *)

(** ** [get_max_dead_norm_signal_default] *)

(** A list is never equal to a string, so the index into [defaults] is
    [False], that is 0. *)
Lemma py_eq_list_str l s : py_eq (PyList l) (PyStr s) = false.
Proof. reflexivity. Qed.

(** Outside NIRCAM with no normalization the default is 0.05. *)
Lemma max_dead_norm_signal_fallback instrument detector normalization_method :
  instrument <> "NIRCAM"%string \/ normalization_method <> "none"%string ->
  get_max_dead_norm_signal_default instrument detector normalization_method
  = Ok (5 # 100)%Q.
Proof.
  intros H. unfold get_max_dead_norm_signal_default.
  destruct (String.eqb_spec instrument "NIRCAM");
    destruct (String.eqb_spec normalization_method "none"); simpl; try reflexivity.
  destruct H; contradiction.
Qed.

(** C3: for NIRCAM with no normalization the function returns the first
    entry of the table, 25.0, whatever the detector: NRCA3 (30.0 in the
    table), NRCBLONG (50.0) and a detector outside the table all give
    25.0. *)
Theorem max_dead_norm_signal_nircam_none_is_first_entry :
  (forall detector,
      get_max_dead_norm_signal_default "NIRCAM" detector "none" = Ok 25%Q) /\
  get_max_dead_norm_signal_default "NIRCAM" "NRCA3" "none" = Ok 25%Q /\
  get_max_dead_norm_signal_default "NIRCAM" "NRCBLONG" "none" = Ok 25%Q /\
  get_max_dead_norm_signal_default "NIRCAM" "MIRIMAGE" "none" = Ok 25%Q.
Proof. repeat split; intros; reflexivity. Qed.

(** ** [get_adjacent_pixels] *)


Ltac zb :=
  repeat match goal with
    | H : (_ <? _) = true |- _ => apply Z.ltb_lt in H
    | H : (_ <? _) = false |- _ => apply Z.ltb_ge in H
    | H : (_ <=? _) = true |- _ => apply Z.leb_le in H
    | H : (_ <=? _) = false |- _ => apply Z.leb_gt in H
    | H : (_ =? _) = true |- _ => apply Z.eqb_eq in H
    | H : (_ =? _) = false |- _ => apply Z.eqb_neq in H
    | H : (_ && _) = true |- _ => apply andb_true_iff in H; destruct H
    | H : (_ || _) = false |- _ => apply orb_false_iff in H; destruct H
    end.

Ltac zcase e := let E := fresh "E" in destruct e eqn:E; zb; try lia.

Lemma in_grid_true w h c :
  in_grid w h c = true <-> 0 <= fst c < w /\ 0 <= snd c < h.
Proof.
  unfold in_grid. rewrite !andb_true_iff, !Z.leb_le, !Z.ltb_lt. lia.
Qed.

Lemma in_grid_iff w h x y :
  in_grid w h (x, y) = bool_decide (0 <= x < w /\ 0 <= y < h).
Proof.
  destruct (in_grid w h (x, y)) eqn:E; symmetry.
  - apply bool_decide_eq_true. apply in_grid_true in E. exact E.
  - apply bool_decide_eq_false. intros H.
    apply (proj2 (in_grid_true w h (x, y))) in H. congruence.
Qed.

(** In a grid of at least 2 by 2 pixels the function returns, in order,
    those of the four neighbours that are in the grid. *)
Lemma get_adjacent_pixels_filter w h x y :
  2 <= w -> 2 <= h -> 0 <= x < w -> 0 <= y < h ->
  exists adj_x adj_y,
    get_adjacent_pixels x y w h = Ok (adj_x, adj_y) /\
    length adj_x = length adj_y /\
    zip adj_x adj_y = List.filter (in_grid w h) (four_neighbours x y) /\
    length (zip adj_x adj_y) = neighbour_count w h x y.
Proof.
  intros Hw Hh Hx Hy.
  unfold get_adjacent_pixels, neighbour_count, on_border, four_neighbours.
  cbn [List.filter]. rewrite !in_grid_iff.
  repeat match goal with
    | |- context [bool_decide ?P] => destruct (bool_decide_reflect P)
    end; try lia;
  repeat match goal with
    | |- context [Z.ltb ?a ?b] => zcase (Z.ltb a b)
    | |- context [Z.eqb ?a ?b] => zcase (Z.eqb a b)
    end; cbn; eexists _, _; repeat split; reflexivity.
Qed.

(** C4 (amended): for every width >= 2 and height >= 2 and every pixel
    [(x, y)] of the grid, [get_adjacent_pixels] returns only coordinates
    of the grid, namely those of the up/right/down/left neighbours that
    are in it: 4 for an interior pixel, 3 on an edge, 2 in a corner. *)
Theorem get_adjacent_pixels_spec_from_2x2 w h x y :
  2 <= w -> 2 <= h -> 0 <= x < w -> 0 <= y < h ->
  adjacent_pixels_spec w h x y.
Proof.
  intros Hw Hh Hx Hy.
  destruct (get_adjacent_pixels_filter w h x y Hw Hh Hx Hy)
    as (adj_x & adj_y & Hret & Hlen & Hzip & Hcount).
  exists adj_x, adj_y. repeat split; try assumption.
  intros c Hc. rewrite Hzip in Hc.
  apply list_elem_of_In, List.filter_In in Hc. tauto.
Qed.

Lemma get_adjacent_pixels_spec_from_2x2_witness : adjacent_pixels_spec 5 5 0 0.
Proof. apply (get_adjacent_pixels_spec_from_2x2 5 5 0 0); lia. Defined.

(** The corner (0, 0) of a 5 by 5 grid has the neighbours (0, 1) and
    (1, 0). *)
Example get_adjacent_pixels_corner_5x5 :
  get_adjacent_pixels 0 0 5 5 = Ok ([0; 1], [1; 0]).
Proof. reflexivity. Qed.

(** C4 as stated fails on a grid one pixel wide: at its only pixel the
    function answers (0, 1) and (1, 0), which are not in the grid. *)
Lemma get_adjacent_pixels_leaves_1x1_grid :
  ~ (forall w h x y,
        1 <= w -> 1 <= h -> 0 <= x < w -> 0 <= y < h ->
        adjacent_pixels_spec w h x y).
Proof.
  intros H.
  destruct (H 1 1 0 0) as (adj_x & adj_y & Hret & _ & Hin & _); try lia.
  cbv in Hret. injection Hret as <- <-.
  specialize (Hin (0, 1)). cbn in Hin.
  assert (Hc : (0, 1) ∈ [(0, 1); (1, 0)]) by (apply list_elem_of_here).
  specialize (Hin Hc). discriminate Hin.
Qed.

(** ** [find_open_and_low_qe_pixels] *)


(** C5: the candidate at (0, 0) has its two neighbours above the
    threshold and is made OPEN, but no pixel of its 3 by 3 block is set
    in the adjacent-to-open map: the block is the slice [-1:2] on both
    axes, which is empty. *)
Theorem open_pixel_on_first_row_marks_no_adjacent :
  find_open_and_low_qe_pixels corner_candidate_image (Fin 0.05) (Fin 0.5) (Fin 1.05)
  = Ok (np.NDArray 3 3 [[0; 0; 0]; [0; 0; 0]; [0; 0; 0]],
        np.NDArray 3 3 [[1; 0; 0]; [0; 0; 0]; [0; 0; 0]],
        np.NDArray 3 3 [[0; 0; 0]; [0; 0; 0]; [0; 0; 0]]).
Proof. vm_compute. reflexivity. Qed.

(** C6: (1, 1) and (2, 2) are both OPEN and each lies in the block of the
    other.  (1, 1) is processed first and sets (2, 2); processing (2, 2)
    then clears it again, so the final map has (1, 1) set and (2, 2)
    not. *)
Theorem later_open_pixel_clears_earlier_adjacent_flag :
  find_open_and_low_qe_pixels diagonal_candidates_image (Fin 0.05) (Fin 0.5) (Fin 1.05)
  = Ok (np.NDArray 4 4 [[0; 0; 0; 0]; [0; 0; 0; 0]; [0; 0; 0; 0]; [0; 0; 0; 0]],
        np.NDArray 4 4 [[0; 0; 0; 0]; [0; 1; 0; 0]; [0; 0; 1; 0]; [0; 0; 0; 0]],
        np.NDArray 4 4 [[1; 1; 1; 0]; [1; 1; 1; 1]; [1; 1; 0; 1]; [0; 1; 1; 1]]).
Proof. vm_compute. reflexivity. Qed.

(** ** Array facts *)

Section array_facts.
Context {A : Type}.
Implicit Types (a : np.ndarray A) (v : A).

Lemma at_full sh v r c :
  (r < fst sh)%nat -> (c < snd sh)%nat -> np.at_ (np.full sh v) r c = Some v.
Proof.
  intros Hr Hc. unfold np.at_, np.full; simpl.
  rewrite lookup_replicate_2 by assumption.
  apply lookup_replicate_2; assumption.
Qed.

Lemma wf_full sh v : np.wf (np.full sh v).
Proof.
  split; simpl.
  - apply length_replicate.
  - apply Forall_replicate, length_replicate.
Qed.

Lemma at_setslice2_scalar a y0 y1 x0 x1 v r c :
  np.at_ (np.setslice2_scalar a y0 y1 x0 x1 v) r c
  = (fun old =>
       if np.in_slice (np.slice (np.ydim a) y0 y1) r
          && np.in_slice (np.slice (np.xdim a) x0 x1) c
       then v else old) <$> np.at_ a r c.
Proof.
  unfold np.at_, np.setslice2_scalar; simpl.
  rewrite list_lookup_imap.
  destruct (np.rows a !! r) as [row|]; simpl; [|reflexivity].
  apply list_lookup_imap.
Qed.

Lemma wf_setslice2_scalar a y0 y1 x0 x1 v :
  np.wf a -> np.wf (np.setslice2_scalar a y0 y1 x0 x1 v).
Proof.
  intros [Hlen Hrows]. split; simpl.
  - rewrite length_imap. exact Hlen.
  - apply Forall_forall. intros row Hrow.
    apply list_elem_of_lookup in Hrow as [i Hi].
    rewrite list_lookup_imap in Hi.
    destruct (np.rows a !! i) as [old|] eqn:Hold; simpl in Hi; [|discriminate].
    injection Hi as <-. rewrite length_imap.
    eapply Forall_lookup_1 in Hrows; [exact Hrows | exact Hold].
Qed.

(** Two well-formed arrays of one shape with the same entries are equal. *)
Lemma ndarray_eq a b :
  np.wf a -> np.wf b -> np.shape a = np.shape b ->
  (forall r c, (r < np.ydim a)%nat -> (c < np.xdim a)%nat ->
               np.at_ a r c = np.at_ b r c) ->
  a = b.
Proof.
  destruct a as [ya xa ra], b as [yb xb rb].
  unfold np.wf, np.shape, np.at_; simpl.
  intros [Hla Hra] [Hlb Hrb] [= -> ->] Hat.
  rewrite Forall_lookup in Hra. rewrite Forall_lookup in Hrb.
  f_equal. apply list_eq_same_length with (n := yb); try assumption.
  intros r rowa rowb Hr Ha Hb.
  apply list_eq_same_length with (n := xb).
  - exact (Hrb r rowb Hb).
  - exact (Hra r rowa Ha).
  - intros c va vb Hc Hva Hvb.
    specialize (Hat r c Hr Hc). rewrite Ha, Hb in Hat. congruence.
Qed.
End array_facts.

Lemma bound_nonneg len i :
  0 <= i -> np.bound len i = Z.to_nat (Z.min i (Z.of_nat len)).
Proof.
  intros Hi. unfold np.bound.
  destruct (Z.ltb_spec i 0); [lia|]. f_equal. lia.
Qed.

Lemma bound_neg len i :
  i < 0 -> np.bound len i = Z.to_nat (Z.max (i + Z.of_nat len) 0).
Proof.
  intros Hi. unfold np.bound.
  destruct (Z.ltb_spec i 0); [|lia]. f_equal. lia.
Qed.

Lemma in_slice_spec s i :
  np.in_slice s i = bool_decide (fst s <= i < snd s)%nat.
Proof.
  unfold np.in_slice.
  destruct (Nat.leb_spec (fst s) i), (Nat.ltb_spec i (snd s)); simpl; symmetry;
    (apply bool_decide_eq_true; lia) || (apply bool_decide_eq_false; lia).
Qed.

(** ** [reference_pixel_map] *)

Lemma outer4_spec n i :
  outer4 n i = bool_decide (i < 4 \/ n - 4 <= i)%nat.
Proof.
  unfold outer4.
  destruct (Nat.ltb_spec i 4), (Nat.leb_spec (n - 4) i); simpl; symmetry;
    (apply bool_decide_eq_true; lia) || (apply bool_decide_eq_false; lia).
Qed.

(** C9: for a shape of at least 8 by 8 and any instrument name, the map
    has that shape and flags exactly the outer 4 columns and, unless the
    instrument is MIRI, the outer 4 rows; every other pixel is 0. *)
Theorem reference_pixel_map_flags_border yd xd instrument_name :
  (8 <= yd)%nat -> (8 <= xd)%nat ->
  let ref_map := reference_pixel_map (yd, xd) instrument_name in
  np.shape ref_map = (yd, xd) /\
  np.wf ref_map /\
  forall r c, (r < yd)%nat -> (c < xd)%nat ->
    np.at_ ref_map r c = Some (reference_pixel_flag yd xd instrument_name r c).
Proof.
  intros Hy Hx. unfold reference_pixel_map, reference_pixel_flag, is_miri.
  destruct (String.eqb (lower instrument_name) "miri"); simpl negb; cbv iota.
  - split; [reflexivity|]. split.
    { repeat apply wf_setslice2_scalar. apply wf_full. }
    intros r c Hr Hc.
    rewrite !at_setslice2_scalar, at_full by assumption.
    cbn [fmap option_fmap option_map np.slice np.ydim np.xdim np.full
         np.setslice2_scalar fst snd].
    unfold np.slice. rewrite !bound_nonneg by lia. rewrite !in_slice_spec, !outer4_spec.
    cbn [fst snd negb andb orb].
    repeat match goal with
      | |- context [bool_decide ?P] => destruct (bool_decide_reflect P)
      end; simpl; try reflexivity; lia.
  - split; [reflexivity|]. split.
    { repeat apply wf_setslice2_scalar. apply wf_full. }
    intros r c Hr Hc.
    rewrite !at_setslice2_scalar, at_full by assumption.
    cbn [fmap option_fmap option_map np.slice np.ydim np.xdim np.full
         np.setslice2_scalar fst snd].
    unfold np.slice. rewrite !bound_nonneg by lia. rewrite !in_slice_spec, !outer4_spec.
    cbn [fst snd negb andb orb].
    repeat match goal with
      | |- context [bool_decide ?P] => destruct (bool_decide_reflect P)
      end; simpl; try reflexivity; lia.
Qed.

Lemma reference_pixel_map_flags_border_witness :
  let ref_map := reference_pixel_map (9, 10)%nat "NIRCAM" in
  np.shape ref_map = (9, 10)%nat /\
  np.wf ref_map /\
  forall r c, (r < 9)%nat -> (c < 10)%nat ->
    np.at_ ref_map r c = Some (reference_pixel_flag 9 10 "NIRCAM" r c).
Proof. apply (reference_pixel_map_flags_border 9 10 "NIRCAM"); lia. Defined.

(** ** [pad_with_refpix] and [science_pixels] *)

Lemma slice_4_m4 n : np.slice (n + 8) (Some 4) (Some (-4)) = (4, n + 4)%nat.
Proof.
  unfold np.slice. rewrite bound_nonneg, bound_neg by lia. f_equal; lia.
Qed.

Lemma zip_with_replicate_left {A B C} (f : B -> A -> C) n (x : B) (l : list A) :
  length l = n -> zip_with f (replicate n x) l = f x <$> l.
Proof.
  revert n. induction l as [|y l IH]; intros [|n] Hn; simpl in *; try lia.
  - reflexivity.
  - f_equal. apply IH. lia.
Qed.

Section pad_facts.
Context {A : Type}.
Implicit Types (l mid : list A) (zero : A).

(** [l[4:-4]] of a list with 4 entries before and after [mid]. *)
Lemma getslice_4_m4 pre mid post :
  length pre = 4%nat -> length post = 4%nat ->
  np.getslice (pre ++ mid ++ post) (Some 4) (Some (-4)) = mid.
Proof.
  intros Hpre Hpost. unfold np.getslice.
  replace (length (pre ++ mid ++ post)) with (length mid + 8)%nat
    by (rewrite !length_app; lia).
  rewrite slice_4_m4. cbn [fst snd].
  rewrite drop_app_length' by (symmetry; exact Hpre).
  apply take_app_length'. lia.
Qed.

Lemma getslice_all l : np.getslice l None None = l.
Proof.
  unfold np.getslice, np.slice. cbn [fst snd].
  rewrite drop_0. apply take_ge. lia.
Qed.

Lemma getslice_pad_row zero row :
  np.getslice (pad_row zero row) (Some 4) (Some (-4)) = row.
Proof. apply getslice_4_m4; apply length_replicate. Qed.

Lemma fmap_getslice_pad_row zero (rws : list (list A)) :
  (fun row => np.getslice row (Some 4) (Some (-4))) <$> (pad_row zero <$> rws)
  = rws.
Proof.
  induction rws as [|row rws IH]; simpl; [reflexivity|].
  rewrite getslice_pad_row. f_equal. exact IH.
Qed.

(** What the assignment [zr[4:-4] = row] leaves in a row of zeros. *)
Lemma pad_row_of_zeros zero x row :
  length row = x ->
  take 4 (replicate (x + 8) zero) ++ row ++ drop (x + 4) (replicate (x + 8) zero)
  = pad_row zero row.
Proof.
  intros _. unfold pad_row.
  rewrite take_replicate, drop_replicate.
  replace (min 4 (x + 8)) with 4%nat by lia.
  replace (x + 8 - (x + 4))%nat with 4%nat by lia. reflexivity.
Qed.

Lemma lookup_pad_row_outside zero x row c :
  length row = x -> (c < x + 8)%nat -> (c < 4 \/ x + 4 <= c)%nat ->
  pad_row zero row !! c = Some zero.
Proof.
  intros Hlen Hc Hout. unfold pad_row.
  destruct (decide (c < 4)%nat) as [Hlt|Hge].
  - rewrite lookup_app_l by (rewrite length_replicate; lia).
    apply lookup_replicate_2. exact Hlt.
  - rewrite lookup_app_r by (rewrite length_replicate; lia).
    rewrite lookup_app_r by (rewrite length_replicate; lia).
    apply lookup_replicate_2. rewrite length_replicate. lia.
Qed.

Lemma pad_with_refpix_rows zero data instrument_name :
  np.wf data ->
  pad_with_refpix zero data instrument_name
  = Ok (if is_miri instrument_name
        then np.NDArray (np.ydim data) (np.xdim data + 8)
                        (pad_row zero <$> np.rows data)
        else np.NDArray (np.ydim data + 8) (np.xdim data + 8)
                        (padded_rows zero (np.ydim data) (np.xdim data)
                                     (np.rows data))).
Proof.
  destruct data as [y x rws]. intros [Hlen Hrows]. simpl in Hlen, Hrows.
  unfold pad_with_refpix, is_miri, np.shape. cbn [np.ydim np.xdim np.rows].
  destruct (String.eqb (lower instrument_name) "miri"); cbn [negb];
    unfold np.setslice2, np.full; cbn [np.ydim np.xdim np.rows np.shape fst snd].
  - rewrite slice_4_m4. unfold np.slice. cbn [fst snd].
    replace (x + 4 - 4)%nat with x by lia. rewrite Nat.sub_0_r.
    rewrite decide_True by reflexivity.
    unfold Ok. do 2 f_equal.
    rewrite take_0, drop_0, drop_replicate, Nat.sub_diag. simpl.
    rewrite take_replicate, Nat.min_id, app_nil_r.
    rewrite zip_with_replicate_left by exact Hlen.
    apply Forall_fmap_ext_1. eapply Forall_impl; [exact Hrows|].
    intros row Hrow. simpl. apply pad_row_of_zeros. exact Hrow.
  - rewrite !slice_4_m4. cbn [fst snd].
    replace (x + 4 - 4)%nat with x by lia. replace (y + 4 - 4)%nat with y by lia.
    rewrite decide_True by reflexivity.
    unfold Ok, padded_rows. do 2 f_equal.
    rewrite take_replicate, !drop_replicate, take_replicate.
    replace (min 4 (y + 8)) with 4%nat by lia.
    replace (min y (y + 8 - 4)) with y by lia.
    replace (y + 8 - (y + 4))%nat with 4%nat by lia.
    f_equal. f_equal.
    rewrite zip_with_replicate_left by exact Hlen.
    apply Forall_fmap_ext_1. eapply Forall_impl; [exact Hrows|].
    intros row Hrow. simpl. apply pad_row_of_zeros. exact Hrow.
Qed.
End pad_facts.

Section pad_roundtrip.
Context {A : Type}.

Lemma wf_pad_rows (zero : A) x (rws : list (list A)) :
  Forall (fun r => length r = x) rws ->
  Forall (fun r => length r = (x + 8)%nat) (pad_row zero <$> rws).
Proof.
  intros H. apply Forall_fmap. eapply Forall_impl; [exact H|].
  intros row Hrow. unfold compose, pad_row. cbv beta in Hrow.
  rewrite !length_app, !length_replicate. lia.
Qed.

Lemma lookup_padded_rows_outside (zero : A) y x rws r c :
  length rws = y -> Forall (fun row => length row = x) rws ->
  (r < y + 8)%nat -> (c < x + 8)%nat ->
  (c < 4 \/ x + 4 <= c \/ r < 4 \/ y + 4 <= r)%nat ->
  np.at_ (np.NDArray (y + 8) (x + 8) (padded_rows zero y x rws)) r c = Some zero.
Proof.
  intros Hlen Hrows Hr Hc Hout. unfold np.at_, padded_rows. cbn [np.rows].
  destruct (decide (r < 4)%nat) as [Hr4|Hr4].
  { rewrite lookup_app_l by (rewrite length_replicate; lia).
    rewrite lookup_replicate_2 by lia. apply lookup_replicate_2. lia. }
  rewrite lookup_app_r by (rewrite length_replicate; lia).
  rewrite length_replicate.
  destruct (decide (r < y + 4)%nat) as [Hry|Hry].
  - rewrite lookup_app_l by (rewrite length_fmap; lia).
    rewrite list_lookup_fmap.
    destruct (rws !! (r - 4)%nat) as [row|] eqn:Hrow; simpl.
    + apply lookup_pad_row_outside with (x := x); try lia.
      rewrite Forall_lookup in Hrows. exact (Hrows _ _ Hrow).
    + apply lookup_ge_None in Hrow. lia.
  - rewrite lookup_app_r by (rewrite length_fmap; lia).
    rewrite length_fmap.
    rewrite lookup_replicate_2 by lia. apply lookup_replicate_2. lia.
Qed.

(** C10: stripping the reference pixels of a padded array gives the
    array back, and every pixel that the padding adds (4 columns on
    each side and, unless the instrument is MIRI, 4 rows at the top and
    at the bottom) is zero. *)
Theorem science_pixels_pad_with_refpix (zero : A) data instrument_name :
  np.wf data ->
  exists padded,
    pad_with_refpix zero data instrument_name = Ok padded /\
    np.wf padded /\
    np.shape padded = padded_shape (np.shape data) instrument_name /\
    science_pixels padded instrument_name = data /\
    forall r c,
      (r < np.ydim padded)%nat -> (c < np.xdim padded)%nat ->
      in_padding (np.shape data) instrument_name r c = true ->
      np.at_ padded r c = Some zero.
Proof.
  intros Hwf. eexists. split; [apply pad_with_refpix_rows; exact Hwf|].
  destruct data as [y x rws]. destruct Hwf as [Hlen Hrows].
  cbn [np.ydim np.xdim np.rows] in *.
  unfold padded_shape, in_padding, science_pixels, np.shape.
  fold (is_miri instrument_name).
  cbn [np.ydim np.xdim np.rows fst snd].
  destruct (is_miri instrument_name); cbn [negb andb orb].
  - repeat split.
    + cbn [np.rows]. rewrite length_fmap. exact Hlen.
    + cbn [np.rows np.xdim]. apply wf_pad_rows. exact Hrows.
    + unfold np.getslice2. cbn [np.ydim np.xdim np.rows].
      rewrite slice_4_m4. unfold np.slice. cbn [fst snd].
      rewrite getslice_all, fmap_getslice_pad_row.
      f_equal; lia.
    + intros r c Hr Hc Hout. cbn [np.ydim np.xdim] in Hr, Hc.
      unfold np.at_. cbn [np.rows]. rewrite list_lookup_fmap.
      destruct (rws !! r) as [row|] eqn:Hrow; simpl.
      * apply lookup_pad_row_outside with (x := x); try lia.
        -- rewrite Forall_lookup in Hrows. exact (Hrows _ _ Hrow).
        -- rewrite orb_false_r in Hout. apply orb_true_iff in Hout.
           destruct Hout as [H|H];
             [apply Nat.ltb_lt in H | apply Nat.leb_le in H]; lia.
      * apply lookup_ge_None in Hrow. lia.
  - repeat split.
    + cbn [np.rows np.ydim]. unfold padded_rows.
      rewrite !length_app, !length_replicate, length_fmap. lia.
    + cbn [np.rows np.xdim]. unfold padded_rows.
      repeat apply Forall_app_2.
      * apply Forall_replicate, length_replicate.
      * apply wf_pad_rows. exact Hrows.
      * apply Forall_replicate, length_replicate.
    + unfold np.getslice2. cbn [np.ydim np.xdim np.rows].
      rewrite !slice_4_m4. cbn [fst snd]. unfold padded_rows.
      rewrite getslice_4_m4 by apply length_replicate.
      rewrite fmap_getslice_pad_row. f_equal; lia.
    + intros r c Hr Hc Hout. cbn [np.ydim np.xdim] in Hr, Hc.
      apply lookup_padded_rows_outside; try assumption.
      repeat (apply orb_true_iff in Hout; destruct Hout as [Hout|Hout]);
        (apply Nat.ltb_lt in Hout || apply Nat.leb_le in Hout); lia.
Qed.
End pad_roundtrip.

Lemma science_pixels_pad_with_refpix_witness :
  exists padded,
    pad_with_refpix 0 (np.NDArray 2 1 [[5]; [6]]) "NIRCAM" = Ok padded /\
    np.wf padded /\
    np.shape padded = padded_shape (2, 1)%nat "NIRCAM" /\
    science_pixels padded "NIRCAM" = np.NDArray 2 1 [[5]; [6]] /\
    forall r c,
      (r < np.ydim padded)%nat -> (c < np.xdim padded)%nat ->
      in_padding (2, 1)%nat "NIRCAM" r c = true ->
      np.at_ padded r c = Some 0.
Proof.
  apply (science_pixels_pad_with_refpix 0 (np.NDArray 2 1 [[5]; [6]]) "NIRCAM").
  split; [reflexivity | repeat constructor].
Defined.

(** ** [dead_pixels_zero_signal] *)

Lemma at_elementwise {A B} (f : A -> B) (a : np.ndarray A) r c :
  np.at_ (np.elementwise f a) r c = f <$> np.at_ a r c.
Proof.
  unfold np.at_, np.elementwise. cbn [np.rows].
  rewrite list_lookup_fmap.
  destruct (np.rows a !! r) as [row|]; simpl; [|reflexivity].
  apply list_lookup_fmap.
Qed.

Lemma plane_at_fmap {A B} (f : A -> B) (p : list (list A)) r c :
  plane_at (fmap (M := list) (fmap (M := list) f) p) r c = f <$> plane_at p r c.
Proof.
  unfold plane_at. rewrite list_lookup_fmap.
  destruct (p !! r) as [row|]; simpl; [|reflexivity].
  apply list_lookup_fmap.
Qed.

Lemma plane_at_wf {A} y x (p : list (list A)) r c :
  np.wf (np.NDArray y x p) -> (r < y)%nat -> (c < x)%nat ->
  is_Some (plane_at p r c).
Proof.
  intros [Hlen Hrows] Hr Hc. cbn [np.rows np.ydim np.xdim] in *.
  unfold plane_at.
  destruct (p !! r) as [row|] eqn:Hrow.
  - apply lookup_lt_is_Some. rewrite Forall_lookup in Hrows.
    rewrite (Hrows _ _ Hrow). exact Hc.
  - apply lookup_ge_None in Hrow. lia.
Qed.

(** The sum over the planes of their entries at [(r, c)]. *)
Lemma at_sum_planes y x (ps : list (list (list Z))) r c :
  Forall (fun p => np.wf (np.NDArray y x p)) ps -> (r < y)%nat -> (c < x)%nat ->
  plane_at (foldr (zip_with (zip_with Z.add)) (replicate y (replicate x 0)) ps) r c
  = Some (foldr (fun p acc => default 0 (plane_at p r c) + acc) 0 ps).
Proof.
  intros Hwf Hr Hc. induction Hwf as [|p ps Hp Hps IH]; simpl.
  - unfold plane_at. rewrite lookup_replicate_2 by exact Hr.
    apply lookup_replicate_2. exact Hc.
  - destruct (plane_at_wf y x p r c Hp Hr Hc) as [v Hv]. rewrite Hv. simpl.
    unfold plane_at in *. rewrite lookup_zip_with.
    destruct (p !! r) as [row|]; [|discriminate]. simpl.
    destruct (foldr _ _ ps !! r) as [acc|]; [|discriminate]. simpl.
    rewrite lookup_zip_with, Hv, IH. reflexivity.
Qed.

Lemma sum_indicator_zero_count (ps : list (list (list pyfloat))) r c :
  Forall (fun p => is_Some (plane_at p r c)) ps ->
  foldr (fun p acc =>
           default 0 (plane_at
                        (fmap (M := list)
                              (fmap (M := list)
                                    (fun v => if feq v (Fin 0) then 1 else 0)) p)
                        r c) + acc) 0 ps
  = Z.of_nat (length (List.filter
                        (fun p => match plane_at p r c with
                                  | Some v => feq v (Fin 0)
                                  | None => false
                                  end) ps)).
Proof.
  induction 1 as [|p ps [v Hv] _ IH]; simpl; [reflexivity|].
  rewrite plane_at_fmap, Hv, IH. simpl.
  destruct (feq v (Fin 0)); simpl length; lia.
Qed.

Lemma wf_fmap_plane {A B} (f : A -> B) y x (p : list (list A)) :
  np.wf (np.NDArray y x p) ->
  np.wf (np.NDArray y x (fmap (M := list) (fmap (M := list) f) p)).
Proof.
  intros [Hlen Hrows]. cbn [np.rows np.ydim np.xdim] in *. split.
  - cbn [np.rows np.ydim]. rewrite length_fmap. exact Hlen.
  - cbn [np.rows np.xdim]. apply Forall_fmap. eapply Forall_impl; [exact Hrows|].
    intros row Hrow. unfold compose. rewrite length_fmap. exact Hrow.
Qed.

(** The flag that [dead_pixels_zero_signal] gives a pixel of a stack with
    at least one plane. *)
Lemma dead_pixels_zero_signal_at groups fraction r c :
  np.wf3 groups -> (0 < np.zdim3 groups)%nat ->
  (r < np.ydim3 groups)%nat -> (c < np.xdim3 groups)%nat ->
  np.at_ (dead_pixels_zero_signal groups (Fin fraction)) r c
  = Some (if Qle_bool fraction
                      (inject_Z (Z.of_nat (zero_count groups r c))
                       / inject_Z (Z.of_nat (np.zdim3 groups)))
          then 1 else 0).
Proof.
  intros [Hlen Hwf] Hn Hr Hc.
  unfold dead_pixels_zero_signal, np.astype_int.
  rewrite !at_elementwise.
  unfold np.sum_axis0, np.elementwise3, np.at_.
  cbn [np.rows np.planes np.ydim3 np.xdim3 np.zdim3].
  fold (plane_at (foldr (zip_with (zip_with Z.add))
                        (replicate (np.ydim3 groups) (replicate (np.xdim3 groups) 0))
                        ((fmap (M := list)
                               (fmap (M := list)
                                     (fmap (M := list)
                                           (fun v => if feq v (Fin 0) then 1 else 0))))
                           (np.planes groups))) r c).
  rewrite at_sum_planes; try assumption.
  2:{ apply Forall_fmap. eapply Forall_impl; [exact Hwf|].
      intros p Hp. unfold compose. apply wf_fmap_plane. exact Hp. }
  rewrite foldr_fmap, sum_indicator_zero_count.
  2:{ eapply Forall_impl; [exact Hwf|]. intros p Hp. cbv beta in Hp.
      eapply plane_at_wf; eassumption. }
  simpl. unfold int_truediv, zero_count.
  destruct (Z.eqb_spec (Z.of_nat (np.zdim3 groups)) 0); [lia|]. reflexivity.
Qed.



(** ** Normalization *)

Lemma fadd_zero_l m : fadd (Fin 0) m = m.
Proof.
  destruct m as [[n d]|]; [|reflexivity].
  unfold fadd, Qplus. simpl. rewrite Z.mul_1_r. reflexivity.
Qed.

Lemma elementwise_full {A B} (f : A -> B) sh (v : A) :
  np.elementwise f (np.full sh v) = np.full sh (f v).
Proof.
  unfold np.elementwise, np.full. cbn [np.ydim np.xdim np.rows].
  rewrite !fmap_replicate. reflexivity.
Qed.

Lemma known_normalization_false normalization_method :
  known_normalization normalization_method = false ->
  String.eqb (lower normalization_method) "smoothed" = false /\
  String.eqb (lower normalization_method) "mean" = false /\
  String.eqb (lower normalization_method) "none" = false.
Proof.
  unfold known_normalization. intros H. apply bool_decide_eq_false in H.
  repeat split; apply String.eqb_neq; intros E; apply H; rewrite E;
    repeat constructor.
Qed.

(** The selection with an unknown name raises without a pixel operation. *)
Lemma normalization_image_unknown ext mean_img normalization_method width :
  known_normalization normalization_method = false ->
  fails_before_any_pixel
    (normalization_image ext mean_img normalization_method width)
    (unknown_smoothing_option normalization_method).
Proof.
  intros H. apply known_normalization_false in H as (H1 & H2 & H3).
  unfold fails_before_any_pixel, normalization_image. rewrite H1, H2, H3.
  reflexivity.
Qed.

(** C8 (amended): with the name lower-cased, 'none' gives a constant
    image of ones and 'mean' a constant image equal to the sigma-clipped
    (sigma = 3) mean of the mean image, both of the shape of the mean
    image; any name other than 'smoothed', 'mean' and 'none' raises
    [ValueError] in the selection itself without a pixel operation, which
    in [find_bad_pix] is after the exposures were read and their mean and
    standard deviation images computed and stripped of reference
    pixels. *)
Theorem normalization_selection ext mean_img normalization_method width :
  (lower normalization_method = "none"%string ->
   normalization_image ext mean_img normalization_method width
   = ([], Ok (np.full (np.shape mean_img) (Fin 1)))) /\
  (lower normalization_method = "mean"%string ->
   normalization_image ext mean_img normalization_method width
   = ([OpImageStats],
      Ok (np.full (np.shape mean_img) (fst (image_stats ext mean_img (Fin 3)))))) /\
  (forall v : pyfloat, np.shape (np.full (np.shape mean_img) v) = np.shape mean_img /\
             np.wf (np.full (np.shape mean_img) v) /\
             forall r c, (r < np.ydim mean_img)%nat -> (c < np.xdim mean_img)%nat ->
                         np.at_ (np.full (np.shape mean_img) v) r c = Some v) /\
  (known_normalization normalization_method = false ->
   fails_before_any_pixel
     (normalization_image ext mean_img normalization_method width)
     (unknown_smoothing_option normalization_method) /\
   forall input_files dead_search_type sigma_threshold
          author description pedigree useafter input_exposures instrument detector,
     crds_input_checks author description pedigree useafter = Ok tt ->
     read_files ext input_files dead_search_type
     = Ok (input_exposures, instrument, detector) ->
     find_bad_pix_normalization ext input_files dead_search_type sigma_threshold
                                normalization_method width
                                author description pedigree useafter
     = ([OpReadFiles; OpMeanStdevImages; OpSciencePixels; OpSciencePixels],
        Raise (unknown_smoothing_option normalization_method))).
Proof.
  repeat split.
  - intros H. unfold normalization_image. rewrite H. reflexivity.
  - intros H. unfold normalization_image. rewrite H. simpl.
    destruct (image_stats ext mean_img (Fin 3)) as [img_mean img_dev]. simpl.
    unfold lret. rewrite elementwise_full, fadd_zero_l. reflexivity.
  - apply length_replicate.
  - apply Forall_replicate, length_replicate.
  - intros r c Hr Hc. apply at_full; assumption.
  - apply normalization_image_unknown; assumption.
  - intros input_files dead_search_type sigma_threshold author description
           pedigree useafter input_exposures instrument detector Hcrds Hread.
    unfold find_bad_pix_normalization. rewrite Hcrds, Hread.
    cbn [lift lbind op app Ok].
    destruct (mean_stdev_images ext input_exposures sigma_threshold)
      as [mean_img0 stdev_img0] eqn:Hms.
    cbn [lbind op app Ok]. rewrite ?Hms.
    pose proof (normalization_image_unknown
                  ext (science_pixels mean_img0 instrument)
                  normalization_method width H) as Hraise.
    unfold fails_before_any_pixel in Hraise. rewrite Hraise.
    reflexivity.
Qed.

Lemma normalization_selection_witness :
  fails_before_any_pixel
    (normalization_image stub_fns (np.full (1, 1)%nat (Fin 1)) "median" 15)
    (unknown_smoothing_option "median") /\
  find_bad_pix_normalization stub_fns ["flat.fits"%string] "sigma_rate" (Fin 3)
                             "median" 15 "author" "A bad pix mask" "GROUND"
                             "2019-04-01 00:00:00"
  = ([OpReadFiles; OpMeanStdevImages; OpSciencePixels; OpSciencePixels],
     Raise (unknown_smoothing_option "median")).
Proof.
  destruct (normalization_selection stub_fns (np.full (1, 1)%nat (Fin 1))
                                    "median" 15) as (_ & _ & _ & H).
  destruct (H eq_refl) as [H1 H2]. split; [exact H1|].
  eapply H2; reflexivity.
Defined.

(** C8 as stated fails: with an unknown name [find_bad_pix] has read the
    exposures and computed the mean and standard deviation images before
    it raises. *)
Lemma unknown_normalization_raises_after_pixel_operations :
  ~ (forall ext input_files dead_search_type sigma_threshold
            normalization_method width author description pedigree useafter,
        known_normalization normalization_method = false ->
        fails_before_any_pixel
          (find_bad_pix_normalization ext input_files dead_search_type
                                      sigma_threshold normalization_method width
                                      author description pedigree useafter)
          (unknown_smoothing_option normalization_method)).
Proof.
  intros H.
  specialize (H stub_fns ["flat.fits"%string] "sigma_rate"%string (Fin 3)
                "median"%string 15 "author"%string "A bad pix mask"%string
                "GROUND"%string "2019-04-01 00:00:00"%string eq_refl).
  unfold fails_before_any_pixel in H. vm_compute in H. discriminate H.
Qed.

(** ** [combine_individual_maps] *)

Lemma at_wf {A} (a : np.ndarray A) r c :
  np.wf a -> (r < np.ydim a)%nat -> (c < np.xdim a)%nat -> is_Some (np.at_ a r c).
Proof.
  destruct a as [y x rws]. intros Hwf Hr Hc.
  exact (plane_at_wf y x rws r c Hwf Hr Hc).
Qed.

Lemma at_in_range {A} (a : np.ndarray A) r c v :
  np.wf a -> np.at_ a r c = Some v -> (r < np.ydim a)%nat /\ (c < np.xdim a)%nat.
Proof.
  intros [Hlen Hrows] Hat. unfold np.at_ in Hat.
  destruct (np.rows a !! r) as [row|] eqn:Hrow; [|discriminate].
  rewrite Forall_lookup in Hrows. specialize (Hrows _ _ Hrow).
  apply lookup_lt_Some in Hrow, Hat. lia.
Qed.

Lemma wf_elementwise {A B} (f : A -> B) (a : np.ndarray A) :
  np.wf a -> np.wf (np.elementwise f a).
Proof.
  destruct a as [y x rws]. intros Hwf.
  exact (wf_fmap_plane f y x rws Hwf).
Qed.

Lemma wf_zip_with {A B C} (f : A -> B -> C) y x
    (ra : list (list A)) (rb : list (list B)) :
  np.wf (np.NDArray y x ra) -> np.wf (np.NDArray y x rb) ->
  np.wf (np.NDArray y x (zip_with (zip_with f) ra rb)).
Proof.
  intros [Hla Hra] [Hlb Hrb]. cbn [np.rows np.ydim np.xdim] in *. split.
  - cbn [np.rows np.ydim]. rewrite length_zip_with. lia.
  - cbn [np.rows np.xdim]. apply Forall_lookup. intros i row Hrow.
    apply lookup_zip_with_Some in Hrow as (rowa & rowb & -> & Ha & Hb).
    rewrite Forall_lookup in Hra. rewrite Forall_lookup in Hrb.
    rewrite length_zip_with, (Hra _ _ Ha), (Hrb _ _ Hb). lia.
Qed.

Lemma at_zip_with {A B C} (f : A -> B -> C) y x
    (ra : list (list A)) (rb : list (list B)) r c va vb :
  np.at_ (np.NDArray y x ra) r c = Some va ->
  np.at_ (np.NDArray y x rb) r c = Some vb ->
  np.at_ (np.NDArray y x (zip_with (zip_with f) ra rb)) r c = Some (f va vb).
Proof.
  unfold np.at_. cbn [np.rows]. intros Ha Hb.
  rewrite lookup_zip_with.
  destruct (ra !! r) as [rowa|]; [|discriminate].
  destruct (rb !! r) as [rowb|]; [|discriminate]. simpl.
  rewrite lookup_zip_with, Ha, Hb. reflexivity.
Qed.

(** [m[flagged] += value] on two well-formed arrays of one shape. *)
Lemma iadd_where_spec m flagged value :
  np.wf m -> np.wf flagged -> np.shape flagged = np.shape m ->
  exists m',
    np.iadd_where m flagged value = Ok m' /\
    np.wf m' /\ np.shape m' = np.shape m /\
    forall r c v b,
      np.at_ m r c = Some v -> np.at_ flagged r c = Some b ->
      np.at_ m' r c = Some (if b then v + value else v).
Proof.
  destruct m as [y x rm], flagged as [y' x' rf].
  unfold np.shape. cbn [np.ydim np.xdim]. intros Hm Hf [= -> ->].
  unfold np.iadd_where, np.shape. cbn [np.ydim np.xdim np.rows].
  rewrite decide_True by reflexivity.
  eexists. split; [reflexivity|]. split; [|split; [reflexivity|]].
  - apply wf_zip_with; assumption.
  - intros r c v b Hv Hb.
    apply (at_zip_with (fun v (b : bool) => if b then v + value else v)
                       y x rm rf r c v b Hv Hb).
Qed.

(** A loop whose body adds [contrib t] to every pixel accumulates the sum
    of the contributions. *)
Lemma for_each_accumulate {T} (l : list T)
    (body : np.ndarray Z -> T -> result (np.ndarray Z))
    (contrib : nat -> nat -> T -> Z) sh m0 :
  (forall t m, t ∈ l -> np.wf m -> np.shape m = sh ->
     exists m', body m t = Ok m' /\ np.wf m' /\ np.shape m' = sh /\
       forall r c v, np.at_ m r c = Some v ->
                     np.at_ m' r c = Some (v + contrib r c t)) ->
  np.wf m0 -> np.shape m0 = sh ->
  exists m', for_each l body m0 = Ok m' /\ np.wf m' /\ np.shape m' = sh /\
    forall r c v, np.at_ m0 r c = Some v ->
                  np.at_ m' r c = Some (v + zsum (contrib r c) l).
Proof.
  revert m0. induction l as [|t l IH]; intros m0 Hbody Hwf Hsh.
  - exists m0. split; [reflexivity|]. split; [assumption|]. split; [assumption|].
    intros r c v Hv. simpl. rewrite Z.add_0_r. exact Hv.
  - destruct (Hbody t m0) as (m1 & Hm1 & Hwf1 & Hsh1 & Hat1);
      [apply list_elem_of_here | assumption | assumption |].
    destruct (IH m1) as (m' & Hm' & Hwf' & Hsh' & Hat'); try assumption.
    { intros t' m Ht'. apply Hbody. apply list_elem_of_further. exact Ht'. }
    exists m'. split.
    { simpl. rewrite Hm1. exact Hm'. }
    split; [assumption|]. split; [assumption|].
    intros r c v Hv. rewrite (Hat' r c _ (Hat1 r c v Hv)).
    simpl. f_equal. lia.
Qed.

Lemma dict_get_elem_of {V} (d : list (string * V)) k v :
  dict_get d k = Some v -> (k, v) ∈ d.
Proof.
  induction d as [|[k' v'] d IH]; simpl; [discriminate|].
  destruct (String.eqb_spec k' k) as [->|Hne].
  - intros [= ->]. apply list_elem_of_here.
  - intros H. apply list_elem_of_further, IH, H.
Qed.

Lemma dict_get_key {V} (d : list (string * V)) k :
  k ∈ dict_keys d -> is_Some (dict_get d k).
Proof.
  unfold dict_keys. induction d as [|[k' v'] d IH]; simpl.
  - intros H. apply elem_of_nil in H. contradiction.
  - intros H. destruct (String.eqb_spec k' k) as [->|Hne]; [eexists; reflexivity|].
    apply elem_of_cons in H as [H|H]; [congruence|]. apply IH, H.
Qed.

Lemma at_nonzero (a : np.ndarray Z) r c :
  np.at_ (nonzero a) r c = (fun v => negb (v =? 0)) <$> np.at_ a r c.
Proof. apply at_elementwise. Qed.

(** What one pass of either loop does to the accumulator. *)
Lemma add_category_spec defs bad_maps sh t value m :
  Forall (fun kv : string * np.ndarray Z =>
            np.wf (snd kv) /\ np.shape (snd kv) = sh) bad_maps ->
  defs !! t = Some value ->
  np.wf m -> np.shape m = sh ->
  exists m',
    match dict_get bad_maps t with
    | Some ind_map => np.iadd_where m (nonzero ind_map) value
    | None => Ok m
    end = Ok m' /\
    np.wf m' /\ np.shape m' = sh /\
    forall r c v, np.at_ m r c = Some v ->
                  np.at_ m' r c = Some (v + contribution defs bad_maps r c t).
Proof.
  intros Hmaps Hvalue Hwf Hsh. unfold contribution, fired_b, flag_value.
  rewrite Hvalue. cbn [default].
  destruct (dict_get bad_maps t) as [ind_map|] eqn:Hget.
  - apply dict_get_elem_of in Hget. rewrite Forall_forall in Hmaps.
    destruct (Hmaps _ Hget) as [Hwfi Hshi]. cbn [snd] in Hwfi, Hshi.
    destruct (iadd_where_spec m (nonzero ind_map) value)
      as (m' & Hm' & Hwf' & Hsh' & Hat'); try assumption.
    { apply wf_elementwise. exact Hwfi. }
    { unfold nonzero, np.elementwise, np.shape in *. cbn [np.ydim np.xdim].
      congruence. }
    exists m'. split; [exact Hm'|]. split; [exact Hwf'|]. split; [congruence|].
    intros r c v Hv.
    destruct (at_in_range m r c v Hwf Hv) as [Hr Hc].
    assert (Hdims : np.ydim ind_map = np.ydim m /\ np.xdim ind_map = np.xdim m).
    { unfold np.shape in *. split; congruence. }
    destruct (at_wf ind_map r c Hwfi) as [x Hx]; try lia.
    rewrite (Hat' r c v (negb (x =? 0)) Hv).
    + rewrite Hx. destruct (negb (x =? 0)); f_equal; lia.
    + rewrite at_nonzero, Hx. reflexivity.
  - exists m. split; [reflexivity|]. split; [assumption|]. split; [assumption|].
    intros r c v Hv. rewrite Z.add_0_r. exact Hv.
Qed.

(** The function returns, and its result is [mask_value] at every pixel. *)
Lemma combine_individual_maps_at pixel bad_maps do_not_use_flags sh :
  is_Some (dict_get bad_maps "DEAD") ->
  Forall (fun kv : string * np.ndarray Z =>
            is_Some (dq_defs pixel !! fst kv) /\
            np.wf (snd kv) /\ np.shape (snd kv) = sh) bad_maps ->
  Forall (fun t => is_Some (dq_defs pixel !! t)) do_not_use_flags ->
  is_Some (dq_defs pixel !! "DO_NOT_USE") ->
  exists final,
    combine_individual_maps pixel bad_maps do_not_use_flags = Ok final /\
    np.wf final /\ np.shape final = sh /\
    forall r c, (r < fst sh)%nat -> (c < snd sh)%nat ->
      np.at_ final r c
      = Some (mask_value (dq_defs pixel) bad_maps do_not_use_flags r c).
Proof.
  intros [dead Hdead] Hmaps Hdnu [dnu_value Hdnu_value].
  assert (Hshapes : Forall (fun kv : string * np.ndarray Z =>
                              np.wf (snd kv) /\ np.shape (snd kv) = sh) bad_maps).
  { eapply Forall_impl; [exact Hmaps|].
    intros kv (_ & Hwf & Hsh). split; assumption. }
  assert (Hdead_sh : np.shape dead = sh).
  { apply dict_get_elem_of in Hdead. rewrite Forall_forall in Hshapes.
    exact (proj2 (Hshapes _ Hdead)). }
  assert (Hgetitem : dict_getitem bad_maps "DEAD" = Ok dead).
  { unfold dict_getitem. rewrite Hdead. reflexivity. }
  unfold combine_individual_maps. rewrite Hgetitem.
  cbn [rbind Ok]. rewrite Hdead_sh.
  (* the loop over the do-not-use list *)
  destruct (for_each_accumulate do_not_use_flags
              (fun do_not_use_map pix_type =>
                 match dq_defs pixel !! pix_type with
                 | Some value =>
                     match dict_get bad_maps pix_type with
                     | Some ind_map =>
                         np.iadd_where do_not_use_map (nonzero ind_map) value
                     | None => Ok do_not_use_map
                     end
                 | None =>
                     Raise (ValueError
                              ("Unrecognized bad pixel type in do_not_use_list: "
                               +:+ pix_type))
                 end)
              (contribution (dq_defs pixel) bad_maps) sh (np.full sh 0))
    as (m1 & Hm1 & Hwf1 & Hsh1 & Hat1).
  { intros t m Ht Hwf Hsh. rewrite Forall_forall in Hdnu.
    destruct (Hdnu t Ht) as [value Hvalue]. rewrite Hvalue.
    apply add_category_spec; assumption. }
  { apply wf_full. }
  { destruct sh; reflexivity. }
  rewrite Hm1. unfold Ok at 1. cbn [rbind]. rewrite Hdnu_value. cbn [rbind Ok].
  (* the DO_NOT_USE flag *)
  destruct (iadd_where_spec m1 (nonzero m1) dnu_value)
    as (m2 & Hm2 & Hwf2 & Hsh2 & Hat2); try assumption.
  { apply wf_elementwise. exact Hwf1. }
  { reflexivity. }
  rewrite Hm2. unfold Ok at 1. cbn [rbind].
  (* the loop over the category maps *)
  match goal with
  | |- context [for_each (dict_keys bad_maps) ?body ?m0] =>
      destruct (for_each_accumulate (dict_keys bad_maps) body
                  (fun r c k => if bool_decide (k ∈ do_not_use_flags) then 0
                                else contribution (dq_defs pixel) bad_maps r c k)
                  sh m0)
        as (u & Hu & Hwfu & Hshu & Hatu)
  end.
  { intros k m Hk Hwf Hsh.
    assert (Hvalue : is_Some (dq_defs pixel !! k)).
    { unfold dict_keys in Hk. apply list_elem_of_fmap in Hk as ([k' a] & -> & Hin).
      rewrite Forall_forall in Hmaps. exact (proj1 (Hmaps _ Hin)). }
    destruct Hvalue as [value Hvalue]. rewrite Hvalue.
    destruct (bool_decide (k ∈ do_not_use_flags)).
    - exists m. split; [reflexivity|]. split; [assumption|]. split; [assumption|].
      intros r c v Hv. rewrite Z.add_0_r. exact Hv.
    - destruct (dict_get_key bad_maps k Hk) as [ind_map Hget].
      destruct (add_category_spec (dq_defs pixel) bad_maps sh k value m
                  Hshapes Hvalue Hwf Hsh) as (m' & Hm' & Hrest).
      unfold rbind, dict_getitem. rewrite Hget in *.
      exists m'. split; [exact Hm'|]. exact Hrest. }
  { apply wf_full. }
  { destruct sh; reflexivity. }
  rewrite Hu. unfold Ok at 1. cbn [rbind].
  (* the sum of the two maps *)
  destruct m2 as [y2 x2 r2], u as [yu xu ru].
  unfold np.elementwise2.
  rewrite decide_True by congruence.
  assert (Hdims : (y2, x2) = sh /\ (yu, xu) = sh).
  { unfold np.shape in *. cbn [np.ydim np.xdim] in *. split; congruence. }
  destruct Hdims as [Hd2 Hdu]. destruct sh as [y x].
  injection Hd2 as -> ->. injection Hdu as -> ->.
  eexists. split; [reflexivity|]. cbn [np.ydim np.xdim np.rows].
  split; [apply wf_zip_with; assumption|]. split; [reflexivity|].
  intros r c Hr Hc. cbn [fst snd] in Hr, Hc.
  pose proof (at_full (y, x) 0 r c Hr Hc) as H0.
  pose proof (Hat1 r c 0 H0) as Hd. cbn [Z.add] in Hd.
  pose proof (Hatu r c 0 H0) as Huv. cbn [Z.add] in Huv.
  set (d := zsum (contribution (dq_defs pixel) bad_maps r c) do_not_use_flags) in *.
  assert (Hb : np.at_ (nonzero m1) r c = Some (negb (d =? 0))).
  { rewrite at_nonzero, Hd. reflexivity. }
  pose proof (Hat2 r c d _ Hd Hb) as Hd2.
  rewrite (at_zip_with Z.add y x r2 ru r c _ _ Hd2 Huv).
  f_equal. unfold mask_value, flag_value. rewrite Hdnu_value. cbn [default].
  fold d. destruct (d =? 0); reflexivity.
Qed.

(** *** Sums of distinct powers of two *)

Lemma testbit_pow2 e i : 0 <= e -> Z.testbit (2 ^ e) i = (e =? i).
Proof. intros He. apply Z.pow2_bits_eqb. exact He. Qed.

Lemma land_pow2_zero e s :
  0 <= e -> Z.testbit s e = false -> Z.land (2 ^ e) s = 0.
Proof.
  intros He Hs. apply Z.bits_inj'. intros n Hn.
  rewrite Z.land_spec, Z.bits_0, testbit_pow2 by exact He.
  destruct (Z.eqb_spec e n) as [->|]; [rewrite Hs|]; reflexivity.
Qed.

Lemma testbit_add_pow2 e s i :
  0 <= e -> Z.testbit s e = false ->
  Z.testbit (2 ^ e + s) i = xorb (e =? i) (Z.testbit s i).
Proof.
  intros He Hs.
  rewrite Z.add_nocarry_lxor by (apply land_pow2_zero; assumption).
  rewrite Z.lxor_spec, testbit_pow2 by exact He. reflexivity.
Qed.

Lemma pow2_inj e i : 0 <= e -> 0 <= i -> 2 ^ e = 2 ^ i -> e = i.
Proof. intros He Hi H. apply (Z.pow_inj_r 2); lia. Qed.

(** The bits of a sum of distinct powers of two are the summands. *)
Lemma testbit_sum_pow2 (vs : list Z) i :
  NoDup vs -> Forall is_pow2 vs -> 0 <= i ->
  Z.testbit (zsum id vs) i = bool_decide (2 ^ i ∈ vs).
Proof.
  intros Hnd Hpow. revert i.
  induction Hnd as [|v vs Hv Hnd IH]; intros i Hi.
  - cbn [zsum foldr]. rewrite Z.bits_0. symmetry. apply bool_decide_eq_false.
    apply not_elem_of_nil.
  - apply Forall_cons in Hpow as [(e & He & ->) Hpow]. specialize (IH Hpow).
    unfold zsum in *. cbn [foldr]. unfold id at 1.
    assert (Hs : Z.testbit (zsum id vs) e = false).
    { rewrite IH by exact He. apply bool_decide_eq_false. exact Hv. }
    rewrite testbit_add_pow2, IH by assumption.
    destruct (Z.eqb_spec e i) as [->|Hne].
    + rewrite (bool_decide_eq_false_2 _ Hv). simpl. symmetry.
      apply bool_decide_eq_true. apply list_elem_of_here.
    + simpl. apply bool_decide_ext. rewrite elem_of_cons.
      split; [tauto|]. intros [H|H]; [|exact H].
      exfalso. apply Hne. symmetry. apply pow2_inj; assumption.
Qed.

Lemma flag_set_testbit v d :
  0 <= d -> flag_set v (2 ^ d) <-> Z.testbit v d = true.
Proof.
  intros Hd. unfold flag_set. split.
  - intros H. destruct (Z.testbit v d) eqn:E; [reflexivity|].
    exfalso. apply H. rewrite Z.land_comm. apply land_pow2_zero; assumption.
  - intros H E. apply (f_equal (fun z => Z.testbit z d)) in E.
    rewrite Z.land_spec, Z.bits_0, H, testbit_pow2, Z.eqb_refl in E by exact Hd.
    discriminate E.
Qed.

(** *** Sums over lists *)

Lemma zsum_app {T} (f : T -> Z) l k : zsum f (l ++ k) = zsum f l + zsum f k.
Proof. induction l as [|x l IH]; simpl; [reflexivity|]. rewrite IH. lia. Qed.

Lemma zsum_filter {T} (f : T -> Z) (p : T -> bool) l :
  zsum (fun x => if p x then f x else 0) l = zsum f (List.filter p l).
Proof.
  induction l as [|x l IH]; simpl; [reflexivity|].
  rewrite IH. destruct (p x); reflexivity.
Qed.

Lemma zsum_ext {T} (f g : T -> Z) l :
  (forall x, x ∈ l -> f x = g x) -> zsum f l = zsum g l.
Proof.
  induction l as [|x l IH]; intros H; simpl; [reflexivity|].
  rewrite (H x) by apply list_elem_of_here. rewrite IH; [reflexivity|].
  intros y Hy. apply H, list_elem_of_further, Hy.
Qed.

Lemma zsum_perm {T} (f : T -> Z) l k : Permutation l k -> zsum f l = zsum f k.
Proof. induction 1; simpl; lia. Qed.

Lemma zsum_fmap {T} (f : T -> Z) l : zsum f l = zsum id (f <$> l).
Proof. induction l as [|x l IH]; simpl; [reflexivity|]. rewrite IH. reflexivity. Qed.

Lemma zsum_pos {T} (f : T -> Z) l :
  (forall x, x ∈ l -> 0 < f x) -> l <> [] -> 0 < zsum f l.
Proof.
  induction l as [|x l IH]; intros H Hne; [congruence|]. simpl.
  pose proof (H x (list_elem_of_here _ _)) as Hx.
  destruct l as [|y l]; [simpl; lia|].
  assert (0 < zsum f (y :: l)); [|lia].
  apply IH; [|discriminate]. intros z Hz. apply H, list_elem_of_further, Hz.
Qed.

Lemma elem_of_filter_bool {T} (p : T -> bool) l x :
  x ∈ List.filter p l <-> x ∈ l /\ p x = true.
Proof. rewrite !list_elem_of_In. apply List.filter_In. Qed.

Lemma NoDup_filter_bool {T} (p : T -> bool) l :
  NoDup l -> NoDup (List.filter p l).
Proof.
  induction 1 as [|x l Hx Hnd IH]; simpl; [constructor|].
  destruct (p x); [|exact IH]. constructor; [|exact IH].
  rewrite elem_of_filter_bool. tauto.
Qed.

(** *** The names that make up a mask value *)

Lemma fired_b_iff bad_maps t r c :
  fired_b bad_maps t r c = true <-> fired bad_maps t r c.
Proof.
  unfold fired_b, fired. split.
  - destruct (dict_get bad_maps t) as [ind_map|]; [|discriminate].
    destruct (np.at_ ind_map r c) as [v|] eqn:Hv; [|discriminate].
    intros H. exists ind_map, v. split; [reflexivity|]. split; [exact Hv|].
    intros ->. discriminate H.
  - intros (ind_map & v & -> & -> & Hv).
    destruct (Z.eqb_spec v 0); [contradiction|reflexivity].
Qed.

Lemma fired_b_key bad_maps t r c :
  fired_b bad_maps t r c = true -> t ∈ dict_keys bad_maps.
Proof.
  unfold fired_b. destruct (dict_get bad_maps t) as [ind_map|] eqn:Hget;
    [|discriminate].
  intros _. apply dict_get_elem_of in Hget.
  unfold dict_keys. apply list_elem_of_fmap. exists (t, ind_map). split; [reflexivity|assumption].
Qed.

Lemma category_of_key defs bad_maps sh k :
  category_maps defs bad_maps sh -> k ∈ dict_keys bad_maps -> is_category defs k.
Proof.
  intros (_ & _ & Hmaps) Hk. unfold dict_keys in Hk.
  apply list_elem_of_fmap in Hk as ([k' a] & -> & Hin).
  rewrite Forall_forall in Hmaps. exact (proj1 (Hmaps _ Hin)).
Qed.

Lemma flag_value_category defs k :
  is_category defs k ->
  exists e, 0 <= e /\ defs !! k = Some (2 ^ e) /\ flag_value defs k = 2 ^ e.
Proof.
  intros (_ & e & He & Hk). exists e. unfold flag_value. rewrite Hk. auto.
Qed.

Section mask_names.
Context (defs : gmap string Z) (bad_maps : list (string * np.ndarray Z))
        (do_not_use_flags : list string) (sh : nat * nat).
Hypothesis Hreg : registry_ok defs.
Hypothesis Hmaps : category_maps defs bad_maps sh.
Hypothesis Hdnu : valid_do_not_use defs do_not_use_flags.

Lemma fired_names_elem r c n :
  n ∈ fired_names bad_maps do_not_use_flags r c <->
  (n ∈ do_not_use_flags /\ fired bad_maps n r c) \/
  ((n = "DO_NOT_USE"%string) /\
   exists t, t ∈ do_not_use_flags /\ fired bad_maps t r c) \/
  ((n ∉ do_not_use_flags) /\ fired bad_maps n r c).
Proof.
  unfold fired_names, unlisted_fired. rewrite !elem_of_app.
  unfold listed_fired at 1. rewrite !elem_of_filter_bool.
  rewrite andb_true_iff, negb_true_iff, bool_decide_eq_false, !fired_b_iff.
  assert (Hmid : n ∈ match listed_fired bad_maps do_not_use_flags r c with
                     | [] => []
                     | _ :: _ => ["DO_NOT_USE"%string]
                     end <->
                 n = "DO_NOT_USE"%string /\
                 exists t, t ∈ do_not_use_flags /\ fired bad_maps t r c).
  { destruct (listed_fired bad_maps do_not_use_flags r c) as [|t l] eqn:E.
    - rewrite elem_of_nil. split; [contradiction|].
      intros (_ & t & Ht & Hf). apply fired_b_iff in Hf.
      assert (Hin : t ∈ listed_fired bad_maps do_not_use_flags r c)
        by (apply elem_of_filter_bool; auto).
      rewrite E in Hin. apply elem_of_nil in Hin. exact Hin.
    - rewrite list_elem_of_singleton. split; [|tauto].
      intros ->. split; [reflexivity|]. exists t.
      assert (Hin : t ∈ listed_fired bad_maps do_not_use_flags r c)
        by (rewrite E; apply list_elem_of_here).
      apply elem_of_filter_bool in Hin as [Hin Hf].
      apply fired_b_iff in Hf. auto. }
  rewrite Hmid. split.
  - intros [H|[H|(Hk & Hn & Hf)]]; auto.
  - intros [H|[H|[Hn Hf]]]; auto. right. right. split; [|auto].
    apply fired_b_key with (r := r) (c := c). apply fired_b_iff. exact Hf.
Qed.

Lemma fired_is_category r c n :
  fired bad_maps n r c -> is_category defs n.
Proof.
  intros Hf. apply fired_b_iff, fired_b_key in Hf.
  exact (category_of_key defs bad_maps sh n Hmaps Hf).
Qed.

(** Every name of the list has a power of two as its value. *)
Lemma fired_names_value r c n :
  n ∈ fired_names bad_maps do_not_use_flags r c ->
  exists e, 0 <= e /\ defs !! n = Some (2 ^ e) /\ flag_value defs n = 2 ^ e.
Proof.
  intros Hn. apply fired_names_elem in Hn as [[_ Hf]|[[-> _]|[_ Hf]]].
  - apply flag_value_category, (fired_is_category r c), Hf.
  - destruct Hreg as (_ & e & He & Hv). exists e. unfold flag_value.
    rewrite Hv. auto.
  - apply flag_value_category, (fired_is_category r c), Hf.
Qed.

Lemma fired_names_NoDup r c :
  NoDup (fired_names bad_maps do_not_use_flags r c).
Proof.
  destruct Hdnu as [Hnd _]. destruct Hmaps as (Hkeys & _ & _).
  unfold fired_names, unlisted_fired. apply NoDup_app. split; [|split].
  - apply NoDup_filter_bool. exact Hnd.
  - intros n Hn. apply elem_of_filter_bool in Hn as [Hin Hf].
    rewrite elem_of_app, elem_of_filter_bool. intros [H|[_ H]].
    + destruct (listed_fired bad_maps do_not_use_flags r c); [apply elem_of_nil in H; exact H|].
      apply list_elem_of_singleton in H. subst n.
      apply fired_b_iff, fired_is_category in Hf. destruct Hf as [Hf _].
      congruence.
    + apply andb_true_iff in H as [H _].
      apply negb_true_iff, bool_decide_eq_false in H. contradiction.
  - apply NoDup_app. split; [|split].
    + destruct (listed_fired bad_maps do_not_use_flags r c); [constructor | apply NoDup_singleton].
    + intros n Hn Hu.
      destruct (listed_fired bad_maps do_not_use_flags r c); [apply elem_of_nil in Hn; exact Hn|].
      apply list_elem_of_singleton in Hn. subst n.
      apply elem_of_filter_bool in Hu as [_ Hu].
      apply andb_true_iff in Hu as [_ Hf].
      apply fired_b_iff, fired_is_category in Hf. destruct Hf as [Hf _].
      congruence.
    + apply NoDup_filter_bool. exact Hkeys.
Qed.

(** The mask value is the sum of the values of these names. *)
Lemma mask_value_names r c :
  mask_value defs bad_maps do_not_use_flags r c
  = zsum (flag_value defs) (fired_names bad_maps do_not_use_flags r c).
Proof.
  unfold mask_value, fired_names, unlisted_fired, contribution.
  rewrite !zsum_app. unfold listed_fired at 1.
  rewrite (zsum_filter (flag_value defs)).
  rewrite (zsum_ext (fun k => if bool_decide (k ∈ do_not_use_flags) then 0
                              else if fired_b bad_maps k r c
                                   then flag_value defs k else 0)
                    (fun k => if negb (bool_decide (k ∈ do_not_use_flags))
                                 && fired_b bad_maps k r c
                              then flag_value defs k else 0)).
  2:{ intros k _. destruct (bool_decide (k ∈ do_not_use_flags)); reflexivity. }
  fold (listed_fired bad_maps do_not_use_flags r c).
  rewrite (zsum_filter (flag_value defs)).
  destruct (listed_fired bad_maps do_not_use_flags r c) as [|t l] eqn:E.
  - reflexivity.
  - assert (Hpos : 0 < zsum (flag_value defs) (t :: l)).
    { apply zsum_pos; [|discriminate]. intros n Hn. rewrite <- E in Hn.
      apply elem_of_filter_bool in Hn as [_ Hf].
      apply fired_b_iff, fired_is_category, flag_value_category in Hf.
      destruct Hf as (e & He & _ & ->). apply Z.pow_pos_nonneg; lia. }
    destruct (Z.eqb_spec (zsum (flag_value defs) (t :: l)) 0); [lia|].
    cbn [zsum foldr]. lia.
Qed.

(** A bit of the mask value is set exactly when a name of the list has
    that bit as its value. *)
Lemma mask_value_testbit r c i :
  0 <= i ->
  Z.testbit (mask_value defs bad_maps do_not_use_flags r c) i = true <->
  exists n, n ∈ fired_names bad_maps do_not_use_flags r c /\
            defs !! n = Some (2 ^ i).
Proof.
  intros Hi. rewrite mask_value_names, zsum_fmap, testbit_sum_pow2; [| | |exact Hi].
  - rewrite bool_decide_eq_true, list_elem_of_fmap. split.
    + intros (n & Hv & Hn). exists n. split; [exact Hn|].
      destruct (fired_names_value r c n Hn) as (e & He & Hd & Hfv).
      rewrite Hd. f_equal. congruence.
    + intros (n & Hn & Hd). exists n. split; [|exact Hn].
      unfold flag_value. rewrite Hd. reflexivity.
  - apply NoDup_fmap_2_strong; [|apply fired_names_NoDup].
    intros n m Hn Hm Heq.
    destruct (fired_names_value r c n Hn) as (e & _ & Hdn & Hfn).
    destruct (fired_names_value r c m Hm) as (e' & _ & Hdm & Hfm).
    destruct Hreg as [Hinj _]. apply (Hinj n m (2 ^ e)); [exact Hdn|].
    rewrite Hdm. f_equal. congruence.
  - apply Forall_fmap, Forall_forall. intros n Hn.
    destruct (fired_names_value r c n Hn) as (e & He & _ & Hfn).
    exists e. split; [exact He | exact Hfn].
Qed.
End mask_names.

(** *** The dictionary under a change of order *)

Lemma dict_get_Some_iff {V} (d : list (string * V)) k v :
  NoDup (dict_keys d) -> dict_get d k = Some v <-> (k, v) ∈ d.
Proof.
  intros Hnd. split; [apply dict_get_elem_of|].
  unfold dict_keys in Hnd. induction d as [|[k' v'] d IH]; simpl in *.
  - intros H. apply elem_of_nil in H. contradiction.
  - apply NoDup_cons in Hnd as [Hk' Hnd].
    intros H. apply elem_of_cons in H as [[= -> ->]|H].
    + rewrite String.eqb_refl. reflexivity.
    + destruct (String.eqb_spec k' k) as [->|Hne]; [|apply IH; assumption].
      exfalso. apply Hk'. apply list_elem_of_fmap. exists (k, v). auto.
Qed.

Lemma dict_get_perm {V} (d d' : list (string * V)) k :
  NoDup (dict_keys d) -> Permutation d d' -> dict_get d k = dict_get d' k.
Proof.
  intros Hnd Hperm.
  assert (Hnd' : NoDup (dict_keys d')).
  { unfold dict_keys in *. rewrite <- Hperm. exact Hnd. }
  destruct (dict_get d k) as [v|] eqn:E.
  - symmetry. apply dict_get_Some_iff; [exact Hnd'|].
    rewrite <- Hperm. apply dict_get_Some_iff; assumption.
  - destruct (dict_get d' k) as [v'|] eqn:E'; [|reflexivity].
    apply dict_get_Some_iff in E'; [|exact Hnd'].
    rewrite <- Hperm in E'. apply dict_get_Some_iff in E'; [|exact Hnd].
    congruence.
Qed.

Lemma mask_value_perm defs bad_maps bad_maps' do_not_use_flags do_not_use_flags' r c :
  NoDup (dict_keys bad_maps) ->
  Permutation bad_maps bad_maps' ->
  Permutation do_not_use_flags do_not_use_flags' ->
  mask_value defs bad_maps do_not_use_flags r c
  = mask_value defs bad_maps' do_not_use_flags' r c.
Proof.
  intros Hnd Hmaps Hdnu. unfold mask_value.
  assert (Hc : forall t, contribution defs bad_maps r c t
                         = contribution defs bad_maps' r c t).
  { intros t. unfold contribution, fired_b.
    rewrite (dict_get_perm bad_maps bad_maps' t Hnd Hmaps). reflexivity. }
  assert (Hd : zsum (contribution defs bad_maps r c) do_not_use_flags
               = zsum (contribution defs bad_maps' r c) do_not_use_flags').
  { rewrite (zsum_perm _ _ _ Hdnu). apply zsum_ext. intros t _. apply Hc. }
  rewrite Hd. f_equal.
  rewrite (zsum_perm _ (dict_keys bad_maps) (dict_keys bad_maps')).
  2:{ unfold dict_keys. rewrite Hmaps. reflexivity. }
  apply zsum_ext. intros k _. rewrite Hc.
  rewrite (bool_decide_ext (k ∈ do_not_use_flags) (k ∈ do_not_use_flags'));
    [reflexivity|].
  rewrite Hdnu. reflexivity.
Qed.

(** What the two claims assume is enough for the function to return. *)
Lemma combine_individual_maps_returns pixel bad_maps do_not_use_flags sh :
  registry_ok (dq_defs pixel) ->
  category_maps (dq_defs pixel) bad_maps sh ->
  valid_do_not_use (dq_defs pixel) do_not_use_flags ->
  exists final,
    combine_individual_maps pixel bad_maps do_not_use_flags = Ok final /\
    np.wf final /\ np.shape final = sh /\
    forall r c, (r < fst sh)%nat -> (c < snd sh)%nat ->
      np.at_ final r c
      = Some (mask_value (dq_defs pixel) bad_maps do_not_use_flags r c).
Proof.
  intros (_ & e & _ & He) (_ & Hdead & Hmaps) (_ & Hdnu).
  apply combine_individual_maps_at; try assumption.
  - eapply Forall_impl; [exact Hmaps|].
    intros kv ((_ & e' & _ & Hk) & Hwf & Hsh).
    split; [eexists; exact Hk|]. split; assumption.
  - eexists. exact He.
Qed.

(** C1: for a dictionary of category maps of one shape and a valid
    do-not-use list the function returns a mask of that shape in which, at
    every pixel, the DO_NOT_USE bit is set if and only if a category of the
    do-not-use list has a nonzero value at that pixel in its map. *)
Theorem do_not_use_bit_iff_listed_category_fired
    pixel bad_maps do_not_use_flags sh :
  registry_ok (dq_defs pixel) ->
  category_maps (dq_defs pixel) bad_maps sh ->
  valid_do_not_use (dq_defs pixel) do_not_use_flags ->
  exists final do_not_use_value,
    combine_individual_maps pixel bad_maps do_not_use_flags = Ok final /\
    dq_defs pixel !! "DO_NOT_USE" = Some do_not_use_value /\
    np.wf final /\ np.shape final = sh /\
    forall r c, (r < fst sh)%nat -> (c < snd sh)%nat ->
      exists v,
        np.at_ final r c = Some v /\
        (flag_set v do_not_use_value <->
         exists t, t ∈ do_not_use_flags /\ fired bad_maps t r c).
Proof.
  intros Hreg Hmaps Hdnu.
  destruct (combine_individual_maps_returns pixel bad_maps do_not_use_flags sh
              Hreg Hmaps Hdnu) as (final & Hfinal & Hwf & Hsh & Hat).
  pose proof Hreg as (Hinj & d & Hd & Hvalue).
  exists final, (2 ^ d).
  split; [exact Hfinal|]. split; [exact Hvalue|].
  split; [exact Hwf|]. split; [exact Hsh|].
  intros r c Hr Hc. eexists. split; [apply Hat; assumption|].
  rewrite flag_set_testbit by exact Hd.
  rewrite (mask_value_testbit _ _ _ sh Hreg Hmaps Hdnu) by exact Hd.
  split.
  - intros (n & Hn & Hnd). assert (n = "DO_NOT_USE"%string) as ->.
    { apply (Hinj _ _ (2 ^ d)); assumption. }
    apply fired_names_elem in Hn as [[Hin Hf]|[[_ H]|[_ Hf]]].
    + exists "DO_NOT_USE"%string. auto.
    + exact H.
    + apply (fired_is_category _ _ sh Hmaps) in Hf. destruct Hf as [Hf _].
      congruence.
  - intros H. exists "DO_NOT_USE"%string. split; [|exact Hvalue].
    apply fired_names_elem. right. left. auto.
Qed.

Lemma category_maps_perm defs bad_maps bad_maps' sh :
  Permutation bad_maps bad_maps' ->
  category_maps defs bad_maps sh -> category_maps defs bad_maps' sh.
Proof.
  intros Hperm (Hnd & Hdead & Hmaps). split; [|split].
  - unfold dict_keys in *. rewrite <- Hperm. exact Hnd.
  - rewrite <- (dict_get_perm bad_maps bad_maps' "DEAD" Hnd Hperm). exact Hdead.
  - rewrite <- Hperm. exact Hmaps.
Qed.

Lemma valid_do_not_use_perm defs l l' :
  Permutation l l' -> valid_do_not_use defs l -> valid_do_not_use defs l'.
Proof.
  intros Hperm [Hnd Hreg]. split; rewrite <- Hperm; assumption.
Qed.

(** C2: for a dictionary of category maps and a valid do-not-use list the
    mask does not depend on the order in which the maps and the
    do-not-use entries are iterated, and every set bit of it is the value
    of exactly one registered name, which is DO_NOT_USE or a category that
    fired at that pixel. *)
Theorem combined_mask_order_independent
    pixel bad_maps bad_maps' do_not_use_flags do_not_use_flags' sh :
  registry_ok (dq_defs pixel) ->
  category_maps (dq_defs pixel) bad_maps sh ->
  valid_do_not_use (dq_defs pixel) do_not_use_flags ->
  Permutation bad_maps bad_maps' ->
  Permutation do_not_use_flags do_not_use_flags' ->
  exists final,
    combine_individual_maps pixel bad_maps do_not_use_flags = Ok final /\
    combine_individual_maps pixel bad_maps' do_not_use_flags' = Ok final /\
    forall r c v i,
      np.at_ final r c = Some v -> Z.testbit v i = true ->
      exists n,
        dq_defs pixel !! n = Some (2 ^ i) /\
        (forall m, dq_defs pixel !! m = Some (2 ^ i) -> m = n) /\
        (n = "DO_NOT_USE"%string \/ fired bad_maps n r c).
Proof.
  intros Hreg Hmaps Hdnu Hpm Hpd.
  destruct (combine_individual_maps_returns pixel bad_maps do_not_use_flags sh
              Hreg Hmaps Hdnu) as (final & Hfinal & Hwf & Hsh & Hat).
  destruct (combine_individual_maps_returns pixel bad_maps' do_not_use_flags' sh
              Hreg (category_maps_perm _ _ _ _ Hpm Hmaps)
              (valid_do_not_use_perm _ _ _ Hpd Hdnu))
    as (final' & Hfinal' & Hwf' & Hsh' & Hat').
  assert (Heq : final' = final).
  { apply ndarray_eq; try assumption; [congruence|].
    intros r c Hr Hc.
    assert (Hdims : np.ydim final' = fst sh /\ np.xdim final' = snd sh).
    { rewrite <- Hsh'. split; reflexivity. }
    rewrite Hat', Hat by lia. f_equal. symmetry.
    apply mask_value_perm; try assumption. exact (proj1 Hmaps). }
  subst final'. exists final. split; [exact Hfinal|]. split; [exact Hfinal'|].
  intros r c v i Hv Hbit.
  destruct (at_in_range final r c v Hwf Hv) as [Hr Hc].
  assert (Hdims : np.ydim final = fst sh /\ np.xdim final = snd sh).
  { rewrite <- Hsh. split; reflexivity. }
  rewrite Hat in Hv by lia. injection Hv as <-.
  assert (Hi : 0 <= i).
  { destruct (Z.lt_ge_cases i 0) as [Hneg|Hpos]; [|exact Hpos].
    rewrite Z.testbit_neg_r in Hbit by exact Hneg. discriminate Hbit. }
  apply (mask_value_testbit _ _ _ sh Hreg Hmaps Hdnu) in Hbit
    as (n & Hn & Hvalue); [|exact Hi].
  exists n. split; [exact Hvalue|]. split.
  - intros m Hm. destruct Hreg as [Hinj _]. exact (Hinj m n _ Hm Hvalue).
  - apply fired_names_elem in Hn as [[_ Hf]|[[-> _]|[_ Hf]]]; auto.
Qed.

(** *** The registry of the [jwst] package *)

Lemma NoDup_fmap_eq {T U} (f : T -> U) (l : list T) x y :
  NoDup (f <$> l) -> x ∈ l -> y ∈ l -> f x = f y -> x = y.
Proof.
  induction l as [|z l IH]; simpl; intros Hnd Hx Hy Hxy.
  - apply elem_of_nil in Hx. contradiction.
  - apply NoDup_cons in Hnd as [Hz Hnd].
    apply elem_of_cons in Hx as [->|Hx]; apply elem_of_cons in Hy as [->|Hy].
    + reflexivity.
    + exfalso. apply Hz. rewrite Hxy. apply list_elem_of_fmap_2. exact Hy.
    + exfalso. apply Hz. rewrite <- Hxy. apply list_elem_of_fmap_2. exact Hx.
    + apply IH; assumption.
Qed.

Lemma registry_injective (defs : gmap string Z) :
  NoDup (snd <$> map_to_list defs) ->
  forall n m v, defs !! n = Some v -> defs !! m = Some v -> n = m.
Proof.
  intros Hnd n m v Hn Hm.
  apply elem_of_map_to_list in Hn, Hm.
  assert (H : (n, v) = (m, v)) by (eapply NoDup_fmap_eq; eauto).
  congruence.
Qed.

Lemma jwst_registry_ok : registry_ok (dq_defs jwst_pixel).
Proof.
  split.
  - apply registry_injective. apply (bool_decide_unpack _). vm_compute. exact I.
  - exists 0. split; [lia|]. vm_compute. reflexivity.
Qed.

Lemma two_maps_category_maps : category_maps (dq_defs jwst_pixel) two_maps (1, 2)%nat.
Proof.
  split; [|split].
  - apply (bool_decide_unpack _). vm_compute. exact I.
  - eexists. reflexivity.
  - repeat constructor; try discriminate.
    + exists 10. split; [lia|]. vm_compute. reflexivity.
    + exists 13. split; [lia|]. vm_compute. reflexivity.
Qed.

Lemma dead_is_valid_do_not_use : valid_do_not_use (dq_defs jwst_pixel) ["DEAD"%string].
Proof.
  split.
  - apply NoDup_singleton.
  - repeat constructor. eexists. vm_compute. reflexivity.
Qed.

Lemma do_not_use_bit_iff_listed_category_fired_witness :
  exists final do_not_use_value,
    combine_individual_maps jwst_pixel two_maps ["DEAD"%string] = Ok final /\
    dq_defs jwst_pixel !! "DO_NOT_USE"%string = Some do_not_use_value /\
    np.wf final /\ np.shape final = (1, 2)%nat /\
    forall r c, (r < 1)%nat -> (c < 2)%nat ->
      exists v,
        np.at_ final r c = Some v /\
        (flag_set v do_not_use_value <->
         exists t, t ∈ ["DEAD"%string] /\ fired two_maps t r c).
Proof.
  apply (do_not_use_bit_iff_listed_category_fired
           jwst_pixel two_maps ["DEAD"%string] (1, 2)%nat).
  - exact jwst_registry_ok.
  - exact two_maps_category_maps.
  - exact dead_is_valid_do_not_use.
Defined.

Lemma combined_mask_order_independent_witness :
  exists final,
    combine_individual_maps jwst_pixel two_maps ["DEAD"%string] = Ok final /\
    combine_individual_maps jwst_pixel (reverse two_maps) ["DEAD"%string] = Ok final /\
    forall r c v i,
      np.at_ final r c = Some v -> Z.testbit v i = true ->
      exists n,
        dq_defs jwst_pixel !! n = Some (2 ^ i) /\
        (forall m, dq_defs jwst_pixel !! m = Some (2 ^ i) -> m = n) /\
        (n = "DO_NOT_USE"%string \/ fired two_maps n r c).
Proof.
  apply (combined_mask_order_independent
           jwst_pixel two_maps (reverse two_maps)
           ["DEAD"%string] ["DEAD"%string] (1, 2)%nat).
  - exact jwst_registry_ok.
  - exact two_maps_category_maps.
  - exact dead_is_valid_do_not_use.
  - symmetry. apply reverse_Permutation.
  - reflexivity.
Defined.

(** With these inputs the mask is DEAD + DO_NOT_USE on the first pixel and
    LOW_QE on the second. *)
Example combine_two_maps :
  combine_individual_maps jwst_pixel two_maps ["DEAD"%string]
  = Ok (np.NDArray 1 2 [[1025; 8192]]).
Proof. vm_compute. reflexivity. Qed.

(** A list that names DEAD twice is outside the two claims: the value of
    DEAD is then added twice, which gives the bit of HOT. *)
Example combine_two_maps_repeated_entry :
  combine_individual_maps jwst_pixel two_maps ["DEAD"%string; "DEAD"%string]
  = Ok (np.NDArray 1 2 [[2049; 8192]]).
Proof. vm_compute. reflexivity. Qed.


(** * Further properties *)

(** ** [get_adjacent_pixels] outside the grid, and symmetry *)

(** X1: a coordinate outside a grid of at least one pixel makes
    [get_adjacent_pixels] raise [UnboundLocalError]: no branch assigns the
    result. *)
Theorem get_adjacent_pixels_outside_grid_raises x y w h :
  1 <= w -> 1 <= h -> ~ (0 <= x < w /\ 0 <= y < h) ->
  get_adjacent_pixels x y w h = Raise UnboundLocalError.
Proof.
  intros Hw Hh Hout. unfold get_adjacent_pixels.
  repeat match goal with
    | |- context [Z.ltb ?a ?b] => zcase (Z.ltb a b)
    | |- context [Z.eqb ?a ?b] => zcase (Z.eqb a b)
    end; cbn; try reflexivity; exfalso; apply Hout; lia.
Qed.

Lemma get_adjacent_pixels_outside_grid_raises_witness :
  get_adjacent_pixels 5 0 5 5 = Raise UnboundLocalError.
Proof. apply get_adjacent_pixels_outside_grid_raises; lia. Defined.

Lemma elem_of_four_neighbours x y x' y' :
  (x', y') ∈ four_neighbours x y <->
  (x' = x /\ y' = y + 1) \/ (x' = x + 1 /\ y' = y) \/
  (x' = x /\ y' = y - 1) \/ (x' = x - 1 /\ y' = y).
Proof.
  unfold four_neighbours. rewrite !elem_of_cons, elem_of_nil.
  split.
  - intros [H|[H|[H|[H|[]]]]]; injection H as -> ->; lia.
  - intros [[-> ->]|[[-> ->]|[[-> ->]|[-> ->]]]]; auto.
Qed.

Lemma elem_of_adjacent_coords w h x y x' y' :
  2 <= w -> 2 <= h -> 0 <= x < w -> 0 <= y < h ->
  (x', y') ∈ adjacent_coords x y w h <->
  (0 <= x' < w /\ 0 <= y' < h) /\ (x', y') ∈ four_neighbours x y.
Proof.
  intros Hw Hh Hx Hy. unfold adjacent_coords.
  destruct (get_adjacent_pixels_filter w h x y Hw Hh Hx Hy)
    as (adj_x & adj_y & Hret & _ & Hzip & _).
  rewrite Hret. unfold Ok. cbv beta iota. rewrite Hzip.
  rewrite elem_of_filter_bool, in_grid_true. cbn [fst snd]. tauto.
Qed.

(** X2: in a grid of at least 2 by 2 pixels adjacency is symmetric: a
    pixel is returned for a second one exactly when the second one is
    returned for it. *)
Theorem adjacent_coords_symmetric w h x y x' y' :
  2 <= w -> 2 <= h ->
  0 <= x < w -> 0 <= y < h -> 0 <= x' < w -> 0 <= y' < h ->
  (x', y') ∈ adjacent_coords x y w h <-> (x, y) ∈ adjacent_coords x' y' w h.
Proof.
  intros Hw Hh Hx Hy Hx' Hy'.
  rewrite !elem_of_adjacent_coords, !elem_of_four_neighbours by assumption.
  lia.
Qed.

Lemma adjacent_coords_symmetric_witness :
  (1, 0) ∈ adjacent_coords 0 0 5 5 <-> (0, 0) ∈ adjacent_coords 1 0 5 5.
Proof. apply (adjacent_coords_symmetric 5 5 0 0 1 0); lia. Defined.

(** ** [reference_pixel_map] and [miri_bad_columns] on any shape *)

Lemma in_slice_true s i :
  np.in_slice s i = true <-> (fst s <= i < snd s)%nat.
Proof.
  unfold np.in_slice. rewrite andb_true_iff, Nat.leb_le, Nat.ltb_lt. tauto.
Qed.

Lemma outer4_true n i : outer4 n i = true <-> (i < 4 \/ n - 4 <= i)%nat.
Proof. unfold outer4. rewrite orb_true_iff, Nat.ltb_lt, Nat.leb_le. tauto. Qed.

Lemma if_or_one (a b : bool) (x : Z) :
  (if a then 1 else if b then 1 else x) = if a || b then 1 else x.
Proof. destruct a, b; reflexivity. Qed.

Lemma if_bool_ext {T} (a b : bool) (x y : T) :
  a = b -> (if a then x else y) = if b then x else y.
Proof. intros ->. reflexivity. Qed.

Lemma bound_0 len : np.bound len 0 = 0%nat.
Proof. unfold np.bound. change (0 <? 0) with false. cbv iota. lia. Qed.

Lemma bound_4 len : np.bound len 4 = Nat.min 4 len.
Proof. unfold np.bound. change (4 <? 0) with false. cbv iota. lia. Qed.

Lemma bound_len len : np.bound len (Z.of_nat len) = len.
Proof.
  unfold np.bound. destruct (Z.ltb_spec (Z.of_nat len) 0); lia.
Qed.

Lemma bound_len_minus_4 len :
  np.bound len (Z.of_nat len - 4)
  = if (4 <=? len)%nat then (len - 4)%nat else (2 * len - 4)%nat.
Proof.
  unfold np.bound.
  destruct (Z.ltb_spec (Z.of_nat len - 4) 0), (Nat.leb_spec 4 len); lia.
Qed.

(** Turns an equation between two boolean tests on slice positions into
    arithmetic. *)
Ltac slice_arith :=
  apply eq_iff_eq_true;
  rewrite ?orb_true_iff, ?andb_true_iff, ?negb_true_iff, ?orb_true_iff,
    ?in_slice_true, ?outer4_true;
  unfold np.slice; cbn [fst snd];
  rewrite ?bound_0, ?bound_4, ?bound_len, ?bound_len_minus_4;
  repeat match goal with
    | |- context [Nat.leb ?a ?b] => destruct (Nat.leb_spec a b)
    end;
  try lia.

(** The flag at every pixel, whatever the shape. *)
Lemma reference_pixel_map_at yd xd instrument_name r c :
  (r < yd)%nat -> (c < xd)%nat ->
  np.at_ (reference_pixel_map (yd, xd) instrument_name) r c
  = Some (reference_pixel_flag yd xd instrument_name r c).
Proof.
  intros Hr Hc. unfold reference_pixel_map, reference_pixel_flag, is_miri.
  destruct (String.eqb (lower instrument_name) "miri"); simpl negb; cbv iota;
    rewrite !at_setslice2_scalar, at_full by assumption;
    cbn [fmap option_fmap option_map np.ydim np.xdim np.full
         np.setslice2_scalar fst snd]; rewrite ?if_or_one; f_equal;
    apply if_bool_ext; slice_arith.
Qed.

(** X3: a shape of at most 8 columns, or of at most 8 rows for an
    instrument other than MIRI, is flagged entirely: the two slices of 4
    cover the whole axis. *)
Theorem reference_pixel_map_narrow_shape yd xd instrument_name r c :
  (r < yd)%nat -> (c < xd)%nat ->
  (xd <= 8)%nat \/ (is_miri instrument_name = false /\ (yd <= 8)%nat) ->
  np.at_ (reference_pixel_map (yd, xd) instrument_name) r c = Some 1.
Proof.
  intros Hr Hc Hsmall. rewrite reference_pixel_map_at by assumption.
  unfold reference_pixel_flag.
  replace (outer4 xd c || negb (is_miri instrument_name) && outer4 yd r)
    with true; [reflexivity|].
  symmetry. rewrite orb_true_iff, andb_true_iff, negb_true_iff, !outer4_true.
  destruct Hsmall as [H|[Hm H]]; [left; lia|].
  destruct (decide (c < 4 \/ xd - 4 <= c)%nat); [left; assumption|].
  right. split; [exact Hm | lia].
Qed.

Lemma reference_pixel_map_narrow_shape_witness :
  np.at_ (reference_pixel_map (20, 6)%nat "MIRI") 10 3 = Some 1.
Proof.
  apply reference_pixel_map_narrow_shape; [lia | lia | left; lia].
Defined.

Lemma bound_nonneg_nat len k :
  0 <= k -> np.bound len k = Nat.min (Z.to_nat k) len.
Proof.
  intros Hk. unfold np.bound. destruct (Z.ltb_spec k 0); lia.
Qed.

(** X4: [miri_bad_columns] flags columns 385 and 386 as far as the array
    has them, and nothing else; an array of at most 385 columns is left
    unflagged. *)
Theorem miri_bad_columns_flags_385_386 yd xd r c :
  (r < yd)%nat -> (c < xd)%nat ->
  np.shape (miri_bad_columns (yd, xd)) = (yd, xd) /\
  np.wf (miri_bad_columns (yd, xd)) /\
  np.at_ (miri_bad_columns (yd, xd)) r c
  = Some (if bool_decide (c = 385 \/ c = 386)%nat then 1 else 0).
Proof.
  intros Hr Hc. unfold miri_bad_columns. split; [reflexivity|]. split.
  { apply wf_setslice2_scalar, wf_full. }
  rewrite at_setslice2_scalar, at_full by assumption.
  cbn [fmap option_fmap option_map np.ydim np.xdim np.full fst snd].
  f_equal. apply if_bool_ext. apply eq_iff_eq_true.
  rewrite andb_true_iff, !in_slice_true, bool_decide_eq_true.
  unfold np.slice. cbn [fst snd]. rewrite !bound_nonneg_nat by lia. lia.
Qed.

Lemma miri_bad_columns_flags_385_386_witness :
  np.shape (miri_bad_columns (2, 386)%nat) = (2, 386)%nat /\
  np.wf (miri_bad_columns (2, 386)%nat) /\
  np.at_ (miri_bad_columns (2, 386)%nat) 1 385
  = Some (if bool_decide (385 = 385 \/ 385 = 386)%nat then 1 else 0).
Proof. apply (miri_bad_columns_flags_385_386 2 386 1 385); lia. Defined.

(** ** [science_pixels] and [pad_with_refpix] on any shape *)

Lemma bound_m4 len : np.bound len (-4) = (len - 4)%nat.
Proof. unfold np.bound. change (-4 <? 0) with true. cbv iota. lia. Qed.

Lemma length_getslice_4_m4 {A} (l : list A) :
  length (np.getslice l (Some 4) (Some (-4))) = (length l - 8)%nat.
Proof.
  unfold np.getslice, np.slice. cbn [fst snd].
  rewrite bound_4, bound_m4, length_take, length_drop. lia.
Qed.

Lemma lookup_getslice_4_m4 {A} (l : list A) i :
  (i < length l - 8)%nat ->
  np.getslice l (Some 4) (Some (-4)) !! i = l !! (i + 4)%nat.
Proof.
  intros Hi. unfold np.getslice, np.slice. cbn [fst snd].
  rewrite bound_4, bound_m4, lookup_take_lt, lookup_drop by lia.
  f_equal. lia.
Qed.

Lemma wf_science_pixels {A} (a : np.ndarray A) instrument_name :
  np.wf a -> np.wf (science_pixels a instrument_name).
Proof.
  intros [Hlen Hrows]. unfold science_pixels, np.getslice2.
  destruct (negb _); split; cbn [np.rows np.ydim np.xdim].
  - rewrite length_fmap, length_getslice_4_m4, Hlen.
    unfold np.slice. cbn [fst snd]. rewrite bound_4, bound_m4. lia.
  - apply Forall_fmap, Forall_forall. intros row Hrow. unfold compose.
    rewrite length_getslice_4_m4.
    assert (Hin : row ∈ np.rows a).
    { unfold np.getslice in Hrow.
      apply subseteq_take, subseteq_drop in Hrow. exact Hrow. }
    rewrite Forall_forall in Hrows. rewrite (Hrows _ Hin).
    unfold np.slice. cbn [fst snd]. rewrite bound_4, bound_m4. lia.
  - rewrite length_fmap, getslice_all, Hlen.
    unfold np.slice. cbn [fst snd]. lia.
  - apply Forall_fmap, Forall_forall. intros row Hrow. unfold compose.
    rewrite getslice_all in Hrow.
    rewrite length_getslice_4_m4.
    rewrite Forall_forall in Hrows. rewrite (Hrows _ Hrow).
    unfold np.slice. cbn [fst snd]. rewrite bound_4, bound_m4. lia.
Qed.

Lemma shape_science_pixels {A} (a : np.ndarray A) instrument_name :
  np.shape (science_pixels a instrument_name)
  = ((if is_miri instrument_name then np.ydim a else np.ydim a - 8)%nat,
     (np.xdim a - 8)%nat).
Proof.
  unfold science_pixels, is_miri, np.getslice2, np.shape.
  destruct (String.eqb _ _); cbn [negb np.ydim np.xdim];
    unfold np.slice; cbn [fst snd]; rewrite ?bound_4, ?bound_m4; f_equal; lia.
Qed.

(** X5: stripping the reference pixels of any well-formed array gives a
    well-formed array with 8 columns less and, unless the instrument is
    MIRI, 8 rows less; an axis of at most 8 entries is left empty. *)
Theorem science_pixels_shape {A} (a : np.ndarray A) instrument_name :
  np.wf a ->
  np.wf (science_pixels a instrument_name) /\
  np.shape (science_pixels a instrument_name)
  = ((if is_miri instrument_name then np.ydim a else np.ydim a - 8)%nat,
     (np.xdim a - 8)%nat).
Proof.
  intros Hwf. split; [apply wf_science_pixels; exact Hwf|].
  apply shape_science_pixels.
Qed.

Lemma science_pixels_shape_witness :
  np.wf (science_pixels (np.full (5, 9)%nat 7) "NIRCAM") /\
  np.shape (science_pixels (np.full (5, 9)%nat 7) "NIRCAM")
  = ((if is_miri "NIRCAM" then 5 else 5 - 8)%nat, (9 - 8)%nat).
Proof.
  apply (science_pixels_shape (np.full (5, 9)%nat 7) "NIRCAM"). apply wf_full.
Defined.

Ltac natb :=
  repeat match goal with
    | H : (_ || _) = false |- _ => apply orb_false_iff in H; destruct H
    | H : (_ && _) = true |- _ => apply andb_true_iff in H; destruct H
    | H : Nat.ltb _ _ = false |- _ => apply Nat.ltb_ge in H
    | H : Nat.ltb _ _ = true |- _ => apply Nat.ltb_lt in H
    | H : Nat.leb _ _ = false |- _ => apply Nat.leb_gt in H
    | H : Nat.leb _ _ = true |- _ => apply Nat.leb_le in H
    end.

Lemma at_science_pixels {A} (a : np.ndarray A) instrument_name r c :
  np.wf a ->
  (r < np.ydim (science_pixels a instrument_name))%nat ->
  (c < np.xdim (science_pixels a instrument_name))%nat ->
  np.at_ (science_pixels a instrument_name) r c
  = np.at_ a (if is_miri instrument_name then r else (r + 4)%nat) (c + 4)%nat.
Proof.
  intros [Hlen Hrows] Hr Hc.
  pose proof (shape_science_pixels a instrument_name) as Hsh.
  unfold np.shape in Hsh. injection Hsh as Hy Hx. rewrite Hy in Hr. rewrite Hx in Hc.
  clear Hy Hx. unfold science_pixels, is_miri in *. unfold np.at_, np.getslice2.
  rewrite Forall_lookup in Hrows.
  destruct (String.eqb (lower instrument_name) "miri");
    cbn [negb np.rows]; rewrite list_lookup_fmap.
  - rewrite getslice_all.
    destruct (np.rows a !! r) as [row|] eqn:Hrow; simpl; [|reflexivity].
    apply lookup_getslice_4_m4. rewrite (Hrows _ _ Hrow). exact Hc.
  - rewrite lookup_getslice_4_m4 by lia.
    destruct (np.rows a !! (r + 4)%nat) as [row|] eqn:Hrow; simpl; [|reflexivity].
    apply lookup_getslice_4_m4. rewrite (Hrows _ _ Hrow). exact Hc.
Qed.

Lemma lookup_pad_row_inside {A} (zero : A) row c :
  (4 <= c < length row + 4)%nat -> pad_row zero row !! c = row !! (c - 4)%nat.
Proof.
  intros Hc. unfold pad_row.
  rewrite lookup_app_r by (rewrite length_replicate; lia).
  rewrite length_replicate. apply lookup_app_l. lia.
Qed.

Lemma at_padded_rows_inside {A} (zero : A) y x rws r c :
  length rws = y -> Forall (fun row => length row = x) rws ->
  (4 <= r < y + 4)%nat -> (4 <= c < x + 4)%nat ->
  np.at_ (np.NDArray (y + 8) (x + 8) (padded_rows zero y x rws)) r c
  = np.at_ (np.NDArray y x rws) (r - 4) (c - 4).
Proof.
  intros Hlen Hrows Hr Hc. unfold np.at_, padded_rows. cbn [np.rows].
  rewrite lookup_app_r by (rewrite length_replicate; lia).
  rewrite length_replicate.
  rewrite lookup_app_l by (rewrite length_fmap; lia).
  rewrite list_lookup_fmap.
  destruct (rws !! (r - 4)%nat) as [row|] eqn:Hrow; simpl; [|reflexivity].
  apply lookup_pad_row_inside.
  rewrite Forall_lookup in Hrows. rewrite (Hrows _ _ Hrow). exact Hc.
Qed.

(** What [pad_with_refpix] returns at every position. *)
Lemma pad_with_refpix_at {A} (zero : A) data instrument_name :
  np.wf data ->
  exists padded,
    pad_with_refpix zero data instrument_name = Ok padded /\
    np.wf padded /\
    np.shape padded = padded_shape (np.shape data) instrument_name /\
    forall r c,
      (r < np.ydim padded)%nat -> (c < np.xdim padded)%nat ->
      np.at_ padded r c
      = if in_padding (np.shape data) instrument_name r c then Some zero
        else np.at_ data (if is_miri instrument_name then r else (r - 4)%nat)
                         (c - 4)%nat.
Proof.
  intros Hwf. eexists. split; [apply pad_with_refpix_rows; exact Hwf|].
  destruct data as [y x rws]. destruct Hwf as [Hlen Hrows].
  cbn [np.ydim np.xdim np.rows] in *.
  unfold padded_shape, in_padding, np.shape. cbn [np.ydim np.xdim fst snd].
  destruct (is_miri instrument_name); cbn [negb andb orb].
  - split; [|split; [reflexivity|]].
    { split; cbn [np.rows np.ydim np.xdim].
      - rewrite length_fmap. exact Hlen.
      - apply wf_pad_rows. exact Hrows. }
    intros r c Hr Hc. cbn [np.ydim np.xdim] in Hr, Hc.
    rewrite orb_false_r.
    unfold np.at_. cbn [np.rows]. rewrite list_lookup_fmap.
    destruct (rws !! r) as [row|] eqn:Hrow; simpl.
    2:{ apply lookup_ge_None in Hrow. lia. }
    assert (Hrl : length row = x).
    { rewrite Forall_lookup in Hrows. exact (Hrows _ _ Hrow). }
    destruct (Nat.ltb_spec c 4); simpl.
    { apply lookup_pad_row_outside with (x := x); lia. }
    destruct (Nat.leb_spec (x + 4) c); simpl.
    { apply lookup_pad_row_outside with (x := x); lia. }
    apply lookup_pad_row_inside. lia.
  - split; [|split; [reflexivity|]].
    { split; cbn [np.rows np.ydim np.xdim]; unfold padded_rows.
      - rewrite !length_app, !length_replicate, length_fmap. lia.
      - repeat apply Forall_app_2.
        + apply Forall_replicate, length_replicate.
        + apply wf_pad_rows. exact Hrows.
        + apply Forall_replicate, length_replicate. }
    intros r c Hr Hc. cbn [np.ydim np.xdim] in Hr, Hc.
    destruct ((c <? 4)%nat || (x + 4 <=? c)%nat
              || ((r <? 4)%nat || (y + 4 <=? r)%nat)) eqn:E.
    + apply lookup_padded_rows_outside; try assumption.
      repeat (apply orb_true_iff in E; destruct E as [E|E]);
        (apply Nat.ltb_lt in E || apply Nat.leb_le in E); lia.
    + natb.
      apply at_padded_rows_inside; try assumption; lia.
Qed.

(** X6: padding the science region of an array of at least 8 columns (and
    at least 8 rows unless the instrument is MIRI) gives an array of the
    first shape that agrees with it on the science region and is zero on
    the reference pixels. *)
Theorem pad_with_refpix_science_pixels {A} (zero : A) (a : np.ndarray A)
    instrument_name :
  np.wf a -> (8 <= np.xdim a)%nat ->
  is_miri instrument_name = true \/ (8 <= np.ydim a)%nat ->
  exists b,
    pad_with_refpix zero (science_pixels a instrument_name) instrument_name = Ok b /\
    np.wf b /\ np.shape b = np.shape a /\
    forall r c,
      (r < np.ydim a)%nat -> (c < np.xdim a)%nat ->
      np.at_ b r c
      = if in_padding (np.shape (science_pixels a instrument_name))
                      instrument_name r c
        then Some zero else np.at_ a r c.
Proof.
  intros Hwf Hx Hy.
  destruct (pad_with_refpix_at zero (science_pixels a instrument_name)
              instrument_name (wf_science_pixels a instrument_name Hwf))
    as (b & Hb & Hwfb & Hshb & Hat).
  pose proof (shape_science_pixels a instrument_name) as Hsh.
  assert (Hshape : np.shape b = np.shape a).
  { rewrite Hshb, Hsh. unfold padded_shape, np.shape. cbn [fst snd].
    destruct Hy as [Hy|Hy]; destruct (is_miri instrument_name);
      try discriminate; f_equal; lia. }
  exists b. split; [exact Hb|]. split; [exact Hwfb|]. split; [exact Hshape|].
  intros r c Hr Hc.
  assert (Hdims : np.ydim b = np.ydim a /\ np.xdim b = np.xdim a).
  { unfold np.shape in Hshape. injection Hshape as -> ->. auto. }
  rewrite Hat by lia.
  destruct (in_padding _ instrument_name r c) eqn:E; [reflexivity|].
  rewrite Hsh in E. unfold in_padding in E. cbn [fst snd] in E.
  unfold np.shape in Hsh. injection Hsh as Hsy Hsx.
  rewrite at_science_pixels; try assumption.
  - destruct (is_miri instrument_name) eqn:Em; cbn [negb andb orb] in E.
    + natb. f_equal. lia.
    + natb.
      f_equal; lia.
  - rewrite Hsy. destruct (is_miri instrument_name) eqn:Em; cbn [negb andb orb] in E.
    + lia.
    + natb.
      lia.
  - rewrite Hsx. destruct (is_miri instrument_name) eqn:Em; cbn [negb andb orb] in E.
    + natb. lia.
    + natb.
      lia.
Qed.

Lemma pad_with_refpix_science_pixels_witness :
  exists b,
    pad_with_refpix 0 (science_pixels (np.full (9, 10)%nat 7) "NIRCAM") "NIRCAM"
    = Ok b /\
    np.wf b /\ np.shape b = np.shape (np.full (9, 10)%nat 7) /\
    forall r c,
      (r < np.ydim (np.full (9, 10)%nat 7))%nat ->
      (c < np.xdim (np.full (9, 10)%nat 7))%nat ->
      np.at_ b r c
      = if in_padding (np.shape (science_pixels (np.full (9, 10)%nat 7) "NIRCAM"))
                      "NIRCAM" r c
        then Some 0 else np.at_ (np.full (9, 10)%nat 7) r c.
Proof.
  apply (pad_with_refpix_science_pixels 0 (np.full (9, 10)%nat 7) "NIRCAM").
  - apply wf_full.
  - simpl. lia.
  - right. simpl. lia.
Defined.

(** X7: the reference pixel map of the padded shape is 1 exactly on the
    pixels that [pad_with_refpix] adds, and there the padded array is
    zero: a padded detector map never fires on a reference pixel. *)
Theorem reference_pixel_map_marks_padding {A} (zero : A) (data : np.ndarray A)
    instrument_name :
  np.wf data ->
  exists padded,
    pad_with_refpix zero data instrument_name = Ok padded /\
    forall r c,
      (r < np.ydim padded)%nat -> (c < np.xdim padded)%nat ->
      np.at_ (reference_pixel_map (np.shape padded) instrument_name) r c
      = Some (if in_padding (np.shape data) instrument_name r c then 1 else 0) /\
      (in_padding (np.shape data) instrument_name r c = true ->
       np.at_ padded r c = Some zero).
Proof.
  intros Hwf.
  destruct (pad_with_refpix_at zero data instrument_name Hwf)
    as (padded & Hpad & Hwfp & Hsh & Hat).
  exists padded. split; [exact Hpad|]. intros r c Hr Hc. split.
  - unfold np.shape at 1. rewrite reference_pixel_map_at by assumption.
    f_equal. unfold reference_pixel_flag, in_padding.
    unfold np.shape in Hsh at 1. unfold padded_shape in Hsh.
    apply if_bool_ext. apply eq_iff_eq_true.
    destruct (is_miri instrument_name); injection Hsh as -> ->;
      cbn [negb andb orb fst snd];
      rewrite ?orb_true_iff, ?andb_true_iff, ?outer4_true, ?Nat.ltb_lt, ?Nat.leb_le;
      unfold np.shape; cbn [fst snd]; intuition (first [discriminate | lia]).
  - intros Hin. rewrite Hat, Hin by assumption. reflexivity.
Qed.

Lemma reference_pixel_map_marks_padding_witness :
  exists padded,
    pad_with_refpix 0 (np.NDArray 2 1 [[5]; [6]]) "NIRCAM" = Ok padded /\
    forall r c,
      (r < np.ydim padded)%nat -> (c < np.xdim padded)%nat ->
      np.at_ (reference_pixel_map (np.shape padded) "NIRCAM") r c
      = Some (if in_padding (np.shape (np.NDArray 2 1 [[5]; [6]])) "NIRCAM" r c
              then 1 else 0) /\
      (in_padding (np.shape (np.NDArray 2 1 [[5]; [6]])) "NIRCAM" r c = true ->
       np.at_ padded r c = Some 0).
Proof.
  apply (reference_pixel_map_marks_padding 0 (np.NDArray 2 1 [[5]; [6]]) "NIRCAM").
  split; [reflexivity | repeat constructor].
Defined.

(** ** [dead_pixels_zero_signal]: empty stack, extreme and ordered fractions *)

(** The flag at a pixel, for any stack and any fraction. *)
Lemma dead_pixels_zero_signal_at_any groups fraction r c :
  np.wf3 groups ->
  (r < np.ydim3 groups)%nat -> (c < np.xdim3 groups)%nat ->
  np.at_ (dead_pixels_zero_signal groups fraction) r c
  = Some (if fge (int_truediv (Z.of_nat (zero_count groups r c))
                              (Z.of_nat (np.zdim3 groups)))
                 fraction
          then 1 else 0).
Proof.
  intros [Hlen Hwf] Hr Hc.
  unfold dead_pixels_zero_signal, np.astype_int.
  rewrite !at_elementwise.
  unfold np.sum_axis0, np.elementwise3, np.at_.
  cbn [np.rows np.planes np.ydim3 np.xdim3 np.zdim3].
  fold (plane_at (foldr (zip_with (zip_with Z.add))
                        (replicate (np.ydim3 groups) (replicate (np.xdim3 groups) 0))
                        ((fmap (M := list)
                               (fmap (M := list)
                                     (fmap (M := list)
                                           (fun v => if feq v (Fin 0) then 1 else 0))))
                           (np.planes groups))) r c).
  rewrite at_sum_planes; try assumption.
  2:{ apply Forall_fmap. eapply Forall_impl; [exact Hwf|].
      intros p Hp. unfold compose. apply wf_fmap_plane. exact Hp. }
  rewrite foldr_fmap, sum_indicator_zero_count.
  2:{ eapply Forall_impl; [exact Hwf|]. intros p Hp. cbv beta in Hp.
      eapply plane_at_wf; eassumption. }
  reflexivity.
Qed.

(** X8: an empty stack flags no pixel (the fraction is 0/0, NaN), and
    neither does a NaN threshold. *)
Theorem dead_pixels_zero_signal_empty_or_nan groups fraction r c :
  np.wf3 groups ->
  (r < np.ydim3 groups)%nat -> (c < np.xdim3 groups)%nat ->
  np.zdim3 groups = 0%nat \/ fraction = NaN ->
  np.at_ (dead_pixels_zero_signal groups fraction) r c = Some 0.
Proof.
  intros Hwf Hr Hc H. rewrite dead_pixels_zero_signal_at_any by assumption.
  destruct H as [H| ->].
  - rewrite H. unfold int_truediv. change (Z.of_nat 0 =? 0) with true.
    cbv iota. destruct fraction; reflexivity.
  - unfold fge, fle.
    destruct (int_truediv (Z.of_nat (zero_count groups r c))
                          (Z.of_nat (np.zdim3 groups))); reflexivity.
Qed.

Lemma dead_pixels_zero_signal_empty_or_nan_witness :
  np.at_ (dead_pixels_zero_signal (np.NDArray3 0 2 2 []) (Fin 0.9)) 1 1 = Some 0.
Proof.
  apply dead_pixels_zero_signal_empty_or_nan.
  - split; [reflexivity | constructor].
  - simpl. lia.
  - simpl. lia.
  - left. reflexivity.
Defined.

Lemma zero_count_le groups r c :
  np.wf3 groups -> (zero_count groups r c <= np.zdim3 groups)%nat.
Proof.
  intros [Hlen _]. unfold zero_count. rewrite <- Hlen.
  apply List.filter_length_le.
Qed.

Lemma zero_fraction_bounds k n :
  (0 < n)%nat -> (k <= n)%nat ->
  (0 <= inject_Z (Z.of_nat k) / inject_Z (Z.of_nat n) <= 1)%Q.
Proof.
  intros Hn Hk.
  assert (Hpos : (0 < inject_Z (Z.of_nat n))%Q).
  { change 0%Q with (inject_Z 0). rewrite <- Zlt_Qlt. lia. }
  split.
  - apply Qle_shift_div_l; [exact Hpos|]. rewrite Qmult_0_l.
    change 0%Q with (inject_Z 0). rewrite <- Zle_Qle. lia.
  - apply Qle_shift_div_r; [exact Hpos|]. rewrite Qmult_1_l.
    rewrite <- Zle_Qle. lia.
Qed.

(** X9: on a stack of at least one plane a fraction of at most 0 flags
    every pixel and a fraction above 1 flags none. *)
Theorem dead_pixels_zero_signal_extreme_fraction groups (fraction : Q) r c :
  np.wf3 groups -> (0 < np.zdim3 groups)%nat ->
  (r < np.ydim3 groups)%nat -> (c < np.xdim3 groups)%nat ->
  ((fraction <= 0)%Q ->
   np.at_ (dead_pixels_zero_signal groups (Fin fraction)) r c = Some 1) /\
  ((1 < fraction)%Q ->
   np.at_ (dead_pixels_zero_signal groups (Fin fraction)) r c = Some 0).
Proof.
  intros Hwf Hn Hr Hc.
  rewrite dead_pixels_zero_signal_at by assumption.
  destruct (zero_fraction_bounds (zero_count groups r c) (np.zdim3 groups) Hn
              (zero_count_le groups r c Hwf)) as [Hlo Hhi].
  split; intros Hf.
  - replace (Qle_bool fraction _) with true; [reflexivity|].
    symmetry. apply Qle_bool_iff. eapply Qle_trans; eassumption.
  - destruct (Qle_bool fraction _) eqn:E; [|reflexivity].
    apply Qle_bool_iff in E. exfalso.
    apply (Qlt_irrefl 1). eapply Qlt_le_trans; [exact Hf|].
    eapply Qle_trans; eassumption.
Qed.

Lemma dead_pixels_zero_signal_extreme_fraction_witness :
  ((0 <= 0)%Q ->
   np.at_ (dead_pixels_zero_signal nine_zeros_of_ten (Fin 0)) 0 0 = Some 1) /\
  ((1 < 0)%Q ->
   np.at_ (dead_pixels_zero_signal nine_zeros_of_ten (Fin 0)) 0 0 = Some 0).
Proof.
  apply (dead_pixels_zero_signal_extreme_fraction nine_zeros_of_ten 0 0 0).
  - split; [reflexivity|]. repeat constructor.
  - simpl. lia.
  - simpl. lia.
  - simpl. lia.
Defined.

(** X10: lowering the fraction never removes a flag: a pixel flagged at a
    fraction is flagged at every smaller one. *)
Theorem dead_pixels_zero_signal_monotone groups (f1 f2 : Q) r c :
  np.wf3 groups -> (0 < np.zdim3 groups)%nat ->
  (r < np.ydim3 groups)%nat -> (c < np.xdim3 groups)%nat ->
  (f1 <= f2)%Q ->
  np.at_ (dead_pixels_zero_signal groups (Fin f2)) r c = Some 1 ->
  np.at_ (dead_pixels_zero_signal groups (Fin f1)) r c = Some 1.
Proof.
  intros Hwf Hn Hr Hc Hle.
  rewrite !dead_pixels_zero_signal_at by assumption.
  destruct (Qle_bool f2 _) eqn:E2; [|discriminate]. intros _.
  apply Qle_bool_iff in E2.
  replace (Qle_bool f1 _) with true; [reflexivity|].
  symmetry. apply Qle_bool_iff. eapply Qle_trans; eassumption.
Qed.

Lemma dead_pixels_zero_signal_monotone_witness :
  np.at_ (dead_pixels_zero_signal nine_zeros_of_ten (Fin 0.5)) 0 0 = Some 1.
Proof.
  apply (dead_pixels_zero_signal_monotone nine_zeros_of_ten 0.5 0.9 0 0).
  - split; [reflexivity|]. repeat constructor.
  - simpl. lia.
  - simpl. lia.
  - simpl. lia.
  - vm_compute. discriminate.
  - vm_compute. reflexivity.
Defined.

(** ** Loops *)

Lemma for_each_app {T S} (l1 l2 : list T) (body : S -> T -> result S) s :
  for_each (l1 ++ l2) body s
  = rbind (for_each l1 body s) (fun s' => for_each l2 body s').
Proof.
  revert s. induction l1 as [|x l1 IH]; intros s; simpl; [reflexivity|].
  destruct (body s x) as [e|s']; simpl; [reflexivity|]. apply IH.
Qed.

Lemma for_each_ext {T S} (l : list T) (body body' : S -> T -> result S) s :
  (forall x s', x ∈ l -> body s' x = body' s' x) ->
  for_each l body s = for_each l body' s.
Proof.
  revert s. induction l as [|x l IH]; intros s H; simpl; [reflexivity|].
  rewrite (H x s) by apply list_elem_of_here.
  destruct (body' s x) as [e|s']; simpl; [reflexivity|].
  apply IH. intros y s'' Hy. apply H, list_elem_of_further, Hy.
Qed.

Lemma for_each_skip {T S} (l1 l2 : list T) t (body : S -> T -> result S) s :
  (forall s', body s' t = Ok s') ->
  for_each (l1 ++ t :: l2) body s = for_each (l1 ++ l2) body s.
Proof.
  intros Ht. rewrite !for_each_app. destruct (for_each l1 body s) as [e|s'];
    simpl; [reflexivity|].
  rewrite Ht. reflexivity.
Qed.

Lemma for_each_raise {T S} (l1 l2 : list T) t (body : S -> T -> result S) s s' e :
  for_each l1 body s = Ok s' -> body s' t = Raise e ->
  for_each (l1 ++ t :: l2) body s = Raise e.
Proof.
  intros H1 Ht. rewrite for_each_app, H1. simpl. rewrite Ht. reflexivity.
Qed.

(** ** [flag_type_check] *)

Lemma upper_ascii_idemp c : upper_ascii (upper_ascii c) = upper_ascii c.
Proof. destruct c as [[] [] [] [] [] [] [] []]; reflexivity. Qed.

Lemma upper_idemp s : upper (upper s) = upper s.
Proof.
  induction s as [|c s IH]; simpl; [reflexivity|].
  rewrite upper_ascii_idemp, IH. reflexivity.
Qed.

Lemma flag_check_loop (pixel : gmap string Z) (l : list string) :
  (Forall (fun t => is_Some (pixel !! t)) l ->
   for_each l
     (fun (_ : unit) flag =>
        match pixel !! flag with
        | None => Raise (ValueError ("Unrecognized flag type: " +:+ flag))
        | Some _ => Ok tt
        end) tt = Ok tt) /\
  (~ Forall (fun t => is_Some (pixel !! t)) l ->
   exists t, t ∈ l /\ pixel !! t = None /\
     for_each l
       (fun (_ : unit) flag =>
          match pixel !! flag with
          | None => Raise (ValueError ("Unrecognized flag type: " +:+ flag))
          | Some _ => Ok tt
          end) tt = Raise (ValueError ("Unrecognized flag type: " +:+ t))).
Proof.
  induction l as [|x l [IH1 IH2]]; split.
  - reflexivity.
  - intros H. exfalso. apply H. constructor.
  - intros H. apply Forall_cons in H as [[v Hx] Hl]. simpl. rewrite Hx. simpl.
    apply IH1, Hl.
  - intros H. simpl. destruct (pixel !! x) as [v|] eqn:Hx.
    + destruct IH2 as (t & Ht & Hnone & Hraise).
      { intros Hl. apply H. constructor; [eexists; exact Hx | exact Hl]. }
      exists t. split; [apply list_elem_of_further, Ht|]. split; [exact Hnone|].
      simpl. exact Hraise.
    + exists x. split; [apply list_elem_of_here|]. split; [exact Hx|]. reflexivity.
Qed.

Lemma flag_type_check_returns_iff pixel flags l :
  flag_type_check pixel flags = Ok l <->
  l = upper <$> flags /\ Forall (fun t => is_Some (pixel !! t)) l.
Proof.
  unfold flag_type_check.
  destruct (flag_check_loop pixel (upper <$> flags)) as [Hok Hbad].
  destruct (decide (Forall (fun t => is_Some (pixel !! t)) (upper <$> flags)))
    as [Hall|Hnot].
  - rewrite (Hok Hall). simpl. split.
    + intros [= <-]. auto.
    + intros [-> _]. reflexivity.
  - destruct (Hbad Hnot) as (t & _ & _ & Hraise). rewrite Hraise. simpl. split.
    + discriminate.
    + intros [-> H]. contradiction.
Qed.

(** X11: [flag_type_check] returns exactly when every upper-cased entry is
    a registered name, and what it returns is the upper-cased list, with
    its repeated entries kept. *)
Theorem flag_type_check_accepts_registered pixel flags l :
  flag_type_check pixel flags = Ok l <->
  l = upper <$> flags /\ Forall (fun t => is_Some (pixel !! t)) l.
Proof. exact (flag_type_check_returns_iff pixel flags l). Qed.

(** X12: an accepted list is accepted again unchanged, and each of its
    entries is a name that [combine_individual_maps] recognises. *)
Theorem flag_type_check_idempotent pixel flags l :
  flag_type_check pixel flags = Ok l ->
  flag_type_check pixel l = Ok l /\
  Forall (fun t => is_Some (dq_defs pixel !! t)) l.
Proof.
  intros H. apply flag_type_check_returns_iff in H as [-> Hall]. split.
  - apply flag_type_check_returns_iff. split; [|].
    + rewrite <- list_fmap_compose. apply list_fmap_ext.
      intros i s _. unfold compose. symmetry. apply upper_idemp.
    + exact Hall.
  - eapply Forall_impl; [exact Hall|]. intros t [v Hv]. unfold dq_defs.
    destruct (decide (t = "RESERVED_4"%string)) as [->|H1];
      [rewrite lookup_insert_eq; eauto|].
    rewrite lookup_insert_ne by congruence.
    destruct (decide (t = "REFERENCE_PIXEL"%string)) as [->|H2];
      [rewrite lookup_insert_eq; eauto|].
    rewrite lookup_insert_ne by congruence. eauto.
Qed.

(** X13: a list with an entry that is not registered once upper-cased is
    rejected with a [ValueError] that names such an entry. *)
Theorem flag_type_check_rejects_unregistered pixel flags :
  ~ Forall (fun t => is_Some (pixel !! upper t)) flags ->
  exists t, t ∈ flags /\ pixel !! upper t = None /\
    flag_type_check pixel flags
    = Raise (ValueError ("Unrecognized flag type: " +:+ upper t)).
Proof.
  intros Hnot. unfold flag_type_check.
  destruct (flag_check_loop pixel (upper <$> flags)) as [_ Hbad].
  destruct Hbad as (u & Hu & Hnone & Hraise).
  { intros H. apply Hnot. apply Forall_forall. intros t Ht.
    rewrite Forall_forall in H. apply H. apply list_elem_of_fmap_2. exact Ht. }
  apply list_elem_of_fmap in Hu as (t & -> & Ht).
  exists t. split; [exact Ht|]. split; [exact Hnone|].
  rewrite Hraise. reflexivity.
Qed.

(** ** [combine_individual_maps]: what it returns and when it raises *)

(** X14: when DEAD is among the maps, every map is well formed and of the
    shape of DEAD, and every key, every do-not-use entry and DO_NOT_USE
    are registered, the function returns a mask of that shape whose value
    at each pixel is the sum of the values of the listed categories that
    fired (an entry listed twice counts twice), plus the value of
    DO_NOT_USE if that sum is not zero, plus the values of the other
    categories that fired. *)
Theorem combine_individual_maps_pointwise pixel bad_maps do_not_use_flags sh :
  is_Some (dict_get bad_maps "DEAD") ->
  Forall (fun kv : string * np.ndarray Z =>
            is_Some (dq_defs pixel !! fst kv) /\
            np.wf (snd kv) /\ np.shape (snd kv) = sh) bad_maps ->
  Forall (fun t => is_Some (dq_defs pixel !! t)) do_not_use_flags ->
  is_Some (dq_defs pixel !! "DO_NOT_USE") ->
  exists final,
    combine_individual_maps pixel bad_maps do_not_use_flags = Ok final /\
    np.wf final /\ np.shape final = sh /\
    forall r c, (r < fst sh)%nat -> (c < snd sh)%nat ->
      np.at_ final r c
      = Some (mask_value (dq_defs pixel) bad_maps do_not_use_flags r c).
Proof. apply combine_individual_maps_at. Qed.

Lemma two_maps_registered :
  Forall (fun kv : string * np.ndarray Z =>
            is_Some (dq_defs jwst_pixel !! fst kv) /\
            np.wf (snd kv) /\ np.shape (snd kv) = (1, 2)%nat) two_maps.
Proof.
  repeat constructor; try (eexists; vm_compute; reflexivity).
Qed.

Lemma combine_individual_maps_pointwise_witness :
  exists final,
    combine_individual_maps jwst_pixel two_maps ["DEAD"; "DEAD"]%string = Ok final /\
    np.wf final /\ np.shape final = (1, 2)%nat /\
    forall r c, (r < 1)%nat -> (c < 2)%nat ->
      np.at_ final r c
      = Some (mask_value (dq_defs jwst_pixel) two_maps ["DEAD"; "DEAD"]%string r c).
Proof.
  apply (combine_individual_maps_pointwise
           jwst_pixel two_maps ["DEAD"; "DEAD"]%string (1, 2)%nat).
  - eexists. reflexivity.
  - exact two_maps_registered.
  - repeat constructor; eexists; vm_compute; reflexivity.
  - eexists. vm_compute. reflexivity.
Defined.

(** X15: a do-not-use list that [flag_type_check] has accepted never makes
    [combine_individual_maps] raise: with well-formed maps of one shape
    under registered keys, DEAD among them, the function returns. *)
Theorem combine_individual_maps_after_flag_type_check
    pixel bad_maps flags do_not_use sh :
  flag_type_check pixel flags = Ok do_not_use ->
  is_Some (dict_get bad_maps "DEAD") ->
  Forall (fun kv : string * np.ndarray Z =>
            is_Some (dq_defs pixel !! fst kv) /\
            np.wf (snd kv) /\ np.shape (snd kv) = sh) bad_maps ->
  is_Some (pixel !! "DO_NOT_USE") ->
  exists final,
    combine_individual_maps pixel bad_maps do_not_use = Ok final /\
    np.wf final /\ np.shape final = sh.
Proof.
  intros Hcheck Hdead Hmaps [v Hv].
  destruct (combine_individual_maps_at pixel bad_maps do_not_use sh)
    as (final & Hfinal & Hwf & Hsh & _); try assumption.
  - apply flag_type_check_returns_iff in Hcheck as [_ Hall].
    eapply Forall_impl; [exact Hall|]. intros t [w Hw]. unfold dq_defs.
    destruct (decide (t = "RESERVED_4"%string)) as [->|H1];
      [rewrite lookup_insert_eq; eauto|].
    rewrite lookup_insert_ne by congruence.
    destruct (decide (t = "REFERENCE_PIXEL"%string)) as [->|H2];
      [rewrite lookup_insert_eq; eauto|].
    rewrite lookup_insert_ne by congruence. eauto.
  - unfold dq_defs. rewrite !lookup_insert_ne by discriminate. eauto.
  - exists final. auto.
Qed.

Lemma combine_individual_maps_after_flag_type_check_witness :
  exists final,
    combine_individual_maps jwst_pixel two_maps ["DEAD"; "LOW_QE"]%string = Ok final /\
    np.wf final /\ np.shape final = (1, 2)%nat.
Proof.
  apply (combine_individual_maps_after_flag_type_check
           jwst_pixel two_maps ["dead"; "Low_qe"]%string
           ["DEAD"; "LOW_QE"]%string (1, 2)%nat).
  - vm_compute. reflexivity.
  - eexists. reflexivity.
  - exact two_maps_registered.
  - eexists. vm_compute. reflexivity.
Defined.

(** The loop over the do-not-use list returns when its entries are
    registered and the maps are well formed and of one shape. *)
Lemma do_not_use_loop_returns (defs : gmap string Z) bad_maps l sh
    (body : np.ndarray Z -> string -> result (np.ndarray Z)) :
  (forall m t,
      body m t
      = match defs !! t with
        | Some value =>
            match dict_get bad_maps t with
            | Some ind_map => np.iadd_where m (nonzero ind_map) value
            | None => Ok m
            end
        | None =>
            Raise (ValueError
                     ("Unrecognized bad pixel type in do_not_use_list: " +:+ t))
        end) ->
  Forall (fun kv : string * np.ndarray Z =>
            np.wf (snd kv) /\ np.shape (snd kv) = sh) bad_maps ->
  Forall (fun t => is_Some (defs !! t)) l ->
  exists m, for_each l body (np.full sh 0) = Ok m /\ np.wf m /\ np.shape m = sh.
Proof.
  intros Hbody Hmaps Hl.
  destruct (for_each_accumulate l body (contribution defs bad_maps) sh
              (np.full sh 0)) as (m & Hm & Hwf & Hsh & _).
  - intros t m Ht Hwf Hsh. rewrite Hbody. rewrite Forall_forall in Hl.
    destruct (Hl t Ht) as [value Hvalue]. rewrite Hvalue.
    apply add_category_spec; assumption.
  - apply wf_full.
  - destruct sh; reflexivity.
  - exists m. auto.
Qed.

Lemma shape_of_dead (bad_maps : list (string * np.ndarray Z)) sh dead :
  Forall (fun kv : string * np.ndarray Z =>
            np.wf (snd kv) /\ np.shape (snd kv) = sh) bad_maps ->
  dict_get bad_maps "DEAD" = Some dead ->
  dict_getitem bad_maps "DEAD" = Ok dead /\ np.shape dead = sh.
Proof.
  intros Hmaps Hdead. split.
  - unfold dict_getitem. rewrite Hdead. reflexivity.
  - apply dict_get_elem_of in Hdead. rewrite Forall_forall in Hmaps.
    exact (proj2 (Hmaps _ Hdead)).
Qed.

(** X16: a do-not-use entry that is not registered makes the function raise
    a [ValueError] that names it, once the entries before it, all
    registered, have been processed; the keys of the maps are not looked
    at before. *)
Theorem combine_individual_maps_unknown_do_not_use
    pixel bad_maps before t after sh :
  is_Some (dict_get bad_maps "DEAD") ->
  Forall (fun kv : string * np.ndarray Z =>
            np.wf (snd kv) /\ np.shape (snd kv) = sh) bad_maps ->
  Forall (fun t => is_Some (dq_defs pixel !! t)) before ->
  dq_defs pixel !! t = None ->
  combine_individual_maps pixel bad_maps (before ++ t :: after)
  = Raise (ValueError ("Unrecognized bad pixel type in do_not_use_list: " +:+ t)).
Proof.
  intros [dead Hdead] Hmaps Hbefore Hnone.
  destruct (shape_of_dead bad_maps sh dead Hmaps Hdead) as [Hgetitem Hshape].
  unfold combine_individual_maps. rewrite Hgetitem. unfold Ok at 1.
  cbn [rbind]. rewrite Hshape.
  match goal with
  | |- context [for_each (before ++ t :: after) ?body ?m0] =>
      destruct (do_not_use_loop_returns (dq_defs pixel) bad_maps before sh body)
        as (m & Hm & _); [reflexivity | assumption | assumption |];
      rewrite (for_each_raise before after t body m0 m
                 (ValueError ("Unrecognized bad pixel type in do_not_use_list: "
                              +:+ t)) Hm)
  end.
  - reflexivity.
  - cbv beta. rewrite Hnone. reflexivity.
Qed.

Lemma combine_individual_maps_unknown_do_not_use_witness :
  combine_individual_maps jwst_pixel two_maps (["DEAD"%string] ++ "BOGUS"%string :: [])
  = Raise (ValueError ("Unrecognized bad pixel type in do_not_use_list: " +:+ "BOGUS")).
Proof.
  apply (combine_individual_maps_unknown_do_not_use
           jwst_pixel two_maps ["DEAD"%string] "BOGUS" [] (1, 2)%nat).
  - eexists. reflexivity.
  - repeat constructor.
  - repeat constructor. eexists. vm_compute. reflexivity.
  - vm_compute. reflexivity.
Defined.

(** X17: a do-not-use entry that is registered but has no map changes
    nothing: the function gives the same result, or raises the same
    exception, as without it. *)
Theorem combine_individual_maps_ignores_unmapped_do_not_use
    pixel bad_maps before t after :
  is_Some (dq_defs pixel !! t) ->
  dict_get bad_maps t = None ->
  combine_individual_maps pixel bad_maps (before ++ t :: after)
  = combine_individual_maps pixel bad_maps (before ++ after).
Proof.
  intros [value Hvalue] Hget. unfold combine_individual_maps.
  destruct (dict_getitem bad_maps "DEAD") as [e|dead]; [reflexivity|].
  cbn [rbind].
  rewrite for_each_skip by (intros m; cbv beta; rewrite Hvalue, Hget; reflexivity).
  destruct (for_each (before ++ after) _ _) as [e|m1]; [reflexivity|].
  cbn [rbind].
  destruct (dq_defs pixel !! "DO_NOT_USE") as [dnu|]; [|reflexivity].
  unfold Ok at 1 3. cbn [rbind].
  destruct (np.iadd_where m1 (nonzero m1) dnu) as [e|m2]; [reflexivity|].
  cbn [rbind].
  match goal with
  | |- rbind (for_each ?l ?b1 ?m0) _ = rbind (for_each ?l ?b2 ?m0) _ =>
      rewrite (for_each_ext l b1 b2 m0)
  end; [reflexivity|].
  intros k m Hk. cbv beta.
  destruct (dq_defs pixel !! k) as [v|]; [|reflexivity].
  assert (Hne : k <> t).
  { intros ->. destruct (dict_get_key bad_maps t Hk) as [x Hx]. congruence. }
  rewrite (bool_decide_ext (k ∈ before ++ t :: after) (k ∈ before ++ after));
    [reflexivity|].
  rewrite !elem_of_app, elem_of_cons. tauto.
Qed.

Lemma combine_individual_maps_ignores_unmapped_do_not_use_witness :
  combine_individual_maps jwst_pixel two_maps (["DEAD"%string] ++ "HOT"%string :: [])
  = combine_individual_maps jwst_pixel two_maps (["DEAD"%string] ++ []).
Proof.
  apply (combine_individual_maps_ignores_unmapped_do_not_use
           jwst_pixel two_maps ["DEAD"%string] "HOT" []).
  - eexists. vm_compute. reflexivity.
  - reflexivity.
Defined.

(** The loop over the keys returns on a run of registered keys. *)
Lemma category_loop_returns (defs : gmap string Z) bad_maps
    (do_not_use_flags : list string) l sh
    (body : np.ndarray Z -> string -> result (np.ndarray Z)) :
  (forall m k,
      body m k
      = match defs !! k with
        | Some value =>
            if bool_decide (k ∈ do_not_use_flags) then Ok m
            else
              let* ind_map := dict_getitem bad_maps k in
              let flagged := nonzero ind_map in
              np.iadd_where m flagged value
        | None => Raise (ValueError ("Unrecognized bad pixel type: " +:+ k))
        end) ->
  Forall (fun kv : string * np.ndarray Z =>
            np.wf (snd kv) /\ np.shape (snd kv) = sh) bad_maps ->
  Forall (fun k => is_Some (defs !! k) /\ k ∈ dict_keys bad_maps) l ->
  exists m, for_each l body (np.full sh 0) = Ok m /\ np.wf m /\ np.shape m = sh.
Proof.
  intros Hbody Hmaps Hl.
  destruct (for_each_accumulate l body
              (fun r c k => if bool_decide (k ∈ do_not_use_flags) then 0
                            else contribution defs bad_maps r c k)
              sh (np.full sh 0)) as (m & Hm & Hwf & Hsh & _).
  - intros k m Hk Hwf Hsh. rewrite Hbody. rewrite Forall_forall in Hl.
    destruct (Hl k Hk) as [[value Hvalue] Hkey]. rewrite Hvalue.
    destruct (bool_decide (k ∈ do_not_use_flags)).
    + exists m. split; [reflexivity|]. split; [assumption|]. split; [assumption|].
      intros r c v Hv. rewrite Z.add_0_r. exact Hv.
    + destruct (dict_get_key bad_maps k Hkey) as [ind_map Hget].
      destruct (add_category_spec defs bad_maps sh k value m
                  Hmaps Hvalue Hwf Hsh) as (m' & Hm' & Hrest).
      unfold rbind, dict_getitem. rewrite Hget in *.
      exists m'. split; [exact Hm'|]. exact Hrest.
  - apply wf_full.
  - destruct sh; reflexivity.
  - exists m. auto.
Qed.

(** X18: a key of the dictionary that is not registered makes the function
    raise a [ValueError] that names it, after the do-not-use list and the
    keys before it, all registered. *)
Theorem combine_individual_maps_unknown_category
    pixel bad_maps do_not_use_flags before k after sh :
  is_Some (dict_get bad_maps "DEAD") ->
  Forall (fun kv : string * np.ndarray Z =>
            np.wf (snd kv) /\ np.shape (snd kv) = sh) bad_maps ->
  Forall (fun t => is_Some (dq_defs pixel !! t)) do_not_use_flags ->
  is_Some (dq_defs pixel !! "DO_NOT_USE") ->
  dict_keys bad_maps = before ++ k :: after ->
  Forall (fun k' => is_Some (dq_defs pixel !! k')) before ->
  dq_defs pixel !! k = None ->
  combine_individual_maps pixel bad_maps do_not_use_flags
  = Raise (ValueError ("Unrecognized bad pixel type: " +:+ k)).
Proof.
  intros [dead Hdead] Hmaps Hdnu [dnu Hvalue] Hkeys Hbefore Hnone.
  destruct (shape_of_dead bad_maps sh dead Hmaps Hdead) as [Hgetitem Hshape].
  unfold combine_individual_maps. rewrite Hgetitem. unfold Ok at 1.
  cbn [rbind]. rewrite Hshape.
  match goal with
  | |- context [for_each do_not_use_flags ?body ?m0] =>
      destruct (do_not_use_loop_returns (dq_defs pixel) bad_maps
                  do_not_use_flags sh body)
        as (m1 & Hm1 & Hwf1 & Hsh1); [reflexivity | assumption | assumption |];
      rewrite Hm1
  end.
  unfold Ok at 1. cbn [rbind]. rewrite Hvalue. unfold Ok at 1. cbn [rbind].
  destruct (iadd_where_spec m1 (nonzero m1) dnu) as (m2 & Hm2 & _);
    [assumption | apply wf_elementwise; assumption | reflexivity |].
  rewrite Hm2. unfold Ok at 1. cbn [rbind]. rewrite Hkeys.
  match goal with
  | |- context [for_each (before ++ k :: after) ?body ?m0] =>
      destruct (category_loop_returns (dq_defs pixel) bad_maps do_not_use_flags
                  before sh body) as (u & Hu & _);
        [reflexivity | assumption | |];
        [|rewrite (for_each_raise before after k body m0 u
                     (ValueError ("Unrecognized bad pixel type: " +:+ k)) Hu)]
  end.
  - apply Forall_forall. intros k' Hk'. rewrite Forall_forall in Hbefore.
    split; [apply Hbefore, Hk'|]. rewrite Hkeys, elem_of_app. left. exact Hk'.
  - reflexivity.
  - cbv beta. rewrite Hnone. reflexivity.
Qed.

Lemma combine_individual_maps_unknown_category_witness :
  combine_individual_maps jwst_pixel
    [("DEAD"%string, np.NDArray 1 2 [[1; 0]]);
     ("BROKEN"%string, np.NDArray 1 2 [[0; 1]])] []
  = Raise (ValueError ("Unrecognized bad pixel type: " +:+ "BROKEN")).
Proof.
  apply (combine_individual_maps_unknown_category
           jwst_pixel _ [] ["DEAD"%string] "BROKEN" [] (1, 2)%nat).
  - eexists. reflexivity.
  - repeat constructor.
  - constructor.
  - eexists. vm_compute. reflexivity.
  - reflexivity.
  - repeat constructor. eexists. vm_compute. reflexivity.
  - vm_compute. reflexivity.
Defined.

(** X19: when the first do-not-use entry is registered and its map has
    another shape than the DEAD map, the function raises [IndexError]: the
    boolean mask does not fit the accumulator. *)
Theorem combine_individual_maps_shape_mismatch
    pixel bad_maps t rest dead ind_map value :
  dict_get bad_maps "DEAD" = Some dead ->
  dict_get bad_maps t = Some ind_map ->
  dq_defs pixel !! t = Some value ->
  np.shape ind_map <> np.shape dead ->
  combine_individual_maps pixel bad_maps (t :: rest) = Raise IndexError.
Proof.
  intros Hdead Hget Hvalue Hshape.
  unfold combine_individual_maps, dict_getitem at 1. rewrite Hdead.
  unfold Ok at 1. cbn [rbind for_each]. rewrite Hvalue, Hget.
  unfold np.iadd_where. rewrite decide_False; [reflexivity|].
  unfold nonzero, np.elementwise, np.full, np.shape in *.
  cbn [np.ydim np.xdim fst snd]. exact Hshape.
Qed.

Lemma combine_individual_maps_shape_mismatch_witness :
  combine_individual_maps jwst_pixel
    [("DEAD"%string, np.NDArray 1 2 [[1; 0]]);
     ("LOW_QE"%string, np.NDArray 2 1 [[0]; [1]])] ["LOW_QE"%string]
  = Raise IndexError.
Proof.
  apply (combine_individual_maps_shape_mismatch
           jwst_pixel _ "LOW_QE" [] (np.NDArray 1 2 [[1; 0]])
           (np.NDArray 2 1 [[0]; [1]]) 8192).
  - reflexivity.
  - reflexivity.
  - vm_compute. reflexivity.
  - discriminate.
Defined.

Lemma flag_type_check_idempotent_witness :
  flag_type_check jwst_pixel ["DEAD"; "LOW_QE"]%string = Ok ["DEAD"; "LOW_QE"]%string /\
  Forall (fun t => is_Some (dq_defs jwst_pixel !! t)) ["DEAD"; "LOW_QE"]%string.
Proof.
  apply (flag_type_check_idempotent jwst_pixel ["dead"; "Low_qe"]%string).
  vm_compute. reflexivity.
Defined.

Lemma flag_type_check_rejects_unregistered_witness :
  exists t, t ∈ ["dead"; "bogus"]%string /\ jwst_pixel !! upper t = None /\
    flag_type_check jwst_pixel ["dead"; "bogus"]%string
    = Raise (ValueError ("Unrecognized flag type: " +:+ upper t)).
Proof.
  apply (flag_type_check_rejects_unregistered jwst_pixel ["dead"; "bogus"]%string).
  intros H. apply Forall_cons in H as [_ H]. apply Forall_cons in H as [[v Hv] _].
  vm_compute in Hv. discriminate Hv.
Defined.

(** ** [find_open_and_low_qe_pixels]: the classification *)

Lemma find_open_and_low_qe_pixels_loop rate_image max_dead_signal max_low_qe
    max_adj_open :
  find_open_and_low_qe_pixels rate_image max_dead_signal max_low_qe max_adj_open
  = for_each (candidate_coords rate_image max_dead_signal max_low_qe)
             (open_low_qe_step rate_image max_adj_open)
             (np.full (np.ydim rate_image, np.xdim rate_image) 0,
              np.full (np.ydim rate_image, np.xdim rate_image) 0,
              np.full (np.ydim rate_image, np.xdim rate_image) 0).
Proof.
  unfold find_open_and_low_qe_pixels, candidate_coords.
  destruct (np.where_ _ rate_image) as [low_sig_y low_sig_x]. reflexivity.
Qed.

Lemma index_in_range len i :
  0 <= i < Z.of_nat len -> np.index len i = Ok (Z.to_nat i).
Proof.
  intros Hi. unfold np.index.
  destruct (Z.ltb_spec i 0); [lia|].
  destruct (Z.leb_spec 0 i); [|lia].
  destruct (Z.ltb_spec i (Z.of_nat len)); [|lia]. reflexivity.
Qed.

Lemma getitem_in_range {A} (a : np.ndarray A) y x :
  np.wf a -> 0 <= y < Z.of_nat (np.ydim a) -> 0 <= x < Z.of_nat (np.xdim a) ->
  exists v, np.getitem a y x = Ok v /\
            np.at_ a (Z.to_nat y) (Z.to_nat x) = Some v.
Proof.
  intros Hwf Hy Hx. unfold np.getitem.
  rewrite !index_in_range by assumption. unfold Ok at 1 2. cbn [rbind].
  destruct (at_wf a (Z.to_nat y) (Z.to_nat x) Hwf) as [v Hv]; try lia.
  exists v. rewrite Hv. auto.
Qed.

Lemma setitem_in_range {A} (a : np.ndarray A) y x v :
  np.wf a -> 0 <= y < Z.of_nat (np.ydim a) -> 0 <= x < Z.of_nat (np.xdim a) ->
  exists a', np.setitem a y x v = Ok a' /\
    np.wf a' /\ np.shape a' = np.shape a /\
    forall r c,
      np.at_ a' r c
      = if bool_decide (r = Z.to_nat y /\ c = Z.to_nat x) then Some v
        else np.at_ a r c.
Proof.
  intros [Hlen Hrows] Hy Hx. unfold np.setitem.
  rewrite !index_in_range by assumption. unfold Ok at 1 2. cbn [rbind].
  eexists. split; [reflexivity|]. rewrite Forall_lookup in Hrows.
  split; [|split; [reflexivity|]].
  - split; cbn [np.rows np.ydim np.xdim].
    + rewrite length_alter. exact Hlen.
    + apply Forall_lookup. intros i row Hrow.
      rewrite list_lookup_alter in Hrow. destruct (decide (Z.to_nat y = i)).
      * destruct (np.rows a !! Z.to_nat y) as [old|] eqn:Hold; [|discriminate].
        injection Hrow as <-. rewrite length_insert. exact (Hrows _ _ Hold).
      * exact (Hrows _ _ Hrow).
  - intros r c. unfold np.at_. cbn [np.rows]. rewrite list_lookup_alter.
    destruct (decide (Z.to_nat y = r)) as [<-|Hne].
    + destruct (np.rows a !! Z.to_nat y) as [old|] eqn:Hold.
      * simpl. rewrite list_lookup_insert.
        pose proof (Hrows _ _ Hold) as Hl.
        destruct (decide (Z.to_nat x = c /\ (Z.to_nat x < length old)%nat))
          as [[<- _]|Hn].
        -- rewrite bool_decide_eq_true_2 by auto. reflexivity.
        -- rewrite bool_decide_eq_false_2; [reflexivity|].
           intros [_ ->]. apply Hn. split; [reflexivity|lia].
      * apply lookup_ge_None in Hold. lia.
    + rewrite bool_decide_eq_false_2; [reflexivity|]. intros [-> _]. congruence.
Qed.

Lemma take_at_in_grid (a : np.ndarray pyfloat) (ps : list (Z * Z)) :
  np.wf a ->
  Forall (fun p => in_grid (Z.of_nat (np.xdim a)) (Z.of_nat (np.ydim a)) p = true) ps ->
  exists vals,
    np.take_at a (snd <$> ps) (fst <$> ps) = Ok vals /\
    forall max, forallb id ((fun v => fgt v max) <$> vals)
                = forallb (exceeds_at a max) ps.
Proof.
  intros Hwf. induction 1 as [|[x y] ps Hp Hps (vals & Hvals & Hall)].
  - exists []. split; reflexivity.
  - apply in_grid_true in Hp. cbn [fst snd] in Hp.
    destruct (getitem_in_range a y x Hwf) as (v & Hget & Hv); try lia.
    exists (v :: vals). split.
    + rewrite !fmap_cons. cbn [np.take_at fst snd]. rewrite Hget.
      unfold Ok at 1. cbn [rbind]. rewrite Hvals. reflexivity.
    + intros max. rewrite fmap_cons. cbn [forallb]. rewrite Hall.
      assert (He : exceeds_at a max (x, y) = fgt v max).
      { unfold exceeds_at. cbn [fst snd]. rewrite Hv. reflexivity. }
      rewrite He. reflexivity.
Qed.

Lemma zip_fmap_fst_snd {A B} (ps : list (A * B)) : zip (fst <$> ps) (snd <$> ps) = ps.
Proof. apply zip_fst_snd. Qed.

(** The neighbour test of the loop is [neighbours_exceed]. *)
Lemma neighbour_test (a : np.ndarray pyfloat) max x y :
  np.wf a -> (2 <= np.xdim a)%nat -> (2 <= np.ydim a)%nat ->
  0 <= x < Z.of_nat (np.xdim a) -> 0 <= y < Z.of_nat (np.ydim a) ->
  exists adj_x adj_y adj_pix,
    get_adjacent_pixels x y (Z.of_nat (np.xdim a)) (Z.of_nat (np.ydim a))
    = Ok (adj_x, adj_y) /\
    np.take_at a adj_y adj_x = Ok adj_pix /\
    forallb id ((fun v => fgt v max) <$> adj_pix)
    = neighbours_exceed a max (Z.to_nat y) (Z.to_nat x).
Proof.
  intros Hwf Hxd Hyd Hx Hy.
  destruct (get_adjacent_pixels_filter (Z.of_nat (np.xdim a)) (Z.of_nat (np.ydim a))
              x y) as (adj_x & adj_y & Hret & Hlen & Hzip & _); try lia.
  set (ps := List.filter (in_grid (Z.of_nat (np.xdim a)) (Z.of_nat (np.ydim a)))
                         (four_neighbours x y)) in *.
  assert (Hxs : adj_x = fst <$> ps /\ adj_y = snd <$> ps).
  { rewrite <- Hzip. split.
    - symmetry. apply fst_zip. lia.
    - symmetry. apply snd_zip. lia. }
  destruct Hxs as [-> ->].
  destruct (take_at_in_grid a ps Hwf) as (vals & Hvals & Hall).
  { apply Forall_forall. intros p Hp. apply elem_of_filter_bool in Hp. tauto. }
  exists (fst <$> ps), (snd <$> ps), vals.
  split; [exact Hret|]. split; [exact Hvals|].
  rewrite Hall. unfold neighbours_exceed. rewrite !Z2Nat.id by lia. reflexivity.
Qed.

Lemma open_low_qe_step_spec (a : np.ndarray pyfloat) max low open adj x y :
  np.wf a -> (2 <= np.xdim a)%nat -> (2 <= np.ydim a)%nat ->
  0 <= x < Z.of_nat (np.xdim a) -> 0 <= y < Z.of_nat (np.ydim a) ->
  np.wf low -> np.shape low = np.shape a ->
  np.wf open -> np.shape open = np.shape a ->
  np.wf adj -> np.shape adj = np.shape a ->
  exists low' open' adj',
    open_low_qe_step a max (low, open, adj) (x, y) = Ok (low', open', adj') /\
    (np.wf low' /\ np.shape low' = np.shape a) /\
    (np.wf open' /\ np.shape open' = np.shape a) /\
    (np.wf adj' /\ np.shape adj' = np.shape a) /\
    forall r c vl vo va,
      np.at_ low r c = Some vl -> np.at_ open r c = Some vo ->
      np.at_ adj r c = Some va ->
      np.at_ low' r c = Some (low_upd a max r c vl (x, y)) /\
      np.at_ open' r c = Some (open_upd a max r c vo (x, y)) /\
      np.at_ adj' r c = Some (adj_upd a max r c va (x, y)).
Proof.
  intros Hwf Hxd Hyd Hx Hy Hwl Hsl Hwo Hso Hwa Hsa.
  destruct (neighbour_test a max x y Hwf Hxd Hyd Hx Hy)
    as (adj_x & adj_y & adj_pix & Hadj & Htake & Htest).
  unfold np.shape in Hsl, Hso, Hsa.
  injection Hsl as Hly Hlx. injection Hso as Hoy Hox. injection Hsa as Hay Hax.
  unfold open_low_qe_step. rewrite Hadj. unfold Ok at 1. cbn [rbind].
  rewrite Htake. unfold Ok at 1. cbn [rbind]. rewrite Htest.
  unfold low_upd, open_upd, adj_upd, is_open, at_pixel, block_covers.
  cbn [fst snd].
  destruct (neighbours_exceed a max (Z.to_nat y) (Z.to_nat x)).
  - set (adj1 := np.setslice2_scalar adj (Some (y - 1)) (Some (y + 2))
                                     (Some (x - 1)) (Some (x + 2)) 1).
    assert (Hw1 : np.wf adj1) by (apply wf_setslice2_scalar; exact Hwa).
    destruct (setitem_in_range adj1 y x 0 Hw1) as (adj' & Hset & Hwa' & Hsa' & Hata);
      [unfold adj1; cbn [np.ydim np.setslice2_scalar]; lia
      |unfold adj1; cbn [np.xdim np.setslice2_scalar]; lia|].
    destruct (setitem_in_range open y x 1 Hwo) as (open' & Hseto & Hwo' & Hso' & Hato);
      [lia|lia|].
    rewrite Hset. unfold Ok at 1. cbn [rbind].
    rewrite Hseto. unfold Ok at 1. cbn [rbind].
    exists low, open', adj'. split; [reflexivity|].
    split; [split; [exact Hwl|unfold np.shape; congruence]|].
    split; [split; [exact Hwo'|rewrite Hso'; unfold np.shape; congruence]|].
    split; [split; [exact Hwa'|rewrite Hsa'; unfold np.shape, adj1;
                               cbn [np.ydim np.xdim np.setslice2_scalar]; congruence]|].
    intros r c vl vo va Hl Ho Ha. rewrite andb_false_r, andb_true_r.
    split; [exact Hl|]. split.
    + rewrite Hato. destruct (bool_decide _); [reflexivity|exact Ho].
    + rewrite Hata. destruct (bool_decide _); [reflexivity|].
      unfold adj1. rewrite at_setslice2_scalar, Ha, Hay, Hax. reflexivity.
  - destruct (setitem_in_range low y x 1 Hwl) as (low' & Hsetl & Hwl' & Hsl' & Hatl);
      [lia|lia|].
    rewrite Hsetl. unfold Ok at 1. cbn [rbind].
    exists low', open, adj. split; [reflexivity|].
    split; [split; [exact Hwl'|rewrite Hsl'; unfold np.shape; congruence]|].
    split; [split; [exact Hwo|unfold np.shape; congruence]|].
    split; [split; [exact Hwa|unfold np.shape; congruence]|].
    intros r c vl vo va Hl Ho Ha. rewrite andb_false_r, andb_true_r.
    split; [|split; [exact Ho|exact Ha]].
    rewrite Hatl. destruct (bool_decide _); [reflexivity|exact Hl].
Qed.

Lemma open_low_qe_loop_spec (a : np.ndarray pyfloat) max (l : list (Z * Z)) :
  np.wf a -> (2 <= np.xdim a)%nat -> (2 <= np.ydim a)%nat ->
  Forall (fun p => in_grid (Z.of_nat (np.xdim a)) (Z.of_nat (np.ydim a)) p = true) l ->
  forall low open adj,
  np.wf low -> np.shape low = np.shape a ->
  np.wf open -> np.shape open = np.shape a ->
  np.wf adj -> np.shape adj = np.shape a ->
  exists low' open' adj',
    for_each l (open_low_qe_step a max) (low, open, adj) = Ok (low', open', adj') /\
    (np.wf low' /\ np.shape low' = np.shape a) /\
    (np.wf open' /\ np.shape open' = np.shape a) /\
    (np.wf adj' /\ np.shape adj' = np.shape a) /\
    forall r c vl vo va,
      np.at_ low r c = Some vl -> np.at_ open r c = Some vo ->
      np.at_ adj r c = Some va ->
      np.at_ low' r c = Some (fold_left (low_upd a max r c) l vl) /\
      np.at_ open' r c = Some (fold_left (open_upd a max r c) l vo) /\
      np.at_ adj' r c = Some (fold_left (adj_upd a max r c) l va).
Proof.
  intros Hwf Hxd Hyd. induction 1 as [|[x y] l Hp Hl IH];
    intros low open adj Hwl Hsl Hwo Hso Hwa Hsa.
  - exists low, open, adj. split; [reflexivity|].
    split; [tauto|]. split; [tauto|]. split; [tauto|].
    intros r c vl vo va Hl Ho Ha. cbn [fold_left]. auto.
  - apply in_grid_true in Hp. cbn [fst snd] in Hp.
    destruct (open_low_qe_step_spec a max low open adj x y)
      as (low1 & open1 & adj1 & Hstep & [Hwl1 Hsl1] & [Hwo1 Hso1] & [Hwa1 Hsa1] & Hat1);
      try assumption; try lia.
    destruct (IH low1 open1 adj1 Hwl1 Hsl1 Hwo1 Hso1 Hwa1 Hsa1)
      as (low' & open' & adj' & Hloop & Hl' & Ho' & Ha' & Hat').
    exists low', open', adj'. split.
    { cbn [for_each]. rewrite Hstep. unfold Ok at 1. cbn [rbind]. exact Hloop. }
    split; [assumption|]. split; [assumption|]. split; [assumption|].
    intros r c vl vo va Hvl Hvo Hva. cbn [fold_left].
    destruct (Hat1 r c vl vo va Hvl Hvo Hva) as (H1 & H2 & H3).
    exact (Hat' r c _ _ _ H1 H2 H3).
Qed.

Lemma zip_snd_fst {A B} (l : list (A * B)) :
  zip (snd <$> l) (fst <$> l) = (fun h => (snd h, fst h)) <$> l.
Proof.
  induction l as [|[a b] l IH]; [reflexivity|].
  rewrite !fmap_cons. cbn [zip zip_with fst snd]. f_equal. exact IH.
Qed.

Lemma elem_of_where {A} (cond : A -> bool) (a : np.ndarray A) (h : Z * Z) :
  h ∈ mjoin (imap (fun r row =>
                     omap (fun '(c, v) =>
                             if cond v then Some (Z.of_nat r, Z.of_nat c) else None)
                          (imap (fun c v => (c, v)) row))
                  (np.rows a))
  <-> exists r c v, h = (Z.of_nat r, Z.of_nat c) /\ np.at_ a r c = Some v /\
                    cond v = true.
Proof.
  rewrite list_elem_of_join. split.
  - intros (l & Hh & Hl). apply elem_of_lookup_imap in Hl as (r & row & -> & Hrow).
    apply list_elem_of_omap in Hh as ([c v] & Hcv & Hsome).
    apply elem_of_lookup_imap in Hcv as (c' & v' & Heq & Hv).
    injection Heq as -> ->.
    destruct (cond v') eqn:Hc; [|discriminate]. injection Hsome as <-.
    exists r, c', v'. split; [reflexivity|]. split; [|exact Hc].
    unfold np.at_. rewrite Hrow. exact Hv.
  - intros (r & c & v & -> & Hat & Hc). unfold np.at_ in Hat.
    destruct (np.rows a !! r) as [row|] eqn:Hrow; [|discriminate].
    eexists. split; cycle 1.
    + apply elem_of_lookup_imap. exists r, row. split; [reflexivity|exact Hrow].
    + cbv beta. apply list_elem_of_omap. exists (c, v). split.
      * apply elem_of_lookup_imap. exists c, v. split; [reflexivity|exact Hat].
      * rewrite Hc. reflexivity.
Qed.

Lemma elem_of_candidate_coords (a : np.ndarray pyfloat) lo hi (p : Z * Z) :
  p ∈ candidate_coords a lo hi
  <-> exists r c, p = (Z.of_nat c, Z.of_nat r) /\ is_candidate a lo hi r c = true.
Proof.
  unfold candidate_coords, np.where_. rewrite zip_snd_fst, list_elem_of_fmap.
  split.
  - intros (h & -> & Hh). apply elem_of_where in Hh as (r & c & v & -> & Hat & Hc).
    exists r, c. split; [reflexivity|]. unfold is_candidate. rewrite Hat. exact Hc.
  - intros (r & c & -> & Hc). unfold is_candidate in Hc.
    destruct (np.at_ a r c) as [v|] eqn:Hat; [|discriminate].
    exists (Z.of_nat r, Z.of_nat c). split; [reflexivity|].
    apply elem_of_where. exists r, c, v. auto.
Qed.

Lemma candidate_coords_in_grid (a : np.ndarray pyfloat) lo hi :
  np.wf a ->
  Forall (fun p => in_grid (Z.of_nat (np.xdim a)) (Z.of_nat (np.ydim a)) p = true)
         (candidate_coords a lo hi).
Proof.
  intros Hwf. apply Forall_forall. intros p Hp.
  apply elem_of_candidate_coords in Hp as (r & c & -> & Hc).
  unfold is_candidate in Hc.
  destruct (np.at_ a r c) as [v|] eqn:Hat; [|discriminate].
  apply at_in_range in Hat as [Hr Hcc]; [|exact Hwf].
  apply in_grid_true. cbn [fst snd]. lia.
Qed.

Lemma fold_left_set_one {T} (f : T -> bool) (l : list T) (v0 : Z) :
  fold_left (fun v p => if f p then 1 else v) l v0
  = if existsb f l then 1 else v0.
Proof.
  revert v0. induction l as [|p l IH]; intros v0; [reflexivity|].
  cbn [fold_left existsb]. rewrite IH.
  destruct (f p), (existsb f l); reflexivity.
Qed.

Lemma existsb_at_pixel (a : np.ndarray pyfloat) lo hi (g : Z * Z -> bool) r c :
  existsb (fun p => at_pixel p r c && g p) (candidate_coords a lo hi)
  = is_candidate a lo hi r c && g (Z.of_nat c, Z.of_nat r).
Proof.
  apply eq_iff_eq_true. rewrite existsb_exists, andb_true_iff. split.
  - intros (p & Hin & Hp). apply andb_true_iff in Hp as [Hat Hg].
    apply list_elem_of_In, elem_of_candidate_coords in Hin as (r' & c' & -> & Hc).
    unfold at_pixel in Hat. apply bool_decide_eq_true in Hat. cbn [fst snd] in Hat.
    rewrite !Nat2Z.id in Hat. destruct Hat as [-> ->]. auto.
  - intros [Hc Hg]. exists (Z.of_nat c, Z.of_nat r). split.
    + apply list_elem_of_In, elem_of_candidate_coords. exists r, c. auto.
    + rewrite Hg, andb_true_r. unfold at_pixel. apply bool_decide_eq_true.
      cbn [fst snd]. rewrite !Nat2Z.id. auto.
Qed.

(** The three maps of [find_open_and_low_qe_pixels] on an image of at least
    2 x 2 pixels. *)
Lemma find_open_and_low_qe_pixels_spec (a : np.ndarray pyfloat) lo hi max :
  np.wf a -> (2 <= np.xdim a)%nat -> (2 <= np.ydim a)%nat ->
  exists low open adj,
    find_open_and_low_qe_pixels a lo hi max = Ok (low, open, adj) /\
    (np.wf low /\ np.shape low = np.shape a) /\
    (np.wf open /\ np.shape open = np.shape a) /\
    (np.wf adj /\ np.shape adj = np.shape a) /\
    forall r c, (r < np.ydim a)%nat -> (c < np.xdim a)%nat ->
      np.at_ low r c
      = Some (if is_candidate a lo hi r c && negb (neighbours_exceed a max r c)
              then 1 else 0) /\
      np.at_ open r c
      = Some (if is_candidate a lo hi r c && neighbours_exceed a max r c
              then 1 else 0) /\
      np.at_ adj r c
      = Some (fold_left (adj_upd a max r c) (candidate_coords a lo hi) 0).
Proof.
  intros Hwf Hxd Hyd. rewrite find_open_and_low_qe_pixels_loop.
  set (z := np.full (np.ydim a, np.xdim a) 0).
  assert (Hwz : np.wf z) by apply wf_full.
  assert (Hsz : np.shape z = np.shape a) by reflexivity.
  destruct (open_low_qe_loop_spec a max (candidate_coords a lo hi) Hwf Hxd Hyd
              (candidate_coords_in_grid a lo hi Hwf) z z z Hwz Hsz Hwz Hsz Hwz Hsz)
    as (low & open & adj & Hloop & Hl & Ho & Ha & Hat).
  exists low, open, adj. split; [exact Hloop|].
  split; [exact Hl|]. split; [exact Ho|]. split; [exact Ha|].
  intros r c Hr Hc.
  assert (Hz : np.at_ z r c = Some 0) by (apply at_full; assumption).
  destruct (Hat r c 0 0 0 Hz Hz Hz) as (H1 & H2 & H3).
  split; [|split; [|exact H3]].
  - rewrite H1. f_equal. unfold low_upd.
    rewrite (fold_left_set_one
               (fun p => at_pixel p r c && negb (is_open a max p))).
    rewrite (existsb_at_pixel a lo hi (fun p => negb (is_open a max p))).
    unfold is_open. cbn [fst snd]. rewrite !Nat2Z.id.
    destruct (_ && _); reflexivity.
  - rewrite H2. f_equal. unfold open_upd.
    rewrite (fold_left_set_one (fun p => at_pixel p r c && is_open a max p)).
    rewrite (existsb_at_pixel a lo hi (is_open a max)).
    unfold is_open. cbn [fst snd]. rewrite !Nat2Z.id.
    destruct (_ && _); reflexivity.
Qed.

Lemma adj_fold_sound (a : np.ndarray pyfloat) max r c (l : list (Z * Z)) v0 :
  v0 = 0 \/ v0 = 1 ->
  (fold_left (adj_upd a max r c) l v0 = 0 \/
   fold_left (adj_upd a max r c) l v0 = 1) /\
  (fold_left (adj_upd a max r c) l v0 = 1 ->
   v0 = 1 \/
   exists p, p ∈ l /\ is_open a max p = true /\ at_pixel p r c = false /\
             block_covers a p r c = true).
Proof.
  revert v0. induction l as [|p l IH]; intros v0 Hv0; cbn [fold_left].
  - split; [exact Hv0|]. intros ->. left. reflexivity.
  - assert (Hv1 : adj_upd a max r c v0 p = 0 \/ adj_upd a max r c v0 p = 1).
    { unfold adj_upd. destruct (is_open a max p), (at_pixel p r c),
        (block_covers a p r c); auto. }
    destruct (IH _ Hv1) as [Hrange Hone]. split; [exact Hrange|].
    intros Hf. destruct (Hone Hf) as [Hu|(q & Hq & Ho & Hne & Hb)].
    + unfold adj_upd in Hu.
      destruct (is_open a max p) eqn:Ho; [|left; exact Hu].
      destruct (at_pixel p r c) eqn:Hat; [discriminate|].
      destruct (block_covers a p r c) eqn:Hb; [|left; exact Hu].
      right. exists p. split; [apply list_elem_of_here|]. auto.
    + right. exists q. split; [apply list_elem_of_further; exact Hq|]. auto.
Qed.

Lemma adj_fold_complete (a : np.ndarray pyfloat) max r c (l : list (Z * Z)) v0 :
  (forall p, p ∈ l -> is_open a max p = true -> at_pixel p r c = false) ->
  (v0 = 1 \/ exists p, p ∈ l /\ is_open a max p = true /\
                       block_covers a p r c = true) ->
  fold_left (adj_upd a max r c) l v0 = 1.
Proof.
  revert v0. induction l as [|p l IH]; intros v0 Hnot Hsrc; cbn [fold_left].
  - destruct Hsrc as [->|(q & Hq & _)]; [reflexivity|].
    apply elem_of_nil in Hq. contradiction.
  - apply IH.
    + intros q Hq. apply Hnot. apply list_elem_of_further. exact Hq.
    + destruct Hsrc as [->|(q & Hq & Ho & Hb)].
      * left. unfold adj_upd. destruct (is_open a max p) eqn:Ho; [|reflexivity].
        rewrite (Hnot p (list_elem_of_here _ _) Ho).
        destruct (block_covers a p r c); reflexivity.
      * apply elem_of_cons in Hq as [->|Hq].
        -- left. unfold adj_upd. rewrite Ho, Hb.
           rewrite (Hnot p (list_elem_of_here _ _) Ho). reflexivity.
        -- right. exists q. auto.
Qed.

Lemma in_slice_block_near len i k :
  0 <= i ->
  np.in_slice (np.slice len (Some (i - 1)) (Some (i + 2))) k = true ->
  i - 1 <= Z.of_nat k <= i + 1.
Proof.
  intros Hi. unfold np.in_slice, np.slice. cbn [fst snd].
  rewrite andb_true_iff, Nat.leb_le, Nat.ltb_lt. unfold np.bound.
  destruct (Z.ltb_spec (i - 1) 0), (Z.ltb_spec (i + 2) 0); lia.
Qed.

Lemma in_slice_block_interior len i k :
  1 <= i -> (k < len)%nat -> i - 1 <= Z.of_nat k <= i + 1 ->
  np.in_slice (np.slice len (Some (i - 1)) (Some (i + 2))) k = true.
Proof.
  intros Hi Hk Hnear. unfold np.in_slice, np.slice. cbn [fst snd].
  rewrite andb_true_iff, Nat.leb_le, Nat.ltb_lt. unfold np.bound.
  destruct (Z.ltb_spec (i - 1) 0), (Z.ltb_spec (i + 2) 0); lia.
Qed.

Lemma dead_pixels_absolute_rate_at (a : np.ndarray pyfloat) max r c :
  np.at_ (dead_pixels_absolute_rate a max) r c
  = (fun v => if flt v max then 1 else 0) <$> np.at_ a r c.
Proof.
  unfold dead_pixels_absolute_rate, np.astype_int.
  rewrite !at_elementwise. destruct (np.at_ a r c); reflexivity.
Qed.

Lemma flt_fle_false v m : flt v m = true -> fle m v = false.
Proof.
  destruct v as [x|], m as [y|]; cbn [flt fle]; try discriminate.
  destruct (Qle_bool y x); [discriminate|reflexivity].
Qed.

(** ** [find_open_and_low_qe_pixels]: what a caller can rely on *)

(** X20: on a well-formed image of at least 2 x 2 pixels
    [find_open_and_low_qe_pixels] returns three maps of the image's shape;
    a pixel is OPEN exactly when it is a candidate
    (max_dead_signal <= value < max_low_qe) all of whose neighbours in the
    image are above max_adj_open, and LOW_QE exactly when it is a candidate
    with a neighbour that is not. *)
Theorem find_open_and_low_qe_pixels_classifies (a : np.ndarray pyfloat)
    lo hi max :
  np.wf a -> (2 <= np.xdim a)%nat -> (2 <= np.ydim a)%nat ->
  exists low open adj,
    find_open_and_low_qe_pixels a lo hi max = Ok (low, open, adj) /\
    np.shape low = np.shape a /\ np.shape open = np.shape a /\
    np.shape adj = np.shape a /\
    forall r c, (r < np.ydim a)%nat -> (c < np.xdim a)%nat ->
      np.at_ open r c
      = Some (if is_candidate a lo hi r c && neighbours_exceed a max r c
              then 1 else 0) /\
      np.at_ low r c
      = Some (if is_candidate a lo hi r c && negb (neighbours_exceed a max r c)
              then 1 else 0).
Proof.
  intros Hwf Hxd Hyd.
  destruct (find_open_and_low_qe_pixels_spec a lo hi max Hwf Hxd Hyd)
    as (low & open & adj & Hret & [_ Hl] & [_ Ho] & [_ Ha] & Hat).
  exists low, open, adj. split; [exact Hret|].
  split; [exact Hl|]. split; [exact Ho|]. split; [exact Ha|].
  intros r c Hr Hc. destruct (Hat r c Hr Hc) as (H1 & H2 & _). auto.
Qed.

Lemma find_open_and_low_qe_pixels_classifies_witness :
  exists low open adj,
    find_open_and_low_qe_pixels diagonal_candidates_image
      (Fin 0.05) (Fin 0.5) (Fin 1.05) = Ok (low, open, adj) /\
    np.at_ open 1 1 = Some 1 /\ np.at_ low 1 1 = Some 0.
Proof.
  destruct (find_open_and_low_qe_pixels_classifies diagonal_candidates_image
              (Fin 0.05) (Fin 0.5) (Fin 1.05))
    as (low & open & adj & Hret & _ & _ & _ & Hat).
  - apply (bool_decide_unpack _). vm_compute. exact I.
  - vm_compute. lia.
  - vm_compute. lia.
  - exists low, open, adj. split; [exact Hret|].
    destruct (Hat 1%nat 1%nat) as [Ho Hl]; [vm_compute; lia|vm_compute; lia|].
    split; [exact Ho|exact Hl].
Defined.

(** X21: the adjacent-to-open map holds only 0 and 1, and a pixel set in
    it is a different pixel from, and within one row and one column of,
    some pixel set in the OPEN map: no pixel is flagged away from an OPEN
    pixel. *)
Theorem adjacent_flag_only_next_to_open (a : np.ndarray pyfloat) lo hi max
    low open adj r c v :
  np.wf a -> (2 <= np.xdim a)%nat -> (2 <= np.ydim a)%nat ->
  find_open_and_low_qe_pixels a lo hi max = Ok (low, open, adj) ->
  np.at_ adj r c = Some v ->
  (v = 0 \/ v = 1) /\
  (v = 1 ->
   exists r' c', np.at_ open r' c' = Some 1 /\ (r', c') <> (r, c) /\
                 (r' <= r + 1)%nat /\ (r <= r' + 1)%nat /\
                 (c' <= c + 1)%nat /\ (c <= c' + 1)%nat).
Proof.
  intros Hwf Hxd Hyd Hret Hv.
  destruct (find_open_and_low_qe_pixels_spec a lo hi max Hwf Hxd Hyd)
    as (low' & open' & adj' & Hret' & _ & _ & [Hwa Hsa] & Hat).
  rewrite Hret in Hret'. injection Hret' as <- <- <-.
  destruct (at_in_range adj r c v Hwa Hv) as [Hr Hc].
  unfold np.shape in Hsa. injection Hsa as Hay Hax. rewrite Hay in Hr. rewrite Hax in Hc.
  destruct (Hat r c Hr Hc) as (_ & _ & Hadj).
  rewrite Hv in Hadj. injection Hadj as ->.
  destruct (adj_fold_sound a max r c (candidate_coords a lo hi) 0) as [Hrange Hone];
    [left; reflexivity|].
  split; [exact Hrange|]. intros H1.
  destruct (Hone H1) as [H0|(p & Hp & Ho & Hne & Hb)]; [discriminate|].
  apply elem_of_candidate_coords in Hp as (r' & c' & -> & Hcand).
  assert (Hin : (r' < np.ydim a)%nat /\ (c' < np.xdim a)%nat).
  { unfold is_candidate in Hcand.
    destruct (np.at_ a r' c') as [w|] eqn:Hw; [|discriminate].
    exact (at_in_range a r' c' w Hwf Hw). }
  destruct Hin as [Hr' Hc'].
  exists r', c'. split.
  { destruct (Hat r' c' Hr' Hc') as (_ & Hopen & _). rewrite Hopen, Hcand.
    unfold is_open in Ho. cbn [fst snd] in Ho. rewrite !Nat2Z.id in Ho.
    rewrite Ho. reflexivity. }
  split.
  { intros Heq. injection Heq as -> ->. unfold at_pixel in Hne.
    apply bool_decide_eq_false in Hne. apply Hne. cbn [fst snd].
    rewrite !Nat2Z.id. auto. }
  unfold block_covers in Hb. cbn [fst snd] in Hb.
  apply andb_true_iff in Hb as [Hby Hbx].
  apply in_slice_block_near in Hby; [|lia].
  apply in_slice_block_near in Hbx; [|lia]. lia.
Qed.

Lemma adjacent_flag_only_next_to_open_witness :
  exists low open adj,
    find_open_and_low_qe_pixels diagonal_candidates_image
      (Fin 0.05) (Fin 0.5) (Fin 1.05) = Ok (low, open, adj) /\
    np.at_ adj 0 1 = Some 1 /\
    exists r' c', np.at_ open r' c' = Some 1 /\ (r', c') <> (0, 1)%nat /\
                  (r' <= 0 + 1)%nat /\ (0 <= r' + 1)%nat /\
                  (c' <= 1 + 1)%nat /\ (1 <= c' + 1)%nat.
Proof.
  destruct (find_open_and_low_qe_pixels diagonal_candidates_image
              (Fin 0.05) (Fin 0.5) (Fin 1.05)) as [e|[[low open] adj]] eqn:Hret;
    [vm_compute in Hret; discriminate|].
  exists low, open, adj. split; [reflexivity|].
  assert (Hv : np.at_ adj 0 1 = Some 1).
  { vm_compute in Hret. injection Hret as <- <- <-. reflexivity. }
  split; [exact Hv|].
  refine (proj2 (adjacent_flag_only_next_to_open diagonal_candidates_image
                   (Fin 0.05) (Fin 0.5) (Fin 1.05) low open adj 0 1 1
                   _ _ _ Hret Hv) eq_refl).
  - apply (bool_decide_unpack _). vm_compute. exact I.
  - vm_compute. lia.
  - vm_compute. lia.
Defined.

(** X22: around an OPEN pixel that is not on the first row or the first
    column, every pixel of the 3 x 3 block that is in the image and is not
    OPEN itself is set in the adjacent-to-open map. *)
Theorem adjacent_flag_set_around_open (a : np.ndarray pyfloat) lo hi max
    low open adj y x r c :
  np.wf a -> (2 <= np.xdim a)%nat -> (2 <= np.ydim a)%nat ->
  find_open_and_low_qe_pixels a lo hi max = Ok (low, open, adj) ->
  np.at_ open y x = Some 1 -> (1 <= y)%nat -> (1 <= x)%nat ->
  (r < np.ydim a)%nat -> (c < np.xdim a)%nat ->
  (y <= r + 1)%nat -> (r <= y + 1)%nat -> (x <= c + 1)%nat -> (c <= x + 1)%nat ->
  np.at_ open r c = Some 0 ->
  np.at_ adj r c = Some 1.
Proof.
  intros Hwf Hxd Hyd Hret Hopen Hy1 Hx1 Hr Hc Hry Hyr Hcx Hxc Hnot.
  destruct (find_open_and_low_qe_pixels_spec a lo hi max Hwf Hxd Hyd)
    as (low' & open' & adj' & Hret' & _ & [Hwo Hso] & _ & Hat).
  rewrite Hret in Hret'. injection Hret' as <- <- <-.
  destruct (at_in_range open y x 1 Hwo Hopen) as [Hy Hx].
  unfold np.shape in Hso. injection Hso as Hoy Hox. rewrite Hoy in Hy. rewrite Hox in Hx.
  destruct (Hat y x Hy Hx) as (_ & Hopen' & _).
  rewrite Hopen in Hopen'.
  assert (Hyx : is_candidate a lo hi y x && neighbours_exceed a max y x = true).
  { destruct (is_candidate a lo hi y x && neighbours_exceed a max y x);
      [reflexivity|discriminate Hopen']. }
  apply andb_true_iff in Hyx as [Hcand Hne].
  destruct (Hat r c Hr Hc) as (_ & Hrc & Hadj).
  rewrite Hnot in Hrc.
  assert (Hrc' : is_candidate a lo hi r c && neighbours_exceed a max r c = false).
  { destruct (is_candidate a lo hi r c && neighbours_exceed a max r c);
      [discriminate Hrc|reflexivity]. }
  rewrite Hadj. f_equal. apply adj_fold_complete.
  - intros p Hp Ho. apply elem_of_candidate_coords in Hp as (r' & c' & -> & Hc').
    unfold at_pixel. apply bool_decide_eq_false. cbn [fst snd].
    rewrite !Nat2Z.id. intros [-> ->].
    unfold is_open in Ho. cbn [fst snd] in Ho. rewrite !Nat2Z.id in Ho.
    rewrite Hc', Ho in Hrc'. discriminate.
  - right. exists (Z.of_nat x, Z.of_nat y). split.
    + apply elem_of_candidate_coords. exists y, x. auto.
    + split.
      * unfold is_open. cbn [fst snd]. rewrite !Nat2Z.id. exact Hne.
      * unfold block_covers. cbn [fst snd]. apply andb_true_iff.
        split; apply in_slice_block_interior; lia.
Qed.

Lemma adjacent_flag_set_around_open_witness :
  exists low open adj,
    find_open_and_low_qe_pixels diagonal_candidates_image
      (Fin 0.05) (Fin 0.5) (Fin 1.05) = Ok (low, open, adj) /\
    np.at_ open 1 1 = Some 1 /\ np.at_ open 2 1 = Some 0 /\
    np.at_ adj 2 1 = Some 1.
Proof.
  destruct (find_open_and_low_qe_pixels diagonal_candidates_image
              (Fin 0.05) (Fin 0.5) (Fin 1.05)) as [e|[[low open] adj]] eqn:Hret;
    [vm_compute in Hret; discriminate|].
  exists low, open, adj. split; [reflexivity|].
  assert (Hv : np.at_ open 1 1 = Some 1 /\ np.at_ open 2 1 = Some 0).
  { vm_compute in Hret. injection Hret as <- <- <-. split; reflexivity. }
  destruct Hv as [Ho Hn]. split; [exact Ho|]. split; [exact Hn|].
  apply (adjacent_flag_set_around_open diagonal_candidates_image
           (Fin 0.05) (Fin 0.5) (Fin 1.05) low open adj 1 1 2 1);
    try exact Hret; try exact Ho; try exact Hn; try (vm_compute; lia).
  apply (bool_decide_unpack _). vm_compute. exact I.
Defined.

(** ** [dead_pixels_absolute_rate] with [find_open_and_low_qe_pixels] *)

(** X23: with one threshold max_dead_signal for both searches, as in
    [find_bad_pix], no pixel is set in more than one of the DEAD, LOW_QE and
    OPEN maps; a NaN pixel is set in none. *)
Theorem dead_low_qe_open_exclusive (a : np.ndarray pyfloat) lo hi max
    low open adj r c :
  np.wf a -> (2 <= np.xdim a)%nat -> (2 <= np.ydim a)%nat ->
  find_open_and_low_qe_pixels a lo hi max = Ok (low, open, adj) ->
  (r < np.ydim a)%nat -> (c < np.xdim a)%nat ->
  exists d l o,
    np.at_ (dead_pixels_absolute_rate a lo) r c = Some d /\
    np.at_ low r c = Some l /\ np.at_ open r c = Some o /\
    0 <= d /\ 0 <= l /\ 0 <= o /\ d + l + o <= 1 /\
    (np.at_ a r c = Some NaN -> d + l + o = 0).
Proof.
  intros Hwf Hxd Hyd Hret Hr Hc.
  destruct (find_open_and_low_qe_pixels_spec a lo hi max Hwf Hxd Hyd)
    as (low' & open' & adj' & Hret' & _ & _ & _ & Hat).
  rewrite Hret in Hret'. injection Hret' as <- <- <-.
  destruct (Hat r c Hr Hc) as (Hl & Ho & _).
  destruct (at_wf a r c Hwf Hr Hc) as [v Hv].
  eexists _, _, _. split.
  { rewrite dead_pixels_absolute_rate_at, Hv. reflexivity. }
  split; [exact Hl|]. split; [exact Ho|].
  unfold is_candidate. rewrite Hv. unfold fge.
  assert (Hnan : Some v = Some NaN ->
                 flt v lo = false /\ fle lo v && flt v hi = false).
  { intros Hn. injection Hn as ->. destruct lo, hi; split; reflexivity. }
  destruct (flt v lo) eqn:Hd.
  - rewrite (flt_fle_false v lo Hd). cbn [andb].
    repeat split; try lia. intros Hn. destruct (Hnan Hn) as [Hf _]. discriminate Hf.
  - destruct (fle lo v && flt v hi) eqn:Hcand,
             (neighbours_exceed a max r c); cbn [andb negb];
      repeat split; try lia; intros Hn; destruct (Hnan Hn) as [_ Hf];
      discriminate Hf.
Qed.

Lemma dead_low_qe_open_exclusive_witness :
  exists low open adj d l o,
    find_open_and_low_qe_pixels diagonal_candidates_image
      (Fin 0.05) (Fin 0.5) (Fin 1.05) = Ok (low, open, adj) /\
    np.at_ (dead_pixels_absolute_rate diagonal_candidates_image (Fin 0.05)) 1 1
    = Some d /\
    np.at_ low 1 1 = Some l /\ np.at_ open 1 1 = Some o /\ d + l + o <= 1.
Proof.
  destruct (find_open_and_low_qe_pixels diagonal_candidates_image
              (Fin 0.05) (Fin 0.5) (Fin 1.05)) as [e|[[low open] adj]] eqn:Hret;
    [vm_compute in Hret; discriminate|].
  destruct (dead_low_qe_open_exclusive diagonal_candidates_image
              (Fin 0.05) (Fin 0.5) (Fin 1.05) low open adj 1 1)
    as (d & l & o & Hd & Hl & Ho & _ & _ & _ & Hsum & _);
    try exact Hret; try (vm_compute; lia).
  - apply (bool_decide_unpack _). vm_compute. exact I.
  - exists low, open, adj, d, l, o. split; [reflexivity|]. auto.
Defined.

(** X24: when max_dead_signal <= max_low_qe are finite, a pixel is set in
    exactly one of the DEAD, LOW_QE and OPEN maps if its value is below
    max_low_qe, and in none of them otherwise. *)
Theorem below_max_low_qe_gets_one_flag (a : np.ndarray pyfloat) (ql qh : Q) max
    low open adj r c v :
  np.wf a -> (2 <= np.xdim a)%nat -> (2 <= np.ydim a)%nat ->
  (ql <= qh)%Q ->
  find_open_and_low_qe_pixels a (Fin ql) (Fin qh) max = Ok (low, open, adj) ->
  np.at_ a r c = Some v ->
  exists d l o,
    np.at_ (dead_pixels_absolute_rate a (Fin ql)) r c = Some d /\
    np.at_ low r c = Some l /\ np.at_ open r c = Some o /\
    d + l + o = if flt v (Fin qh) then 1 else 0.
Proof.
  intros Hwf Hxd Hyd Hq Hret Hv.
  destruct (find_open_and_low_qe_pixels_spec a (Fin ql) (Fin qh) max Hwf Hxd Hyd)
    as (low' & open' & adj' & Hret' & _ & _ & _ & Hat).
  rewrite Hret in Hret'. injection Hret' as <- <- <-.
  destruct (at_in_range a r c v Hwf Hv) as [Hr Hc].
  destruct (Hat r c Hr Hc) as (Hl & Ho & _).
  eexists _, _, _. split.
  { rewrite dead_pixels_absolute_rate_at, Hv. reflexivity. }
  split; [exact Hl|]. split; [exact Ho|].
  unfold is_candidate. rewrite Hv. unfold fge.
  destruct v as [q|]; cbn [flt fle]; [|reflexivity].
  destruct (Qle_bool ql q) eqn:Hlo; cbn [negb andb].
  - destruct (negb (Qle_bool qh q)), (neighbours_exceed a max r c); reflexivity.
  - destruct (Qle_bool qh q) eqn:Hhi; [|reflexivity].
    apply Qle_bool_iff in Hhi.
    assert (Hle : Qle_bool ql q = true).
    { apply Qle_bool_iff. eapply Qle_trans; eassumption. }
    congruence.
Qed.

Lemma below_max_low_qe_gets_one_flag_witness :
  exists low open adj d l o,
    find_open_and_low_qe_pixels diagonal_candidates_image
      (Fin 0.05) (Fin 0.5) (Fin 1.05) = Ok (low, open, adj) /\
    np.at_ (dead_pixels_absolute_rate diagonal_candidates_image (Fin 0.05)) 1 1
    = Some d /\
    np.at_ low 1 1 = Some l /\ np.at_ open 1 1 = Some o /\ d + l + o = 1.
Proof.
  destruct (find_open_and_low_qe_pixels diagonal_candidates_image
              (Fin 0.05) (Fin 0.5) (Fin 1.05)) as [e|[[low open] adj]] eqn:Hret;
    [vm_compute in Hret; discriminate|].
  destruct (below_max_low_qe_gets_one_flag diagonal_candidates_image
              0.05 0.5 (Fin 1.05) low open adj 1 1 lo)
    as (d & l & o & Hd & Hl & Ho & Hsum);
    try exact Hret; try (vm_compute; lia); try reflexivity.
  - apply (bool_decide_unpack _). vm_compute. exact I.
  - vm_compute. discriminate.
  - exists low, open, adj, d, l, o. split; [reflexivity|]. auto.
Defined.

(** ** [find_open_and_low_qe_pixels] on an image one pixel wide or high *)

Lemma getitem_raises_x {A} (a : np.ndarray A) y x :
  Z.of_nat (np.xdim a) <= x -> np.getitem a y x = Raise IndexError.
Proof.
  intros Hx. unfold np.getitem.
  destruct (np.index (np.ydim a) y) as [e|r] eqn:Hy.
  - unfold np.index in Hy. destruct (_ && _); [discriminate|].
    injection Hy as <-. reflexivity.
  - cbn [rbind]. unfold np.index.
    destruct (Z.ltb_spec x 0); [lia|].
    destruct (Z.leb_spec 0 x); [|lia].
    destruct (Z.ltb_spec x (Z.of_nat (np.xdim a))); [lia|]. reflexivity.
Qed.

Lemma getitem_raises_y {A} (a : np.ndarray A) y x :
  Z.of_nat (np.ydim a) <= y -> np.getitem a y x = Raise IndexError.
Proof.
  intros Hy. unfold np.getitem, np.index.
  destruct (Z.ltb_spec y 0); [lia|].
  destruct (Z.leb_spec 0 y); [|lia].
  destruct (Z.ltb_spec y (Z.of_nat (np.ydim a))); [lia|]. reflexivity.
Qed.

Lemma getitem_ok_or_index_error {A} (a : np.ndarray A) y x :
  (exists v, np.getitem a y x = Ok v) \/ np.getitem a y x = Raise IndexError.
Proof.
  assert (Hidx : forall len i, (exists k, np.index len i = Ok k) \/
                               np.index len i = Raise IndexError).
  { intros len i. unfold np.index.
    destruct (_ && _); [left; eexists; reflexivity|right; reflexivity]. }
  unfold np.getitem.
  destruct (Hidx (np.ydim a) y) as [[r ->]| ->]; [|right; reflexivity].
  destruct (Hidx (np.xdim a) x) as [[c ->]| ->]; [|right; reflexivity].
  cbv [rbind Ok].
  destruct (np.at_ a r c) as [v|]; [left; exists v; reflexivity|right; reflexivity].
Qed.

Lemma take_at_raises {A} (a : np.ndarray A) (ps : list (Z * Z)) :
  Exists (fun p => np.getitem a (fst p) (snd p) = Raise IndexError) ps ->
  np.take_at a (fst <$> ps) (snd <$> ps) = Raise IndexError.
Proof.
  induction ps as [|[y x] ps IH]; intros Hex.
  - apply Exists_nil in Hex. contradiction.
  - rewrite !fmap_cons. cbn [np.take_at fst snd].
    destruct (getitem_ok_or_index_error a y x) as [[v Hv]|Hraise].
    + rewrite Hv. unfold Ok at 1. cbn [rbind].
      apply Exists_cons in Hex as [Hhd|Htl].
      * cbn [fst snd] in Hhd. rewrite Hv in Hhd. discriminate Hhd.
      * rewrite (IH Htl). reflexivity.
    + rewrite Hraise. reflexivity.
Qed.

Lemma open_low_qe_step_thin (a : np.ndarray pyfloat) max st x y :
  np.xdim a = 1%nat \/ np.ydim a = 1%nat ->
  0 <= x < Z.of_nat (np.xdim a) -> 0 <= y < Z.of_nat (np.ydim a) ->
  open_low_qe_step a max st (x, y) = Raise IndexError.
Proof.
  intros Hthin Hx Hy. destruct st as [[low open] adj].
  assert (Hraise : forall ps : list (Z * Z),
            get_adjacent_pixels x y (Z.of_nat (np.xdim a)) (Z.of_nat (np.ydim a))
            = Ok (snd <$> ps, fst <$> ps) ->
            Exists (fun p => np.getitem a (fst p) (snd p) = Raise IndexError) ps ->
            open_low_qe_step a max (low, open, adj) (x, y) = Raise IndexError).
  { intros ps Hadj Hex. unfold open_low_qe_step. rewrite Hadj.
    unfold Ok at 1. cbn [rbind]. rewrite (take_at_raises a ps Hex). reflexivity. }
  unfold get_adjacent_pixels in Hraise.
  destruct (Z.ltb_spec 0 x), (Z.ltb_spec x (Z.of_nat (np.xdim a) - 1)),
    (Z.eqb_spec x 0), (Z.eqb_spec x (Z.of_nat (np.xdim a) - 1)),
    (Z.ltb_spec 0 y), (Z.ltb_spec y (Z.of_nat (np.ydim a) - 1)),
    (Z.eqb_spec y 0), (Z.eqb_spec y (Z.of_nat (np.ydim a) - 1));
    try lia; cbn [andb] in Hraise;
    match type of Hraise with
    | forall ps, Ok (?xs, ?ys) = _ -> _ =>
        apply (Hraise (zip ys xs)); [reflexivity|]
    end; cbn [zip zip_with];
    repeat first
      [ apply Exists_cons_hd; cbn [fst snd];
        first [apply getitem_raises_x; lia | apply getitem_raises_y; lia]
      | apply Exists_cons_tl ].
Qed.

(** X25: on an image one pixel wide or one pixel high that holds a
    candidate, [find_open_and_low_qe_pixels] raises IndexError: the
    neighbour lookup of the first candidate reads outside the image. *)
Theorem find_open_and_low_qe_pixels_thin_image_raises (a : np.ndarray pyfloat)
    lo hi max r c :
  np.wf a -> np.xdim a = 1%nat \/ np.ydim a = 1%nat ->
  is_candidate a lo hi r c = true ->
  find_open_and_low_qe_pixels a lo hi max = Raise IndexError.
Proof.
  intros Hwf Hthin Hcand. rewrite find_open_and_low_qe_pixels_loop.
  pose proof (candidate_coords_in_grid a lo hi Hwf) as Hgrid.
  assert (Hin : (Z.of_nat c, Z.of_nat r) ∈ candidate_coords a lo hi).
  { apply elem_of_candidate_coords. exists r, c. auto. }
  destruct (candidate_coords a lo hi) as [|[x y] l].
  - apply elem_of_nil in Hin. contradiction.
  - apply Forall_cons in Hgrid as [Hp _]. apply in_grid_true in Hp.
    cbn [fst snd] in Hp. cbn [for_each].
    rewrite (open_low_qe_step_thin a max _ x y Hthin); [reflexivity|lia|lia].
Qed.

Lemma find_open_and_low_qe_pixels_thin_image_raises_witness :
  find_open_and_low_qe_pixels (np.NDArray 1 3 [[hi; lo; hi]])
    (Fin 0.05) (Fin 0.5) (Fin 1.05) = Raise IndexError.
Proof.
  apply (find_open_and_low_qe_pixels_thin_image_raises
           (np.NDArray 1 3 [[hi; lo; hi]]) (Fin 0.05) (Fin 0.5) (Fin 1.05) 0 1).
  - apply (bool_decide_unpack _). vm_compute. exact I.
  - right. reflexivity.
  - vm_compute. reflexivity.
Defined.

(** ** [read_files], [extract_10th_group] *)

Lemma dict_getitem_upper (d : list (string * string)) k w :
  upper <$> dict_get d k = Some w ->
  exists v, dict_getitem d k = inr v /\ upper v = w.
Proof.
  unfold dict_getitem. destruct (dict_get d k) as [v|]; [|discriminate].
  cbn. intros H. injection H as <-. exists v. split; reflexivity.
Qed.

Ltac read_header Hi Hd Ha :=
  apply dict_getitem_upper in Hi as (?vi & ?Ei & ?Hi);
  apply dict_getitem_upper in Hd as (?vd & ?Ed & ?Hd);
  apply dict_getitem_upper in Ha as (?va & ?Ea & ?Ha);
  unfold io.read_files_body;
  repeat match goal with
         | E : dict_getitem _ _ = inr _ |- _ => rewrite E; clear E
         end;
  cbv beta iota zeta delta [rbind];
  subst.

Lemma string_eqb_refl_negb s : negb (String.eqb s s) = false.
Proof. rewrite String.eqb_refl. reflexivity. Qed.

Lemma read_files_body_first dst inst det ap f e :
  io.file_reads dst inst det ap f e ->
  io.read_files_body dst None (0%nat, f)
  = Ok (Some (fits.Data3 (np.NDArray3 (np.zdim3 e + np.zdim3 e) (np.ydim3 e)
                                      (np.xdim3 e) (np.planes e ++ np.planes e)),
              inst, det, ap)).
Proof.
  intros (Hi & Hd & Ha & He). read_header Hi Hd Ha.
  rewrite He. unfold Ok at 1. cbn [Nat.eqb].
  rewrite !string_eqb_refl_negb. cbn [fits.concatenate].
  rewrite !Nat.eqb_refl. reflexivity.
Qed.

Lemma read_files_body_next dst inst det ap f e s i :
  i <> 0%nat -> io.file_reads dst inst det ap f e ->
  np.ydim3 e = np.ydim3 s -> np.xdim3 e = np.xdim3 s ->
  io.read_files_body dst (Some (fits.Data3 s, inst, det, ap)) (i, f)
  = Ok (Some (fits.Data3 (np.NDArray3 (np.zdim3 s + np.zdim3 e) (np.ydim3 s)
                                      (np.xdim3 s) (np.planes s ++ np.planes e)),
              inst, det, ap)).
Proof.
  intros Hi0 (Hi & Hd & Ha & He) Hy Hx. read_header Hi Hd Ha.
  rewrite He. unfold Ok at 1.
  destruct (Nat.eqb_spec i 0) as [|_]; [contradiction|].
  rewrite !string_eqb_refl_negb. cbn [fits.concatenate].
  rewrite Hy, Hx, !Nat.eqb_refl. reflexivity.
Qed.

Lemma read_files_rest dst inst det ap yd xd files es :
  Forall2 (io.file_reads dst inst det ap) files es ->
  Forall (fun e => np.ydim3 e = yd /\ np.xdim3 e = xd) es ->
  forall i s, i <> 0%nat -> np.ydim3 s = yd -> np.xdim3 s = xd ->
  for_each (zip (seq i (length files)) files) (io.read_files_body dst)
           (Some (fits.Data3 s, inst, det, ap))
  = Ok (Some (fits.Data3
                (np.NDArray3 (np.zdim3 s + sum_nat (np.zdim3 <$> es)) yd xd
                             (np.planes s ++ mjoin (np.planes <$> es))),
              inst, det, ap)).
Proof.
  induction 1 as [|f e files es Hf Hfs IH]; intros Hdims i s Hi Hy Hx.
  - cbn. rewrite Nat.add_0_r, app_nil_r. destruct s; cbn in *. subst. reflexivity.
  - apply Forall_cons in Hdims as [[Hey Hex] Hdims].
    cbn [length seq zip zip_with for_each].
    rewrite (read_files_body_next dst inst det ap f e s i Hi Hf) by congruence.
    unfold Ok at 1. cbn [rbind].
    rewrite (IH Hdims (S i)); [|lia|cbn; exact Hy|cbn; exact Hx].
    cbn [np.zdim3 np.planes fmap list_fmap mjoin list_join sum_nat foldr].
    rewrite Nat.add_assoc, app_assoc. reflexivity.
Qed.

(** The state of the loop of [read_files] after files that read
    consistently: the exposure of the first file, then the exposures of
    all the files. *)
Lemma read_files_loop_state dst inst det ap yd xd files e1 es :
  Forall2 (io.file_reads dst inst det ap) files (e1 :: es) ->
  Forall (fun e => np.ydim3 e = yd /\ np.xdim3 e = xd) (e1 :: es) ->
  for_each (zip (seq 0 (length files)) files) (io.read_files_body dst) None
  = Ok (Some (fits.Data3
                (np.NDArray3 (np.zdim3 e1 + sum_nat (np.zdim3 <$> e1 :: es)) yd xd
                             (np.planes e1 ++ mjoin (np.planes <$> e1 :: es))),
              inst, det, ap)).
Proof.
  intros Hfiles Hdims. inversion Hfiles as [|f e files' es' Hf Hfs]; subst.
  apply Forall_cons in Hdims as [[Hy Hx] Hdims].
  cbn [length seq zip zip_with for_each].
  rewrite (read_files_body_first dst inst det ap f e1 Hf).
  unfold Ok at 1. cbn [rbind].
  rewrite (read_files_rest dst inst det ap yd xd files' es Hfs Hdims 1);
    [|lia|exact Hy|exact Hx].
  cbn [np.zdim3 np.planes fmap list_fmap mjoin list_join sum_nat foldr].
  rewrite <- Nat.add_assoc, <- app_assoc. reflexivity.
Qed.

Lemma read_files_stack dst inst det ap yd xd files e1 es :
  Forall2 (io.file_reads dst inst det ap) files (e1 :: es) ->
  Forall (fun e => np.ydim3 e = yd /\ np.xdim3 e = xd) (e1 :: es) ->
  io.read_files files dst
  = Ok (fits.Data3
          (np.NDArray3 (np.zdim3 e1 + sum_nat (np.zdim3 <$> e1 :: es)) yd xd
                       (np.planes e1 ++ mjoin (np.planes <$> e1 :: es))),
        inst, det).
Proof.
  intros Hfiles Hdims. unfold io.read_files.
  rewrite (read_files_loop_state dst inst det ap yd xd files e1 es Hfiles Hdims).
  reflexivity.
Qed.

Lemma slope_image_reads dst inst det ap f a :
  dst <> "zero_signal"%string -> io.slope_image inst det ap f a ->
  io.file_reads dst inst det ap f (fits.expand_dims a).
Proof.
  intros Hdst (Hi & Hd & Ha & Hramp & Hsci).
  split; [exact Hi|]. split; [exact Hd|]. split; [exact Ha|].
  unfold io.exposure_of, io.rampfit_of, fits.sci_data.
  apply String.eqb_neq in Hdst. rewrite Hdst, Hramp, Hsci. reflexivity.
Qed.

Lemma sum_nat_expand_dims (l : list (np.ndarray pyfloat)) :
  sum_nat (np.zdim3 <$> (fits.expand_dims <$> l)) = length l.
Proof.
  induction l as [|a l IH]; [reflexivity|].
  cbn [length]. rewrite <- IH. reflexivity.
Qed.

Lemma planes_expand_dims (l : list (np.ndarray pyfloat)) :
  mjoin (np.planes <$> (fits.expand_dims <$> l)) = np.rows <$> l.
Proof.
  induction l as [|a l IH]; [reflexivity|].
  rewrite (fmap_cons np.rows), <- IH. reflexivity.
Qed.

(** X26: for slope images (ramp fitting complete, 2-D SCI data) of one
    instrument, detector, aperture and shape, and a search type other than
    zero_signal, [read_files] returns a stack that holds the image of the
    first file twice and then the images of the other files in order:
    n files give n + 1 planes. *)
Theorem read_files_stacks_first_file_twice dst inst det ap yd xd files a1 imgs :
  dst <> "zero_signal"%string ->
  Forall2 (io.slope_image inst det ap) files (a1 :: imgs) ->
  Forall (fun a => np.shape a = (yd, xd)) (a1 :: imgs) ->
  io.read_files files dst
  = Ok (fits.Data3 (np.NDArray3 (S (S (length imgs))) yd xd
                                (np.rows a1 :: np.rows a1 :: (np.rows <$> imgs))),
        inst, det).
Proof.
  intros Hdst Hfiles Hshape.
  rewrite (read_files_stack dst inst det ap yd xd files (fits.expand_dims a1)
             (fits.expand_dims <$> imgs)).
  - rewrite !fmap_cons. cbn [sum_nat foldr mjoin list_join].
    fold (sum_nat (np.zdim3 <$> (fits.expand_dims <$> imgs))).
    rewrite sum_nat_expand_dims.
    change (list_join _ (np.planes <$> (fits.expand_dims <$> imgs)))
      with (mjoin (np.planes <$> (fits.expand_dims <$> imgs))).
    rewrite planes_expand_dims. reflexivity.
  - change (fits.expand_dims a1 :: (fits.expand_dims <$> imgs))
      with (fits.expand_dims <$> (a1 :: imgs)).
    apply Forall2_fmap_r. eapply Forall2_impl; [exact Hfiles|].
    intros f a Hs. apply slope_image_reads; assumption.
  - change (fits.expand_dims a1 :: (fits.expand_dims <$> imgs))
      with (fits.expand_dims <$> (a1 :: imgs)).
    apply Forall_fmap. eapply Forall_impl; [exact Hshape|].
    intros a Ha. unfold np.shape in Ha. injection Ha as <- <-. split; reflexivity.
Qed.

Lemma read_files_stacks_first_file_twice_witness :
  io.read_files [slope_file_example "a.fits" "nircam" 1;
                 slope_file_example "b.fits" "NIRCAM" 2] "sigma_rate"
  = Ok (fits.Data3 (np.NDArray3 3 1 2 [[[Fin 1; Fin 1]]; [[Fin 1; Fin 1]];
                                       [[Fin 2; Fin 2]]]),
        "NIRCAM"%string, "NRCA1"%string).
Proof.
  apply (read_files_stacks_first_file_twice "sigma_rate" "NIRCAM" "NRCA1" "FULL"
           1 2 _ (np.NDArray 1 2 [[Fin 1; Fin 1]])
           [np.NDArray 1 2 [[Fin 2; Fin 2]]]).
  - discriminate.
  - repeat constructor.
  - repeat constructor.
Defined.

(** X27: with no file to read, [read_files] raises UnboundLocalError
    whatever the search type: the names it returns are bound in the
    loop only. *)
Theorem read_files_no_file_raises (dead_search_type : string) :
  io.read_files [] dead_search_type = Raise UnboundLocalError.
Proof. reflexivity. Qed.

Lemma zip_seq_app {A} (l1 l2 : list A) i :
  zip (seq i (length (l1 ++ l2))) (l1 ++ l2)
  = zip (seq i (length l1)) l1 ++ zip (seq (i + length l1) (length l2)) l2.
Proof.
  revert i. induction l1 as [|x l1 IH]; intros i.
  - cbn. rewrite Nat.add_0_r. reflexivity.
  - cbn [app length seq zip zip_with]. rewrite IH.
    replace (S i + length l1)%nat with (i + S (length l1))%nat by lia.
    reflexivity.
Qed.

(** X28: a slope image whose upper-cased instrument differs from that of
    the first file, after slope images that agree with the first, makes
    [read_files] raise the ValueError for inconsistent instruments,
    whatever follows. *)
Theorem read_files_inconsistent_instrument dst inst det ap yd xd pre a1 imgs
    f inst' det' ap' a post :
  dst <> "zero_signal"%string ->
  Forall2 (io.slope_image inst det ap) pre (a1 :: imgs) ->
  Forall (fun a => np.shape a = (yd, xd)) (a1 :: imgs) ->
  io.slope_image inst' det' ap' f a -> inst' <> inst ->
  io.read_files (pre ++ f :: post) dst
  = Raise (ValueError "Inconsistent instruments in input data!").
Proof.
  intros Hdst Hpre Hshape Hf Hne.
  assert (Hreads : Forall2 (io.file_reads dst inst det ap) pre
                     (fits.expand_dims a1 :: (fits.expand_dims <$> imgs))).
  { change (fits.expand_dims a1 :: (fits.expand_dims <$> imgs))
      with (fits.expand_dims <$> (a1 :: imgs)).
    apply Forall2_fmap_r. eapply Forall2_impl; [exact Hpre|].
    intros g b Hs. apply slope_image_reads; assumption. }
  assert (Hdims : Forall (fun e => np.ydim3 e = yd /\ np.xdim3 e = xd)
                    (fits.expand_dims a1 :: (fits.expand_dims <$> imgs))).
  { change (fits.expand_dims a1 :: (fits.expand_dims <$> imgs))
      with (fits.expand_dims <$> (a1 :: imgs)).
    apply Forall_fmap. eapply Forall_impl; [exact Hshape|].
    intros b Hb. unfold np.shape in Hb. injection Hb as <- <-. split; reflexivity. }
  unfold io.read_files. rewrite zip_seq_app, for_each_app.
  rewrite (read_files_loop_state dst inst det ap yd xd pre _ _ Hreads Hdims).
  unfold Ok at 1. cbn [rbind length seq zip zip_with for_each].
  apply (slope_image_reads dst) in Hf; [|exact Hdst].
  destruct Hf as (Hi & Hd & Ha & He).
  assert (Hlen : (0 + length pre)%nat <> 0%nat).
  { apply Forall2_length in Hpre. cbn [length] in Hpre. lia. }
  read_header Hi Hd Ha. rewrite He. unfold Ok at 1.
  destruct (Nat.eqb_spec (0 + length pre) 0) as [|_]; [contradiction|].
  apply String.eqb_neq in Hne. rewrite Hne. reflexivity.
Qed.

Lemma read_files_inconsistent_instrument_witness :
  io.read_files ([slope_file_example "a.fits" "nircam" 1]
                 ++ slope_file_example "b.fits" "NIRISS" 2 :: [])
                "absolute_rate"
  = Raise (ValueError "Inconsistent instruments in input data!").
Proof.
  apply (read_files_inconsistent_instrument "absolute_rate" "NIRCAM" "NRCA1" "FULL"
           1 2 _ (np.NDArray 1 2 [[Fin 1; Fin 1]]) []
           _ "NIRISS" "NRCA1" "FULL" (np.NDArray 1 2 [[Fin 2; Fin 2]])).
  - discriminate.
  - repeat constructor.
  - repeat constructor.
  - repeat constructor.
  - discriminate.
Defined.

Lemma traverse_group_9 {A} (l : list (list A)) :
  Forall (fun g => (10 <= length g)%nat) l ->
  fits.traverse fits.group_9 l = Ok (omap (fun g => g !! 9%nat) l) /\
  length (omap (fun g : list A => g !! 9%nat) l) = length l /\
  forall i g, l !! i = Some g ->
              omap (fun g : list A => g !! 9%nat) l !! i = g !! 9%nat.
Proof.
  induction 1 as [|g l Hg Hl (IH1 & IH2 & IH3)].
  - split; [reflexivity|]. split; [reflexivity|]. intros i g Hi.
    rewrite lookup_nil in Hi. discriminate.
  - destruct (lookup_lt_is_Some_2 g 9%nat) as [p Hp]; [lia|].
    cbn [fits.traverse omap list_omap]. unfold fits.group_9 at 1.
    rewrite Hp. unfold Ok at 1. cbn [rbind]. rewrite IH1.
    split; [reflexivity|]. split; [cbn [length]; rewrite IH2; reflexivity|].
    intros [|i] g' Hi; cbn in Hi |- *.
    + injection Hi as <-. symmetry. exact Hp.
    + apply IH3. exact Hi.
Qed.

Lemma wf4_groups {A} (a : fits.ndarray4 A) :
  fits.wf4 a -> (10 <= fits.gdim4 a)%nat ->
  Forall (fun g => (10 <= length g)%nat) (fits.integrations a).
Proof.
  intros [_ Hall] Hg. eapply Forall_impl; [exact Hall|].
  intros g [Hlen _]. cbn in Hlen. lia.
Qed.

Lemma extract_10th_group_4d_eq (h : fits.hdu_list) (a : fits.ndarray4 pyfloat) :
  is_Some (dict_get (fits.header h) "FILENAME") ->
  fits.sci h = Some (fits.Data4 a) ->
  fits.wf4 a -> (10 <= fits.gdim4 a)%nat ->
  extract_10th_group h
  = Ok (np.NDArray3 (fits.idim4 a) (fits.ydim4 a) (fits.xdim4 a) (tenth_groups a)).
Proof.
  intros [name Hname] Hsci Hwf Hg.
  unfold extract_10th_group, dict_getitem, fits.sci_data.
  rewrite Hname, Hsci. unfold Ok at 1 2. cbn [rbind].
  destruct (Nat.ltb_spec (fits.gdim4 a) 10) as [|_]; [lia|].
  destruct (traverse_group_9 (fits.integrations a) (wf4_groups a Hwf Hg))
    as (Htr & _ & _).
  rewrite Htr. reflexivity.
Qed.

(** X29: for a 4-D exposure of at least 10 groups in a file whose header
    has FILENAME, [extract_10th_group] returns a 3-D stack with one plane
    per integration, the plane of integration i being its group of
    index 9. *)
Theorem extract_10th_group_takes_group_9 (h : fits.hdu_list)
    (a : fits.ndarray4 pyfloat) :
  is_Some (dict_get (fits.header h) "FILENAME") ->
  fits.sci h = Some (fits.Data4 a) ->
  fits.wf4 a -> (10 <= fits.gdim4 a)%nat ->
  exists g,
    extract_10th_group h = Ok g /\ np.wf3 g /\
    np.zdim3 g = fits.idim4 a /\ np.ydim3 g = fits.ydim4 a /\
    np.xdim3 g = fits.xdim4 a /\
    forall i integ, fits.integrations a !! i = Some integ ->
                    is_Some (integ !! 9%nat) /\
                    np.planes g !! i = integ !! 9%nat.
Proof.
  intros Hname Hsci Hwf Hg.
  exists (np.NDArray3 (fits.idim4 a) (fits.ydim4 a) (fits.xdim4 a) (tenth_groups a)).
  split; [apply extract_10th_group_4d_eq; assumption|].
  destruct (traverse_group_9 (fits.integrations a) (wf4_groups a Hwf Hg))
    as (_ & Hlen & Hat).
  split.
  { split; cbn [np.planes np.zdim3 np.ydim3 np.xdim3].
    - unfold tenth_groups. rewrite Hlen. exact (proj1 Hwf).
    - apply Forall_forall. intros p Hp. unfold tenth_groups in Hp.
      apply list_elem_of_omap in Hp as (integ & Hinteg & Hp9).
      destruct Hwf as [_ Hall]. rewrite Forall_forall in Hall.
      destruct (Hall integ Hinteg) as [_ Hplanes]. cbn in Hplanes.
      rewrite Forall_forall in Hplanes. apply Hplanes.
      eapply list_elem_of_lookup_2. exact Hp9. }
  split; [reflexivity|]. split; [reflexivity|]. split; [reflexivity|].
  intros i integ Hi. split.
  - apply lookup_lt_is_Some_2.
    pose proof (wf4_groups a Hwf Hg) as Hall. rewrite Forall_forall in Hall.
    apply Hall. eapply list_elem_of_lookup_2. exact Hi.
  - cbn [np.planes]. unfold tenth_groups. apply Hat. exact Hi.
Qed.

Lemma extract_10th_group_takes_group_9_witness :
  exists g,
    extract_10th_group (raw_file_example "raw.fits" 2 12) = Ok g /\
    np.planes g !! 1%nat = Some [[Fin (inject_Z 9)]].
Proof.
  destruct (extract_10th_group_takes_group_9 (raw_file_example "raw.fits" 2 12)
              (fits.NDArray4 2 12 1 1
                 (replicate 2 ((fun g => [[Fin (inject_Z (Z.of_nat g))]])
                                 <$> seq 0 12))))
    as (g & Hg & _ & _ & _ & _ & Hat).
  - eexists. reflexivity.
  - reflexivity.
  - split; [reflexivity|]. repeat constructor.
  - cbn. lia.
  - exists g. split; [exact Hg|].
    destruct (Hat 1%nat _ eq_refl) as [_ H9]. exact H9.
Defined.

Lemma raw_exposure_reads inst det ap f a :
  raw_exposure inst det ap f a -> fits.wf4 a -> (10 <= fits.gdim4 a)%nat ->
  io.file_reads "zero_signal" inst det ap f (tenth_group_stack a).
Proof.
  intros (Hi & Hd & Ha & Hramp & Hname & Hsci) Hwf Hg.
  split; [exact Hi|]. split; [exact Hd|]. split; [exact Ha|].
  unfold io.exposure_of.
  assert (Hr : String.eqb (io.rampfit_of f) "COMPLETE" = false).
  { apply String.eqb_neq. unfold io.rampfit_of.
    destruct (dict_get (fits.header f) "S_RAMP") as [v|]; [|discriminate].
    intros ->. apply Hramp. reflexivity. }
  change (String.eqb "zero_signal" "zero_signal") with true. cbn [negb].
  rewrite Hr.
  rewrite (extract_10th_group_4d_eq f a Hname Hsci Hwf Hg). reflexivity.
Qed.

Lemma Forall2_Forall_r {A B} (P : A -> B -> Prop) (Q : B -> Prop) l k :
  Forall2 P l k -> Forall Q k -> Forall2 (fun x y => P x y /\ Q y) l k.
Proof.
  induction 1 as [|x y l k Hxy Hlk IH]; intros HQ; [constructor|].
  apply Forall_cons in HQ as [Hy HQ]. constructor; [split; assumption|auto].
Qed.

(** X30: for raw 4-D exposures (ramp fitting not complete) of at least 10
    groups, of one instrument, detector, aperture and image shape, the
    zero_signal search reads a stack made of the tenth groups of the
    integrations of the first file, twice, and then those of the other
    files in order. *)
Theorem read_files_zero_signal_stacks_tenth_groups inst det ap yd xd files
    a1 raws :
  Forall2 (raw_exposure inst det ap) files (a1 :: raws) ->
  Forall (fun a => fits.wf4 a /\ (10 <= fits.gdim4 a)%nat /\
                   fits.ydim4 a = yd /\ fits.xdim4 a = xd) (a1 :: raws) ->
  io.read_files files "zero_signal"
  = Ok (fits.Data3
          (np.NDArray3 (fits.idim4 a1 + sum_nat (fits.idim4 <$> a1 :: raws)) yd xd
                       (tenth_groups a1 ++ mjoin (tenth_groups <$> a1 :: raws))),
        inst, det).
Proof.
  intros Hfiles Hall.
  rewrite (read_files_stack "zero_signal" inst det ap yd xd files
             (tenth_group_stack a1) (tenth_group_stack <$> raws)).
  - change (tenth_group_stack a1 :: (tenth_group_stack <$> raws))
      with (tenth_group_stack <$> (a1 :: raws)).
    rewrite <- !list_fmap_compose. reflexivity.
  - change (tenth_group_stack a1 :: (tenth_group_stack <$> raws))
      with (tenth_group_stack <$> (a1 :: raws)).
    apply Forall2_fmap_r.
    eapply Forall2_impl; [exact (Forall2_Forall_r _ _ _ _ Hfiles Hall)|].
    intros f a [Hraw (Hwf & Hg & _)]. apply raw_exposure_reads; assumption.
  - change (tenth_group_stack a1 :: (tenth_group_stack <$> raws))
      with (tenth_group_stack <$> (a1 :: raws)).
    apply Forall_fmap. eapply Forall_impl; [exact Hall|].
    intros a (_ & _ & Hy & Hx). split; assumption.
Qed.

Lemma read_files_zero_signal_stacks_tenth_groups_witness :
  io.read_files [raw_file_example "a.fits" 1 10; raw_file_example "b.fits" 2 11]
                "zero_signal"
  = Ok (fits.Data3
          (np.NDArray3 4 1 1 [[[Fin (inject_Z 9)]]; [[Fin (inject_Z 9)]];
                              [[Fin (inject_Z 9)]]; [[Fin (inject_Z 9)]]]),
        "NIRCAM"%string, "NRCA1"%string).
Proof.
  refine (read_files_zero_signal_stacks_tenth_groups "NIRCAM" "NRCA1" "FULL" 1 1
            [raw_file_example "a.fits" 1 10; raw_file_example "b.fits" 2 11]
            (fits.NDArray4 1 10 1 1
               (replicate 1 ((fun g => [[Fin (inject_Z (Z.of_nat g))]]) <$> seq 0 10)))
            [fits.NDArray4 2 11 1 1
               (replicate 2 ((fun g => [[Fin (inject_Z (Z.of_nat g))]]) <$> seq 0 11))]
            _ _).
  - repeat constructor; try discriminate; eexists; reflexivity.
  - repeat constructor; cbn; lia.
Defined.
